(** * z316_email_purchase: the event-processing pipeline of [main.py]

    A shallow embedding of the webhook pipeline (ERP gateway with its
    tenacity retry policy, fiscal-document calls, customer lookup, warehouse
    aggregation and the SendGrid dispatcher) and the properties the
    specification states about it.

    Python values are an inductive type, exceptions are a sum-typed result,
    and the external collaborators (HTTP, BigQuery, SendGrid, the clock and
    the logger) are an explicit history of events threaded through a
    state-and-exception monad. *)

From Stdlib Require Import String Ascii List ZArith QArith Bool Arith Lia Lqa.
From Stdlib Require Import SpecFloat.
Import ListNotations.

Local Open Scope string_scope.
Local Open Scope list_scope.
Local Close Scope Q_scope.
Set Warnings "-register-all".

(* ===================================================================== *)
(** * Python values *)
(* ===================================================================== *)

Module Py.

(** The values [json.loads] / [response.json()] produce, which are also the
    values BigQuery rows carry.  A float is kept as data ([spec_float]); the
    pipeline never computes with one, it only tests truthiness. *)
Inductive value : Type :=
| VNone
| VBool (b : bool)
| VInt (z : Z)
| VFloat (f : spec_float)
| VStr (s : string)
| VList (l : list value)
| VDict (d : list (string * value)).

(** The exception classes the module raises, catches or lets through. *)
Inductive exn : Type :=
| RequestException (detail : string)      (* requests.exceptions.RequestException *)
| ValidationError (msg : string)
| InvalidTokenError (erro_message : value)
| RetryableError (erro_message : value)
| BadRequest (detail : string)            (* google.cloud.exceptions.BadRequest *)
| KeyError (key : value)
| IndexError
| TypeError
| AttributeError
| UnboundLocalError
| RecursionError
| PyException (msg : string)              (* a plain Exception("...") *)
| OtherError (cls : string) (detail : string)
| RetryError (last_attempt : exn).        (* tenacity.RetryError *)

Inductive result (A : Type) : Type :=
| Ret (a : A)
| Raise (e : exn).
Arguments Ret {A} a.
Arguments Raise {A} e.

Definition rbind {A B} (r : result A) (k : A -> result B) : result B :=
  match r with
  | Ret a => k a
  | Raise e => Raise e
  end.

(** ** Dictionaries: insertion-ordered, looked up by key *)

Fixpoint dict_get (k : string) (d : list (string * value)) : option value :=
  match d with
  | [] => None
  | (k', v) :: d' => if String.eqb k k' then Some v else dict_get k d'
  end.

(** [d[k] = v]: replaces the binding in place, or appends a new one. *)
Fixpoint dict_set (k : string) (v : value) (d : list (string * value))
  : list (string * value) :=
  match d with
  | [] => [(k, v)]
  | (k', v') :: d' =>
      if String.eqb k k' then (k, v) :: d' else (k', v') :: dict_set k v d'
  end.

Definition dict_has (k : string) (d : list (string * value)) : bool :=
  match dict_get k d with Some _ => true | None => false end.

(** ** Truthiness, equality with a string literal, [is None] *)

Definition truthy (v : value) : bool :=
  match v with
  | VNone => false
  | VBool b => b
  | VInt z => negb (Z.eqb z 0)
  | VFloat (S754_zero _) => false
  | VFloat _ => true
  | VStr s => negb (String.eqb s EmptyString)
  | VList l => match l with [] => false | _ => true end
  | VDict d => match d with [] => false | _ => true end
  end.

(** [v == 'lit']: only a [str] equals a [str]. *)
Definition eq_str (v : value) (lit : string) : bool :=
  match v with
  | VStr s => String.eqb s lit
  | _ => false
  end.

Definition is_none (v : value) : bool :=
  match v with VNone => true | _ => false end.

Definition is_substring (needle hay : string) : bool :=
  match String.index 0 needle hay with Some _ => true | None => false end.

(** ** The four container operations the module uses *)

(** ['key' in c] *)
Definition contains (key : string) (c : value) : result bool :=
  match c with
  | VDict d => Ret (dict_has key d)
  | VList l => Ret (existsb (fun v => eq_str v key) l)
  | VStr s => Ret (is_substring key s)
  | _ => Raise TypeError
  end.

(** [c['key']] *)
Definition getitem (c : value) (key : string) : result value :=
  match c with
  | VDict d =>
      match dict_get key d with
      | Some v => Ret v
      | None => Raise (KeyError (VStr key))
      end
  | _ => Raise TypeError
  end.

(** [c[0]] *)
Definition getitem0 (c : value) : result value :=
  match c with
  | VList (x :: _) => Ret x
  | VList [] => Raise IndexError
  | VStr (String a _) => Ret (VStr (String a EmptyString))
  | VStr EmptyString => Raise IndexError
  | VDict _ => Raise (KeyError (VInt 0))
  | _ => Raise TypeError
  end.

(** [c.get('key', default)]: only a [dict] has the method. *)
Definition get (c : value) (key : string) (default : value) : result value :=
  match c with
  | VDict d =>
      Ret (match dict_get key d with Some v => v | None => default end)
  | _ => Raise AttributeError
  end.

End Py.
Import Py.

Declare Scope res_scope.
Delimit Scope res_scope with res.
Bind Scope res_scope with result.
Notation "x <- r ;; k" := (rbind r (fun x => k))
  (at level 61, r at next level, right associativity) : res_scope.

(* ===================================================================== *)
(** * The outside world *)
(* ===================================================================== *)

(** The three ERP endpoints.  A request stands for the URL the f-string
    builds: the endpoint, the token and the one parameter it carries. *)
Inductive api_request : Type :=
| GerarNotaFiscalPedido (token : string) (dados_id : value)
| NotaFiscalObterLink (token : string) (idNotafiscal : value)
| ContatosPesquisa (token : string) (cpf_cnpj : value).

(** The five warehouse queries, each standing for its SQL text. *)
Inductive query : Type :=
| ClientEmailQuery (cpf_cnpj : value)
| PurchaseDetailsQuery (dados_id : value)
| DailyCheckinsQuery (cpf_cnpj : value)
| QuarterSpendQuery (cpf_cnpj : value)
| LifetimeSpendQuery (cpf_cnpj : value).

(** Rows, one record per SELECT list (only the columns the code reads). *)
Record email_row := { row_email : value }.
Record item_row := {
  row_item_name : value;
  row_item_quantity : value;
  row_item_price : value;
  row_total_item_price : value;
  row_total_discount : value;
  row_total_paid : value;
  row_payment_method : value;
  row_sub_total : value }.
Record checkins_row := { row_daily_checkins : value }.
Record quarter_row := { row_quarter_spend : value }.
Record lifetime_row := { row_total_spend : value }.

(** The [Mail] object handed to [sg_client.send]. *)
Record message := {
  from_email : string;
  to_emails : value;
  template_id : string;
  dynamic_template_data : value;
  asm_group_id : Z;
  asm_groups_to_display : list Z }.

Inductive level : Type := INFO | WARNING | ERROR.

(** What an invocation does to the outside, newest event first. *)
Inductive event : Type :=
| EvLog (lv : level) (msg : string)
| EvSleep (seconds : Q)
| EvHttpGet (req : api_request)
| EvQuery (q : query)
| EvSend (m : message).

Definition history := list event.

Inductive http_reply : Type :=
| HttpOk (json_data : value)     (* 2xx and a body that parses *)
| HttpRaise (e : exn).           (* requests.get / raise_for_status / json *)

Inductive bq_reply (R : Type) : Type :=
| BqRows (rows : list R)
| BqRaise (e : exn).
Arguments BqRows {R} rows.
Arguments BqRaise {R} e.

Inductive sg_reply : Type :=
| SgResponse (status_code : Z) (body : string)
| SgRaise (e : exn).

(** Event kinds: each external service answers its n-th request of a kind. *)
Definition is_gerar (ev : event) : bool :=
  match ev with EvHttpGet (GerarNotaFiscalPedido _ _) => true | _ => false end.
Definition is_obter_link (ev : event) : bool :=
  match ev with EvHttpGet (NotaFiscalObterLink _ _) => true | _ => false end.
Definition is_contatos (ev : event) : bool :=
  match ev with EvHttpGet (ContatosPesquisa _ _) => true | _ => false end.
Definition is_email_query (ev : event) : bool :=
  match ev with EvQuery (ClientEmailQuery _) => true | _ => false end.
Definition is_items_query (ev : event) : bool :=
  match ev with EvQuery (PurchaseDetailsQuery _) => true | _ => false end.
Definition is_checkins_query (ev : event) : bool :=
  match ev with EvQuery (DailyCheckinsQuery _) => true | _ => false end.
Definition is_quarter_query (ev : event) : bool :=
  match ev with EvQuery (QuarterSpendQuery _) => true | _ => false end.
Definition is_lifetime_query (ev : event) : bool :=
  match ev with EvQuery (LifetimeSpendQuery _) => true | _ => false end.
Definition is_send (ev : event) : bool :=
  match ev with EvSend _ => true | _ => false end.
Definition is_http (ev : event) : bool :=
  match ev with EvHttpGet _ => true | _ => false end.
Definition is_query (ev : event) : bool :=
  match ev with EvQuery _ => true | _ => false end.
Definition is_sleep (ev : event) : bool :=
  match ev with EvSleep _ => true | _ => false end.
Definition is_log (ev : event) : bool :=
  match ev with EvLog _ _ => true | _ => false end.

Definition same_endpoint (req : api_request) : event -> bool :=
  match req with
  | GerarNotaFiscalPedido _ _ => is_gerar
  | NotaFiscalObterLink _ _ => is_obter_link
  | ContatosPesquisa _ _ => is_contatos
  end.

(** How many events of a kind the history holds. *)
Definition calls (kind : event -> bool) (h : history) : nat :=
  length (filter kind h).

(** An environment: the ERP token read at start-up, and what each
    collaborator answers to its n-th request of each kind (counted from 0).
    [lifetime_job_succeeded] is what the n-th lifetime-spend job reports
    once it has been waited for: its state is ['DONE'] and it has no
    errors.  Every sequence of answers an invocation can meet is some
    [world]. *)
Record world := {
  TINY_ERP_API_TOKEN : string;
  requests_get : api_request -> nat -> http_reply;
  query_client_email : value -> nat -> bq_reply email_row;
  query_purchase_details : value -> nat -> bq_reply item_row;
  query_daily_checkins : value -> nat -> bq_reply checkins_row;
  query_quarter_spend : value -> nat -> bq_reply quarter_row;
  query_lifetime_spend : value -> nat -> bq_reply lifetime_row;
  lifetime_job_succeeded : value -> nat -> bool;
  sg_client_send : message -> nat -> sg_reply }.

(* ===================================================================== *)
(** * Programs: state (the history) and exceptions *)
(* ===================================================================== *)

(** A raised exception keeps the history written so far. *)
Definition M (A : Type) : Type := history -> result A * history.

Definition ret {A} (a : A) : M A := fun h => (Ret a, h).
Definition raise {A} (e : exn) : M A := fun h => (Raise e, h).
Definition lift {A} (r : result A) : M A := fun h => (r, h).

Definition bind {A B} (m : M A) (k : A -> M B) : M B :=
  fun h =>
    match m h with
    | (Ret a, h') => k a h'
    | (Raise e, h') => (Raise e, h')
    end.

(** [try: m  except Exception as e: handler e] *)
Definition try_except {A} (m : M A) (handler : exn -> M A) : M A :=
  fun h =>
    match m h with
    | (Ret a, h') => (Ret a, h')
    | (Raise e, h') => handler e h'
    end.

Definition emit (ev : event) : M unit := fun h => (Ret tt, ev :: h).

(** [logging.info / warning / error]; [logging.debug] is below the level
    [basicConfig] sets and writes nothing, so those calls are left out. *)
Definition log (lv : level) (msg : string) : M unit := emit (EvLog lv msg).

(** [time.sleep] *)
Definition sleep (seconds : Q) : M unit := emit (EvSleep seconds).

Declare Scope prog_scope.
Delimit Scope prog_scope with prog.
Bind Scope prog_scope with M.
Notation "x <- m ;; k" := (bind m (fun x => k))
  (at level 61, m at next level, right associativity) : prog_scope.
Notation "m ;; k" := (bind m (fun _ => k))
  (at level 61, right associativity) : prog_scope.

Definition is_request_exception (e : exn) : bool :=
  match e with RequestException _ => true | _ => false end.
Definition is_validation_error (e : exn) : bool :=
  match e with ValidationError _ => true | _ => false end.
Definition is_retryable_error (e : exn) : bool :=
  match e with RetryableError _ => true | _ => false end.
Definition is_bad_request (e : exn) : bool :=
  match e with BadRequest _ => true | _ => false end.

(* ===================================================================== *)
(** * tenacity *)
(* ===================================================================== *)

Module Tenacity.

Definition qmin (a b : Q) : Q := if Qle_bool a b then a else b.
Definition qmax (a b : Q) : Q := if Qle_bool b a then a else b.

(** [wait_exponential(multiplier, min, max)] with the default [exp_base=2],
    called after attempt [attempt_number] (counted from 1):
    [max(max(0, min), min(multiplier * 2 ** (attempt_number - 1), max))]. *)
Definition wait_exponential (multiplier wmin wmax : Q) (attempt_number : nat)
  : Q :=
  let exp := inject_Z (2 ^ Z.of_nat (attempt_number - 1)) in
  let result := Qmult multiplier exp in
  qmax (qmax (inject_Z 0) wmin) (qmin result wmax).

(** Releases before 8.0 raise [exp_base] to [attempt_number] itself. *)
Definition wait_exponential_legacy (multiplier wmin wmax : Q)
  (attempt_number : nat) : Q :=
  let exp := inject_Z (2 ^ Z.of_nat attempt_number) in
  let result := Qmult multiplier exp in
  qmax (qmax (inject_Z 0) wmin) (qmin result wmax).

Section Retrying.
Context {A : Type}.
Variable wait : nat -> Q.                (* wait=... *)
Variable retry_on : exn -> bool.         (* retry=retry_if_exception_type(...) *)
Variable before_sleep : option level.    (* before_sleep=before_sleep_log(...) *)
Variable fn : M A.                       (* the decorated function's body *)

(** One turn of the [Retrying] loop at attempt [attempt_number], with
    [attempts_left] further attempts allowed by [stop_after_attempt]
    ([attempts_left = max_attempt_number - attempt_number], so the stop
    test [attempt_number >= max_attempt_number] is [attempts_left = 0]).
    A result is returned; an exception the [retry] predicate rejects is
    re-raised as it is; when the stop test fires, [RetryError] wraps the
    last exception ([reraise] is left at its default); otherwise the
    [before_sleep] hook runs, the loop sleeps and calls again. *)
Fixpoint attempt (attempts_left : nat) (attempt_number : nat) : M A :=
  fun h =>
    match fn h with
    | (Ret a, h1) => (Ret a, h1)
    | (Raise e, h1) =>
        if retry_on e then
          match attempts_left with
          | O => (Raise (RetryError e), h1)
          | S n =>
              let h2 :=
                match before_sleep with
                | Some lv => EvLog lv "Retrying" :: h1
                | None => h1
                end in
              attempt n (S attempt_number)
                      (EvSleep (wait attempt_number) :: h2)
          end
        else (Raise e, h1)
    end.

(** [@retry(wait=..., stop=stop_after_attempt(max_attempt_number), ...)] *)
Definition retry (max_attempt_number : nat) : M A :=
  attempt (max_attempt_number - 1) 1.
End Retrying.

(** The default [retry] predicate, [retry_if_exception_type()]. *)
Definition any_exception (e : exn) : bool := true.

End Tenacity.

(* ===================================================================== *)
(** * main.py *)
(* ===================================================================== *)

Definition TEMPLATE_ID : string := "d-f5543523eceb42bc9eec353aebc19aef".
Definition FROM_EMAIL : string := "sac@emporiozingaro.com".
Definition TEST_MODE : bool := true.
Definition TEST_EMAIL : string := "rodrigo@brunale.com".

(** [validate_json_payload]: returns [None] or raises. *)
Definition validate_json_payload (json_data : value) : result unit :=
  (retorno <- get json_data "retorno" (VDict []) ;;
   status_processamento <- get retorno "status_processamento" VNone ;;
   if eq_str status_processamento "3" then Ret tt
   else if eq_str status_processamento "2" then
     Raise (ValidationError "Invalid query parameter.")
   else if eq_str status_processamento "1" then
     retorno1 <- get json_data "retorno" (VDict []) ;;
     codigo_erro <- get retorno1 "codigo_erro" (VStr EmptyString) ;;
     retorno2 <- get json_data "retorno" (VDict []) ;;
     erros <- get retorno2 "erros" (VList []) ;;
     erro_message <-
       (if truthy erros
        then (erros0 <- getitem0 erros ;; getitem erros0 "erro")
        else Ret (VStr "Unknown error")) ;;
     if eq_str codigo_erro "1"
     then Raise (InvalidTokenError erro_message)
     else Raise (RetryableError erro_message)
   else Ret tt)%res.

Local Open Scope prog_scope.

Section Pipeline.

Variable w : world.

(** [requests.get(url)], [raise_for_status()] and [response.json()]. *)
Definition http_get (url : api_request) : M value :=
  fun h =>
    match requests_get w url (calls (same_endpoint url) h) with
    | HttpOk json_data => (Ret json_data, EvHttpGet url :: h)
    | HttpRaise e => (Raise e, EvHttpGet url :: h)
    end.

(** [bq_client.query(query).result()], iterated into a list of rows. *)
Definition bq_query {R : Type} (q : query) (kind : event -> bool)
  (answers : nat -> bq_reply R) : M (list R) :=
  fun h =>
    match answers (calls kind h) with
    | BqRows rows => (Ret rows, EvQuery q :: h)
    | BqRaise e => (Raise e, EvQuery q :: h)
    end.

(** [query_job = bq_client.query(query)] followed by [query_job.result()]:
    the rows, with what the job then reports of itself ([succeeded]: its
    state is ['DONE'] and it has no errors). *)
Definition bq_query_job {R : Type} (q : query) (kind : event -> bool)
  (answers : nat -> bq_reply R) (succeeded : nat -> bool)
  : M (bool * list R) :=
  fun h =>
    match answers (calls kind h) with
    | BqRows rows => (Ret (succeeded (calls kind h), rows), EvQuery q :: h)
    | BqRaise e => (Raise e, EvQuery q :: h)
    end.

(** [sg_client.send(message)] *)
Definition sg_send (m : message) : M (Z * string) :=
  fun h =>
    match sg_client_send w m (calls is_send h) with
    | SgResponse status_code body => (Ret (status_code, body), EvSend m :: h)
    | SgRaise e => (Raise e, EvSend m :: h)
    end.

(** The body of [make_api_call], one attempt. *)
Definition make_api_call_attempt (url : api_request) : M value :=
  try_except
    (log INFO "Making API call to: " ;;
     json_data <- http_get url ;;
     _ <- lift (validate_json_payload json_data) ;;
     ret json_data)
    (fun e =>
       (if is_request_exception e then log ERROR "API request failed: "
        else if is_validation_error e then
          log ERROR "Payload validation failed: "
        else log ERROR "Unexpected error: ") ;;
       raise e).

(** [@retry(wait=wait_exponential(multiplier=2.5, min=30, max=187.5),
            stop=stop_after_attempt(4),
            retry=retry_if_exception_type((RequestException, RetryableError)))] *)
Definition api_wait : nat -> Q :=
  Tenacity.wait_exponential (5 # 2)%Q (30 # 1)%Q (375 # 2)%Q.

Definition api_retry_on (e : exn) : bool :=
  is_request_exception e || is_retryable_error e.

Definition make_api_call (url : api_request) : M value :=
  Tenacity.retry api_wait api_retry_on None (make_api_call_attempt url) 4.

Definition generate_nfce (dados_id : value) : M value :=
  log INFO "Starting NFC-e generation for dados_id: " ;;
  let token := TINY_ERP_API_TOKEN w in
  response <- make_api_call (GerarNotaFiscalPedido token dados_id) ;;
  has_fields <- lift
    (in_retorno <- contains "retorno" response ;;
     if in_retorno then
       retorno <- getitem response "retorno" ;;
       in_registros <- contains "registros" retorno ;;
       if in_registros then
         retorno1 <- getitem response "retorno" ;;
         registros <- getitem retorno1 "registros" ;;
         contains "registro" registros
       else Ret false
     else Ret false)%res ;;
  if has_fields then
    nfce_id <- lift
      (retorno <- getitem response "retorno" ;;
       registros <- getitem retorno "registros" ;;
       registro <- getitem registros "registro" ;;
       getitem registro "idNotaFiscal")%res ;;
    log INFO "NFC-e generated successfully with idNotaFiscal: " ;;
    ret nfce_id
  else
    raise (ValidationError
             "NFCe generation response is missing expected fields.").

Definition get_nota_fiscal_link (idNotafiscal : value) : M value :=
  log INFO "Fetching Nota Fiscal link for idNotafiscal: " ;;
  let token := TINY_ERP_API_TOKEN w in
  response <- make_api_call (NotaFiscalObterLink token idNotafiscal) ;;
  has_fields <- lift
    (in_retorno <- contains "retorno" response ;;
     if in_retorno then
       retorno <- getitem response "retorno" ;;
       contains "link_nfe" retorno
     else Ret false)%res ;;
  if has_fields then
    nota_fiscal_link <- lift
      (retorno <- getitem response "retorno" ;;
       getitem retorno "link_nfe")%res ;;
    log INFO "Successfully fetched Nota Fiscal link for idNotafiscal: " ;;
    ret nota_fiscal_link
  else
    log ERROR "Nota Fiscal link response is missing expected fields." ;;
    raise (ValidationError
             "Nota Fiscal link response is missing expected fields.").

Definition get_client_email_from_tinyerp (cliente_cpfCnpj : value) : M value :=
  log INFO "Fetching email for client with CPF/CNPJ from TinyERP: " ;;
  let token := TINY_ERP_API_TOKEN w in
  response <- make_api_call (ContatosPesquisa token cliente_cpfCnpj) ;;
  contatos <- lift
    (retorno <- get response "retorno" (VDict []) ;;
     get retorno "contatos" (VList []))%res ;;
  if truthy contatos then
    contato <- lift
      (contatos0 <- getitem0 contatos ;;
       get contatos0 "contato" (VDict []))%res ;;
    email <- lift (get contato "email" VNone) ;;
    if truthy email then
      log INFO "Successfully fetched email from TinyERP for CPF/CNPJ: " ;;
      ret email
    else
      log WARNING "No email found in TinyERP for CPF/CNPJ: " ;;
      ret VNone
  else
    log WARNING "No contact information found in TinyERP for CPF/CNPJ: " ;;
    ret VNone.

(** The [for row in results: if row.email: return row.email] scan. *)
Definition first_email (results : list email_row) : option value :=
  option_map row_email (find (fun row => truthy (row_email row)) results).

Definition get_client_email (cliente_cpfCnpj : value) : M value :=
  log INFO "Fetching email for client with CPF/CNPJ: " ;;
  try_except
    (results <- bq_query (ClientEmailQuery cliente_cpfCnpj) is_email_query
                  (query_client_email w cliente_cpfCnpj) ;;
     match first_email results with
     | Some email =>
         log INFO "Email found: " ;;
         ret email
     | None =>
         log WARNING "No email found in BigQuery for client with CPF/CNPJ. Falling back to TinyERP." ;;
         get_client_email_from_tinyerp cliente_cpfCnpj
     end)
    (fun e =>
       (if is_bad_request e then
          log ERROR "BigQuery BadRequest Error while fetching email for client"
        else log ERROR "Error fetching email for client") ;;
       raise e).

Definition item_detail (row : item_row) : value :=
  VDict [("item_name", row_item_name row);
         ("item_quantity", row_item_quantity row);
         ("item_price", row_item_price row);
         ("total_item_price", row_total_item_price row)].

(** [purchase_summary.update({...})] for one row. *)
Definition update_summary (purchase_summary : list (string * value))
  (row : item_row) : list (string * value) :=
  dict_set "sub_total" (row_sub_total row)
    (dict_set "payment_method" (row_payment_method row)
       (dict_set "total_paid" (row_total_paid row)
          (dict_set "total_discount" (row_total_discount row)
             purchase_summary))).

(** The body of [get_purchase_details], one attempt. *)
Definition get_purchase_details_attempt (dados_id : value) : M value :=
  log INFO "Fetching purchase details for dados_id: " ;;
  try_except
    (results <- bq_query (PurchaseDetailsQuery dados_id) is_items_query
                  (query_purchase_details w dados_id) ;;
     let items := map item_detail results in
     let purchase_summary := fold_left update_summary results [] in
     match items with
     | [] =>
         log WARNING "No purchase details found for ID. Data might be delayed or ID is incorrect." ;;
         raise (PyException "Purchase details not found after retries.")
     | _ =>
         log INFO "Items details: " ;;
         log INFO "Purchase summary for dados_id" ;;
         ret (VDict (dict_set "items" (VList items) purchase_summary))
     end)
    (fun e =>
       (if is_bad_request e then
          log ERROR "BigQuery BadRequest Error while fetching purchase details for dados_id"
        else
          log ERROR "Unexpected error while fetching purchase details for dados_id") ;;
       raise e).

(** [@retry(wait=wait_exponential(multiplier=30, min=30, max=90),
            stop=stop_after_attempt(4),
            before_sleep=before_sleep_log(logging, logging.INFO))];
    no [retry=] argument, so every exception is retried. *)
Definition items_wait : nat -> Q :=
  Tenacity.wait_exponential (30 # 1)%Q (30 # 1)%Q (90 # 1)%Q.

Definition get_purchase_details (dados_id : value) : M value :=
  Tenacity.retry items_wait Tenacity.any_exception (Some INFO)
    (get_purchase_details_attempt dados_id) 4.

Definition get_daily_checkins (cliente_cpfCnpj : value) : M value :=
  log INFO "Fetching daily check-ins for client with CPF/CNPJ: " ;;
  daily_checkins <-
    try_except
      (results <- bq_query (DailyCheckinsQuery cliente_cpfCnpj)
                    is_checkins_query
                    (query_daily_checkins w cliente_cpfCnpj) ;;
       (* row = next(iter(results), None); row.daily_checkins if row else 0 *)
       let daily_checkins :=
         match results with
         | row :: _ => row_daily_checkins row
         | [] => VInt 0
         end in
       log INFO "Daily check-ins fetched" ;;
       ret daily_checkins)
      (fun e =>
         (if is_bad_request e then
            log ERROR "BigQuery BadRequest Error while fetching daily check-ins for client"
          else log ERROR "Error fetching daily check-ins for client") ;;
         ret (VInt 0)) ;;
  ret (VDict [("daily_checkins", daily_checkins)]).

Definition get_quarter_spend (cliente_cpfCnpj : value) : M value :=
  log INFO "Fetching quarter spend for client with CPF/CNPJ: " ;;
  quarter_spend <-
    try_except
      (results <- bq_query (QuarterSpendQuery cliente_cpfCnpj)
                    is_quarter_query
                    (query_quarter_spend w cliente_cpfCnpj) ;;
       (* next((row.quarter_spend for row in results), 0) *)
       let quarter_spend :=
         match results with
         | row :: _ => row_quarter_spend row
         | [] => VInt 0
         end in
       log INFO "Quarter spend fetched" ;;
       ret quarter_spend)
      (fun e =>
         (if is_bad_request e then
            log ERROR "BigQuery BadRequest Error while fetching quarter spend for client"
          else log ERROR "Error fetching quarter spend for client") ;;
         ret (VInt 0)) ;;
  ret (VDict [("quarter_spend", quarter_spend)]).

(** [next((row.total_spend for row in rows if row.total_spend is not None), 0)] *)
Definition first_total_spend (rows : list lifetime_row) : value :=
  match find (fun row => negb (is_none (row_total_spend row))) rows with
  | Some row => row_total_spend row
  | None => VInt 0
  end.

(** The job is waited for, then asked for its state: the INFO line is
    written when the state is ['DONE'] and there are no errors, an ERROR
    line otherwise, and the rows are used either way.  The job's result is
    read twice ([query_job.result()]); the second read returns the rows of
    the finished job and is not a new request. *)
Definition get_lifetime_spend (cliente_cpfCnpj : value) : M value :=
  log INFO "Fetching lifetime spend for client with CPF/CNPJ: " ;;
  total_spend <-
    try_except
      (query_job <- bq_query_job (LifetimeSpendQuery cliente_cpfCnpj)
                      is_lifetime_query
                      (query_lifetime_spend w cliente_cpfCnpj)
                      (lifetime_job_succeeded w cliente_cpfCnpj) ;;
       (if fst query_job then log INFO "Query executed successfully."
        else log ERROR "Query job didn't finish successfully.") ;;
       let rows := snd query_job in
       match rows with
       | _ :: _ =>
           let total_spend := first_total_spend rows in
           log INFO "Total lifetime spend calculated" ;;
           ret total_spend
       | [] =>
           log WARNING "Query returned no rows. Setting total_spend to 0." ;;
           ret (VInt 0)
       end)
      (fun e =>
         (if is_bad_request e then
            log ERROR "BigQuery BadRequest Error while fetching lifetime spend for client"
          else
            log ERROR "Unexpected error while fetching lifetime spend for client") ;;
         ret (VInt 0)) ;;
  ret (VDict [("total_spend", total_spend)]).

Definition aggregate_email_data
  (cliente_cpfCnpj dados_id client_email nota_fiscal_url client_name : value)
  : M value :=
  try_except
    (items <- get_purchase_details dados_id ;;
     daily_checkins <- get_daily_checkins cliente_cpfCnpj ;;
     quarter_spend <- get_quarter_spend cliente_cpfCnpj ;;
     lifetime_spend <- get_lifetime_spend cliente_cpfCnpj ;;
     email_data <- lift
       (v_items <- get items "items" (VList []) ;;
        v_sub_total <- get items "sub_total" (VStr "0.00") ;;
        v_total_discount <- get items "total_discount" (VStr "0.00") ;;
        v_total_paid <- get items "total_paid" (VStr "0.00") ;;
        v_payment_method <- get items "payment_method" (VStr "N/A") ;;
        v_daily_checkins <- get daily_checkins "daily_checkins" (VInt 0) ;;
        v_quarter_spend <- get quarter_spend "quarter_spend" (VStr "0.00") ;;
        v_lifetime_spend <- get lifetime_spend "total_spend" (VStr "0.00") ;;
        Ret [("client_email", client_email);
             ("client_name", client_name);
             ("dados_id", dados_id);
             ("items", v_items);
             ("sub_total", v_sub_total);
             ("total_discount", v_total_discount);
             ("total_paid", v_total_paid);
             ("payment_method", v_payment_method);
             ("daily_checkins", v_daily_checkins);
             ("quarter_spend", v_quarter_spend);
             ("lifetime_spend", v_lifetime_spend)])%res ;;
     if negb (is_none nota_fiscal_url) then
       ret (VDict (dict_set "nota_fiscal_url" nota_fiscal_url email_data))
     else ret (VDict email_data))
    (fun e =>
       log ERROR "Error aggregating email data for client" ;;
       raise e).

(** [Mail(...)] with the template, the data and the [Asm] group settings. *)
Definition build_message (recipient_email email_data : value) : message :=
  {| from_email := FROM_EMAIL;
     to_emails := recipient_email;
     template_id := TEMPLATE_ID;
     dynamic_template_data := email_data;
     asm_group_id := 23816;
     asm_groups_to_display := [23816; 23831; 23817]%Z |}.

(** [response.status_code in range(200, 300)] *)
Definition in_2xx (status_code : Z) : bool :=
  ((200 <=? status_code) && (status_code <? 300))%Z.

(** The body of [send_email], with [self] standing for the function's call
    to itself from its [except] block.

    [recipient_email] is bound by the first statement of the [try]; if that
    statement raises, the handler's f-string reads an unbound local.
    [send_email] and [process_webhook_payload] return nothing ([M unit]). *)
Definition send_email_body (self : value -> nat -> M unit)
  (email_data : value) (retry_count : nat) : M unit :=
  log INFO "Sending email with data: " ;;
  fun h =>
    match (if TEST_MODE then Ret (VStr TEST_EMAIL)
           else get email_data "client_email" VNone) with
    | Raise _ => (Raise UnboundLocalError, h)
    | Ret recipient_email =>
        try_except
          (if negb (truthy recipient_email) then
             log WARNING "Email not sent. No email address for client" ;;
             ret tt
           else
             let message := build_message recipient_email email_data in
             response <- sg_send message ;;
             if in_2xx (fst response) then
               log INFO "Email successfully sent" ;;
               ret tt
             else
               log ERROR "Failed to send email on attempt" ;;
               raise (PyException "Email sending failed"))
          (fun e =>
             if (retry_count <? 2)%nat then
               let wait_time := (2 ^ (Z.of_nat retry_count + 1) * 30)%Z in
               log WARNING "Retrying to send email" ;;
               sleep (inject_Z wait_time) ;;
               self email_data (retry_count + 1)%nat
             else
               log ERROR "Max retry attempts reached for sending email" ;;
               ret tt)
          h
    end.

(** The recursion, tied with a bound on its depth: the guard
    [retry_count < 2] stops it before [calls_left], which is
    [2 - retry_count] at the entry point, runs out
    ([send_email_unfold] gives back the source's recursive equation). *)
Fixpoint send_email_rec (calls_left : nat) (email_data : value)
  (retry_count : nat) : M unit :=
  send_email_body
    (fun email_data' retry_count' =>
       match calls_left with
       | S n => send_email_rec n email_data' retry_count'
       | O => raise RecursionError
       end)
    email_data retry_count.

Definition send_email (email_data : value) (retry_count : nat) : M unit :=
  send_email_rec (2 - retry_count) email_data retry_count.

Definition process_webhook_payload (payload : value) : M unit :=
  try_except
    (has_dados <- lift (contains "dados" payload) ;;
     if negb has_dados then
       log ERROR "Payload missing 'dados' key." ;;
       ret tt
     else
       dados_id <- lift (dados <- getitem payload "dados" ;;
                         get dados "id" VNone)%res ;;
       if negb (truthy dados_id) then
         log ERROR "Missing 'dados.id' in payload." ;;
         ret tt
       else
         nfce_id <-
           try_except (generate_nfce dados_id)
             (fun e =>
                log ERROR "Error during NFCe generation: " ;;
                ret VNone) ;;
         cliente_info <- lift (dados <- getitem payload "dados" ;;
                               get dados "cliente" (VDict []))%res ;;
         cliente_nome <- lift (get cliente_info "nome"
                                 (VStr "Unknown Client")) ;;
         cliente_cpfCnpj <- lift (get cliente_info "cpfCnpj" VNone) ;;
         log INFO "Cliente Nome, CPF/CNPJ" ;;
         if is_none cliente_cpfCnpj then
           log WARNING "NFCe was emitted, but CPF/CNPJ is missing. No email will be sent." ;;
           ret tt
         else
           client_email <- get_client_email cliente_cpfCnpj ;;
           if negb (truthy client_email) then
             log WARNING "No email found. NFCe was emitted, but no email will be sent." ;;
             ret tt
           else
             nota_fiscal_url <-
               (if truthy nfce_id then
                  try_except (get_nota_fiscal_link nfce_id)
                    (fun e =>
                       log ERROR "Error fetching NFCe link: " ;;
                       ret VNone)
                else ret VNone) ;;
             email_data <- aggregate_email_data cliente_cpfCnpj dados_id
                             client_email nota_fiscal_url cliente_nome ;;
             send_email email_data 0)
    (fun e =>
       (match e with
        | KeyError _ => log ERROR "Key error in payload processing: "
        | _ => log ERROR "Unexpected error in payload processing: "
        end) ;;
       ret tt).

End Pipeline.

(* ===================================================================== *)
(** * main.py: the Cloud Function entry point *)
(* ===================================================================== *)

Definition SECRET_MANAGER_API_TOKEN_NAME : string :=
  "projects/559935551835/secrets/z316-tiny-token-api/versions/latest".
Definition SECRET_MANAGER_SENDGRID_API_KEY_NAME : string :=
  "projects/559935551835/secrets/SendGrid/versions/latest".

(** What an invocation finds around it before the pipeline starts: Secret
    Manager ([access_secret_version] followed by the UTF-8 decoding of the
    payload), Cloud Storage ([bucket], [blob], [download_as_string], the
    bytes as a string), the mail client built from an API key, and the ERP
    and warehouse of [backends] (whose token and mail fields are not read:
    the invocation supplies its own). *)
Record platform := {
  access_secret_version : string -> result string;
  download_as_string : value -> value -> result string;
  SendGridAPIClient : string -> message -> nat -> sg_reply;
  backends : world }.

(** The world the pipeline runs in once the globals are set and the mail
    client is built. *)
Definition invocation_world (p : platform) (tiny_erp_api_token : string)
  (sendgrid_api_token : string) : world :=
  {| TINY_ERP_API_TOKEN := tiny_erp_api_token;
     requests_get := requests_get (backends p);
     query_client_email := query_client_email (backends p);
     query_purchase_details := query_purchase_details (backends p);
     query_daily_checkins := query_daily_checkins (backends p);
     query_quarter_spend := query_quarter_spend (backends p);
     query_lifetime_spend := query_lifetime_spend (backends p);
     lifetime_job_succeeded := lifetime_job_succeeded (backends p);
     sg_client_send := SendGridAPIClient p sendgrid_api_token |}.

Section Trigger.

Variable p : platform.

(** [json.loads] on the blob's bytes: a JSON value, or an exception. *)
Variable json_loads : string -> result value.

Definition get_api_token (secret_name : string) : M string :=
  try_except
    (lift (access_secret_version p secret_name))
    (fun e =>
       log ERROR "Failed to retrieve API token" ;;
       raise e).

(** The two globals, returned as a pair: the ERP token, then the mail key. *)
Definition initialize_globals : M (string * string) :=
  tiny_erp_api_token <- get_api_token SECRET_MANAGER_API_TOKEN_NAME ;;
  sendgrid_api_token <- get_api_token SECRET_MANAGER_SENDGRID_API_KEY_NAME ;;
  ret (tiny_erp_api_token, sendgrid_api_token).

Definition download_blob (bucket_name source_blob_name : value) : M string :=
  try_except
    (lift (download_as_string p bucket_name source_blob_name))
    (fun e =>
       log ERROR "Failed to download blob" ;;
       raise e).

(** [trigger_function(event, context)]; [context] is not used. *)
Definition trigger_function (event : value) : M unit :=
  globals <- initialize_globals ;;
  file_name <- lift (getitem event "name") ;;
  bucket_name <- lift (getitem event "bucket") ;;
  log INFO "Processing file: " ;;
  let w := invocation_world p (fst globals) (snd globals) in
  file_data <- download_blob bucket_name file_name ;;
  if truthy (VStr file_data) then
    payload <- lift (json_loads file_data) ;;
    process_webhook_payload w payload
  else ret tt.

End Trigger.

(* ===================================================================== *)
(** * Vocabulary of the specification *)
(* ===================================================================== *)

(** The [retorno] envelope of a response body, when it is an object. *)
Definition retorno_of (json_data : value) : option (list (string * value)) :=
  match json_data with
  | VDict body =>
      match dict_get "retorno" body with
      | Some (VDict retorno) => Some retorno
      | _ => None
      end
  | _ => None
  end.

(** A field embedded in the envelope: [retorno.<field>]. *)
Definition embedded (field : string) (json_data : value) : option value :=
  match retorno_of json_data with
  | Some retorno => dict_get field retorno
  | None => None
  end.

(** The body is an object whose [retorno], when present, is an object. *)
Definition envelope_ok (json_data : value) : bool :=
  match json_data with
  | VDict body =>
      match dict_get "retorno" body with
      | None | Some (VDict _) => true
      | Some _ => false
      end
  | _ => false
  end.

(** The embedded status is one of the strings '1', '2', '3'. *)
Definition status_is_123 (json_data : value) : bool :=
  match embedded "status_processamento" json_data with
  | Some st => eq_str st "1" || eq_str st "2" || eq_str st "3"
  | None => false
  end.

(** The embedded error code is the string '1'. *)
Definition error_code_is_1 (json_data : value) : bool :=
  match embedded "codigo_erro" json_data with
  | Some code => eq_str code "1"
  | None => false
  end.

(** The upstream error message of a body: [erros[0].erro] when [erros] is a
    list whose first entry is an object with that key, the fixed text when
    [erros] is absent or empty; no message for any other shape. *)
Definition erro_detail (json_data : value) : option value :=
  match embedded "erros" json_data with
  | None => Some (VStr "Unknown error")
  | Some erros =>
      if truthy erros then
        match erros with
        | VList (VDict erro :: _) => dict_get "erro" erro
        | _ => None
        end
      else Some (VStr "Unknown error")
  end.

(** [retorno.registros.registro.idNotaFiscal], through objects only. *)
Definition nested_idNotaFiscal (json_data : value) : option value :=
  match embedded "registros" json_data with
  | Some (VDict registros) =>
      match dict_get "registro" registros with
      | Some (VDict registro) => dict_get "idNotaFiscal" registro
      | _ => None
      end
  | _ => None
  end.

(** [dados.id] and [dados.cliente.cpfCnpj] of a webhook payload. *)
Definition payload_dados (payload : value) : option (list (string * value)) :=
  match payload with
  | VDict p =>
      match dict_get "dados" p with
      | Some (VDict dados) => Some dados
      | _ => None
      end
  | _ => None
  end.

Definition payload_dados_id (payload : value) : option value :=
  match payload_dados payload with
  | Some dados => dict_get "id" dados
  | None => None
  end.

Definition payload_cpfCnpj (payload : value) : option value :=
  match payload_dados payload with
  | Some dados =>
      match dict_get "cliente" dados with
      | Some (VDict cliente) => dict_get "cpfCnpj" cliente
      | _ => None
      end
  | None => None
  end.

(** [dados.cliente.nome], or the default the code substitutes. *)
Definition payload_cliente_nome (payload : value) : value :=
  match payload_dados payload with
  | Some dados =>
      match dict_get "cliente" dados with
      | Some (VDict cliente) =>
          match dict_get "nome" cliente with
          | Some nome => nome
          | None => VStr "Unknown Client"
          end
      | _ => VStr "Unknown Client"
      end
  | None => VStr "Unknown Client"
  end.

(** The first contact's email in a contact-search response. *)
Definition first_contact_email (json_data : value) : option value :=
  match embedded "contatos" json_data with
  | Some (VList (VDict entry :: _)) =>
      match dict_get "contato" entry with
      | Some (VDict contato) => dict_get "email" contato
      | _ => None
      end
  | _ => None
  end.

(** Sleep durations of a history, oldest first. *)
Definition sleeps (h : history) : list Q :=
  flat_map (fun ev => match ev with EvSleep s => [s] | _ => [] end) (rev h).

(** The external interactions of a history (everything but log lines),
    oldest first. *)
Definition interactions (h : history) : list event :=
  filter (fun ev => negb (is_log ev)) (rev h).

(** A send attempt fails: a transport exception or a non-2xx status. *)
Definition send_failed (r : sg_reply) : bool :=
  match r with
  | SgResponse status_code _ => negb (in_2xx status_code)
  | SgRaise _ => true
  end.

(** [m], started on [h], only appends events that satisfy [P]. *)
Definition emits_from {A} (P : event -> bool) (m : M A) (h : history) : Prop :=
  exists new, snd (m h) = new ++ h /\ forallb P new = true.

Definition emits {A} (P : event -> bool) (m : M A) : Prop :=
  forall h, emits_from P m h.

(** [P] lets log lines and sleeps through. *)
Definition quiet (P : event -> bool) : Prop :=
  (forall lv msg, P (EvLog lv msg) = true) /\
  (forall s, P (EvSleep s) = true).

(** Events of one kind, log lines and sleeps. *)
Definition only (kind : event -> bool) (ev : event) : bool :=
  kind ev || is_log ev || is_sleep ev.

Definition no_send (ev : event) : bool := negb (is_send ev).

(** Events of neither kind. *)
Definition neither (k1 k2 : event -> bool) (ev : event) : bool :=
  negb (k1 ev) && negb (k2 ev).

(** [hcur] is [h] followed by events that all satisfy [P]. *)
Definition reached (P : event -> bool) (h hcur : history) : Prop :=
  exists mid, hcur = mid ++ h /\ forallb P mid = true.

Definition no_link_request (ev : event) : bool := negb (is_obter_link ev).

(** The message carries no [nota_fiscal_url] key. *)
Definition omits_nota_fiscal_url (email_data : value) : bool :=
  match email_data with
  | VDict d => negb (dict_has "nota_fiscal_url" d)
  | _ => true
  end.

(** An event of a run that goes on without a fiscal document: not a link
    request, and if it is a send, its data has no [nota_fiscal_url]. *)
Definition without_document (ev : event) : bool :=
  match ev with
  | EvHttpGet (NotaFiscalObterLink _ _) => false
  | EvSend m => omits_nota_fiscal_url (dynamic_template_data m)
  | _ => true
  end.

Definition any_event (ev : event) : bool := true.

(** The history at which the customer lookup starts when document
    generation has ended with an exception on [h1]: the handler's error
    line and the client line come first. *)
Definition after_failed_generation (h1 : history) : history :=
  EvLog INFO "Cliente Nome, CPF/CNPJ"
  :: EvLog ERROR "Error during NFCe generation: " :: h1.

(** The log line the [except] clauses of [make_api_call] write for [e]. *)
Definition api_error_line (e : exn) : event :=
  EvLog ERROR
    (if is_request_exception e then "API request failed: "
     else if is_validation_error e then "Payload validation failed: "
     else "Unexpected error: ").

(** ** Sample bodies and environments *)

Definition envelope (fields : list (string * value)) : value :=
  VDict [("retorno", VDict fields)].

(** Status '1', error code '1', and an [erros] entry without [erro]. *)
Definition body_invalid_token_malformed : value :=
  envelope [("status_processamento", VStr "1"); ("codigo_erro", VStr "1");
            ("erros", VList [VDict []])].

Definition body_invalid_token : value :=
  envelope [("status_processamento", VStr "1"); ("codigo_erro", VStr "1");
            ("erros", VList [VDict [("erro", VStr "token invalido")]])].

Definition body_retryable : value :=
  envelope [("status_processamento", VStr "1"); ("codigo_erro", VStr "6");
            ("erros", VList [VDict [("erro", VStr "API bloqueada")]])].

Definition body_null_envelope : value := VDict [("retorno", VNone)].

Definition body_numeric_status : value :=
  envelope [("status_processamento", VInt 3)].

(** A successful generate-document response whose [registro] has no
    [idNotaFiscal]. *)
Definition body_registro_without_id : value :=
  envelope [("status_processamento", VStr "3");
            ("registros", VDict [("registro", VDict [])])].

Definition body_nfce_55 : value :=
  envelope [("status_processamento", VStr "3");
            ("registros",
             VDict [("registro", VDict [("idNotaFiscal", VStr "55")])])].

Definition body_no_contacts : value :=
  envelope [("status_processamento", VStr "3")].

Definition sample_item : item_row :=
  {| row_item_name := VStr "cafe";
     row_item_quantity := VInt 2;
     row_item_price := VStr "10.00";
     row_total_item_price := VStr "20.00";
     row_total_discount := VStr "0";
     row_total_paid := VStr "20.00";
     row_payment_method := VStr "pix";
     row_sub_total := VStr "20.00" |}.

(** An environment given by its ERP answers, its warehouse email rows, its
    item rows and its mail status; the loyalty queries all fail. *)
Definition sample_world (http : api_request -> http_reply)
  (emails : list email_row) (items : list item_row) (status_code : Z)
  : world :=
  {| TINY_ERP_API_TOKEN := "token";
     requests_get := fun req _ => http req;
     query_client_email := fun _ _ => BqRows emails;
     query_purchase_details := fun _ _ => BqRows items;
     query_daily_checkins := fun _ _ => BqRaise (BadRequest "checkins");
     query_quarter_spend := fun _ _ => BqRaise (OtherError "Timeout" "quarter");
     query_lifetime_spend := fun _ _ => BqRaise (BadRequest "lifetime");
     lifetime_job_succeeded := fun _ _ => true;
     sg_client_send := fun _ _ => SgResponse status_code EmptyString |}.

(** Every ERP request is answered with the same body. *)
Definition world_answering (json_data : value) : world :=
  sample_world (fun _ => HttpOk json_data) [] [] 500.

Definition sample_url : api_request := ContatosPesquisa "token" (VStr "111").

(** The warehouse knows the customer, the items have not arrived yet. *)
Definition world_without_items : world :=
  sample_world (fun _ => HttpOk body_nfce_55)
    [{| row_email := VStr "ana@x.com" |}] [] 202.

(** Document generation is refused; the warehouse knows the customer and
    the purchase; the mail provider accepts. *)
Definition world_generation_refused : world :=
  sample_world
    (fun _ =>
       HttpOk (envelope [("status_processamento", VStr "2")]))
    [{| row_email := VStr "ana@x.com" |}] [sample_item] 202.

(** A row without a usable email. *)
Definition no_email (row : email_row) : bool := negb (truthy (row_email row)).

Definition body_contact (email : value) : value :=
  envelope [("status_processamento", VStr "3");
            ("contatos",
             VList [VDict [("contato", VDict [("email", email)])]])].

(** The warehouse has a row without email; the ERP knows the contact. *)
Definition world_erp_contact (email : value) : world :=
  sample_world (fun _ => HttpOk (body_contact email))
    [{| row_email := VNone |}] [sample_item] 202.

Definition world_with_items : world :=
  sample_world (fun _ => HttpOk body_registro_without_id) []
    [sample_item] 202.

Definition sample_payload : value :=
  VDict [("dados",
          VDict [("id", VStr "123");
                 ("cliente",
                  VDict [("nome", VStr "Ana"); ("cpfCnpj", VStr "111")])])].

(** ** Vocabulary of the further properties *)

(** A reply after which [make_api_call] tries again: a transport exception
    or a validation outcome that the [retry] predicate accepts. *)
Definition reply_retryable (r : http_reply) : bool :=
  match r with
  | HttpRaise e => api_retry_on e
  | HttpOk json_data =>
      match validate_json_payload json_data with
      | Raise e => api_retry_on e
      | Ret _ => false
      end
  end.

(** An answer of the items query after which [get_purchase_details] tries
    again: an exception, or no row. *)
Definition items_unavailable (r : bq_reply item_row) : bool :=
  match r with
  | BqRaise _ => true
  | BqRows [] => true
  | BqRows (_ :: _) => false
  end.

(** [retorno.link_nfe] of a link response (the code tests the key on any
    container [retorno] may be; here through objects only). *)
Definition nested_link_nfe (json_data : value) : option value :=
  embedded "link_nfe" json_data.

Definition body_link (link : value) : value :=
  envelope [("status_processamento", VStr "3"); ("link_nfe", link)].

(** Every message is the template message addressed to [TEST_EMAIL]. *)
Definition sent_to_test_inbox (ev : event) : bool :=
  match ev with
  | EvSend m =>
      eq_str (to_emails m) TEST_EMAIL
      && String.eqb (from_email m) FROM_EMAIL
      && String.eqb (template_id m) TEMPLATE_ID
      && Z.eqb (asm_group_id m) 23816
  | _ => true
  end.

(** [dados.cliente.cpfCnpj] is absent or [null]. *)
Definition no_tax_id (payload : value) : bool :=
  match payload_cpfCnpj payload with
  | Some cpf => is_none cpf
  | None => true
  end.

(** Document-generation requests, log lines and sleeps. *)
Definition generation_only (ev : event) : bool := only is_gerar ev.

(** Run from [h], the program only appends, and [ev] is the oldest
    interaction it appends. *)
Definition starts_with {A} (ev : event) (m : M A) (h : history) : Prop :=
  exists new,
    snd (m h) = new ++ h /\ hd_error (interactions new) = Some ev.

(** Run from [h], the program adds at most [n] events of a kind. *)
Definition adds_at_most {A} (kind : event -> bool) (n : nat) (m : M A)
  (h : history) : Prop :=
  (calls kind (snd (m h)) <= calls kind h + n)%nat.

(** The ERP generates document 55 and knows its link; the warehouse knows
    the customer and the purchase; the mail provider accepts. *)
Definition world_complete : world :=
  sample_world
    (fun req =>
       match req with
       | NotaFiscalObterLink _ _ => HttpOk (body_link (VStr "http://x/55"))
       | _ => HttpOk body_nfce_55
       end)
    [{| row_email := VStr "ana@x.com" |}] [sample_item] 202.

(** A platform whose secrets are ["erp-token"] and ["mail-key"], whose
    bucket holds the bytes [data], and whose backends are those of [w]. *)
Definition sample_platform (data : string) (w : world) : platform :=
  {| access_secret_version := fun name =>
       if String.eqb name SECRET_MANAGER_API_TOKEN_NAME
       then Ret "erp-token" else Ret "mail-key";
     download_as_string := fun _ _ => Ret data;
     SendGridAPIClient := fun _ => sg_client_send w;
     backends := w |}.

(** A parser that knows one document. *)
Definition sample_json_loads (s : string) : result value :=
  if String.eqb s "{sample}" then Ret sample_payload
  else Raise (OtherError "JSONDecodeError" s).

Definition sample_event : value :=
  VDict [("name", VStr "order.json"); ("bucket", VStr "webhooks")].

(** The set-up of an invocation went through: both secrets were read, the
    event names the blob and the blob was downloaded. *)
Definition set_up (p : platform) (event : value)
  (tiny_erp_api_token sendgrid_api_token file_data : string) : Prop :=
  access_secret_version p SECRET_MANAGER_API_TOKEN_NAME
  = Ret tiny_erp_api_token
  /\ access_secret_version p SECRET_MANAGER_SENDGRID_API_KEY_NAME
     = Ret sendgrid_api_token
  /\ exists file_name bucket_name,
      getitem event "name" = Ret file_name
      /\ getitem event "bucket" = Ret bucket_name
      /\ download_as_string p bucket_name file_name = Ret file_data.

(** Seconds slept in a history. *)
Fixpoint slept (h : history) : Q :=
  match h with
  | [] => 0%Q
  | EvSleep s :: h' => (s + slept h')%Q
  | _ :: h' => slept h'
  end.

(** Run from [h], the program sleeps at most [b] seconds. *)
Definition sleeps_at_most {A} (b : Q) (m : M A) (h : history) : Prop :=
  (slept (snd (m h)) <= slept h + b)%Q.

(** [n] sleeps of [c] seconds. *)
Fixpoint times (n : nat) (c : Q) : Q :=
  match n with
  | O => 0%Q
  | S n => (c + times n c)%Q
  end.

(** The exception an attempt ends with on a reply: the transport's, or the
    validator's verdict on the body; none when the body is accepted. *)
Definition reply_exception (r : http_reply) : option exn :=
  match r with
  | HttpRaise e => Some e
  | HttpOk json_data =>
      match validate_json_payload json_data with
      | Raise e => Some e
      | Ret _ => None
      end
  end.

(** An environment whose ERP, items query and mail provider answer by the
    number of the request; the warehouse does not know the customer and
    the loyalty queries fail. *)
Definition world_in_stages (http : nat -> http_reply)
  (items : nat -> bq_reply item_row) (sends : nat -> sg_reply) : world :=
  {| TINY_ERP_API_TOKEN := "token";
     requests_get := fun _ k => http k;
     query_client_email := fun _ _ => BqRows [];
     query_purchase_details := fun _ k => items k;
     query_daily_checkins := fun _ _ => BqRaise (BadRequest "checkins");
     query_quarter_spend := fun _ _ => BqRaise (OtherError "Timeout" "quarter");
     query_lifetime_spend := fun _ _ => BqRaise (BadRequest "lifetime");
     lifetime_job_succeeded := fun _ _ => true;
     sg_client_send := fun _ k => sends k |}.

(** Every collaborator fails twice before it delivers: the ERP times out,
    then is blocked, then answers; the items are late (an error, then no
    row); the mail provider raises, then answers 500, then accepts. *)
Definition world_recovering : world :=
  world_in_stages
    (fun k =>
       match k with
       | 0%nat => HttpRaise (RequestException "timeout")
       | 1%nat => HttpOk body_retryable
       | _ => HttpOk body_no_contacts
       end)
    (fun k =>
       match k with
       | 0%nat => BqRaise (OtherError "Timeout" "items")
       | 1%nat => BqRows []
       | _ => BqRows [sample_item]
       end)
    (fun k =>
       match k with
       | 0%nat => SgRaise (OtherError "HTTPError" "503")
       | 1%nat => SgResponse 500 EmptyString
       | _ => SgResponse 202 EmptyString
       end).

(** The ERP times out three times and is then blocked. *)
Definition world_timeouts_then_blocked : world :=
  world_in_stages
    (fun k =>
       match k with
       | 0%nat | 1%nat | 2%nat => HttpRaise (RequestException "timeout")
       | _ => HttpOk body_retryable
       end)
    (fun _ => BqRows []) (fun _ => SgResponse 500 EmptyString).

(** Document generation is refused and nobody knows the customer: the
    warehouse has no row and the ERP no contact; the purchase is known and
    the mail provider would accept. *)
Definition world_refused_unknown_customer : world :=
  sample_world
    (fun req =>
       match req with
       | GerarNotaFiscalPedido _ _ =>
           HttpOk (envelope [("status_processamento", VStr "2")])
       | _ => HttpOk body_no_contacts
       end)
    [] [sample_item] 202.

(* ===================================================================== *)
(** * The API gateway: classification of a response body *)
(* ===================================================================== *)

Ltac open_body json_data H :=
  unfold embedded, retorno_of in H;
  destruct json_data as [| | | | |?|body]; try discriminate H;
  destruct (dict_get "retorno" body) as [[| | | | |?|retorno]|] eqn:?;
  try discriminate H.

Lemma validate_status_3 json_data :
  embedded "status_processamento" json_data = Some (VStr "3") ->
  validate_json_payload json_data = Ret tt.
Proof.
  intros H. open_body json_data H.
  unfold validate_json_payload. cbn. rewrite Heqo. cbn. rewrite H. reflexivity.
Qed.

Lemma validate_status_2 json_data :
  embedded "status_processamento" json_data = Some (VStr "2") ->
  validate_json_payload json_data
  = Raise (ValidationError "Invalid query parameter.").
Proof.
  intros H. open_body json_data H.
  unfold validate_json_payload. cbn. rewrite Heqo. cbn. rewrite H. reflexivity.
Qed.

Lemma validate_status_1 json_data erro_message :
  embedded "status_processamento" json_data = Some (VStr "1") ->
  erro_detail json_data = Some erro_message ->
  validate_json_payload json_data
  = if error_code_is_1 json_data
    then Raise (InvalidTokenError erro_message)
    else Raise (RetryableError erro_message).
Proof.
  intros H D. unfold erro_detail, error_code_is_1 in *.
  unfold embedded, retorno_of in *.
  destruct json_data as [| | | | |?|body]; try discriminate H.
  destruct (dict_get "retorno" body) as [[| | | | |?|retorno]|] eqn:E;
    try discriminate H.
  unfold validate_json_payload. cbn. rewrite E. cbn. rewrite H. cbn.
  destruct (dict_get "erros" retorno) as [erros|].
  - destruct (truthy erros) eqn:T.
    + destruct erros as [| | | | |[|[| | | | |?|erro] ?]|]; try discriminate D.
      cbn. rewrite D. cbn.
      destruct (dict_get "codigo_erro" retorno); reflexivity.
    + injection D as <-. cbn.
      destruct (dict_get "codigo_erro" retorno); reflexivity.
  - injection D as <-. cbn.
    destruct (dict_get "codigo_erro" retorno); reflexivity.
Qed.

Lemma validate_other_status json_data :
  envelope_ok json_data = true ->
  status_is_123 json_data = false ->
  validate_json_payload json_data = Ret tt.
Proof.
  unfold envelope_ok, status_is_123, embedded, retorno_of.
  intros Env St.
  destruct json_data as [| | | | |?|body]; try discriminate Env.
  unfold validate_json_payload. cbn.
  destruct (dict_get "retorno" body) as [[| | | | |?|retorno]|];
    try discriminate Env; cbn; [|reflexivity].
  destruct (dict_get "status_processamento" retorno) as [st|]; [|reflexivity].
  cbn. apply orb_false_elim in St as [St St3].
  apply orb_false_elim in St as [St1 St2].
  rewrite St3, St2, St1. reflexivity.
Qed.

(* ===================================================================== *)
(** * The API gateway: one attempt, and the retry policy around it *)
(* ===================================================================== *)

Lemma same_endpoint_log url lv msg : same_endpoint url (EvLog lv msg) = false.
Proof. destruct url; reflexivity. Qed.

Lemma same_endpoint_self url : same_endpoint url (EvHttpGet url) = true.
Proof. destruct url; reflexivity. Qed.

Lemma calls_cons kind ev h :
  calls kind (ev :: h) = if kind ev then S (calls kind h) else calls kind h.
Proof. unfold calls. cbn. destruct (kind ev); reflexivity. Qed.

Lemma calls_app kind h1 h2 : calls kind (h1 ++ h2) = calls kind h1 + calls kind h2.
Proof. unfold calls. rewrite filter_app, length_app. reflexivity. Qed.

Lemma attempt_on_body w url h json_data :
  requests_get w url (calls (same_endpoint url) h) = HttpOk json_data ->
  make_api_call_attempt w url h
  = match validate_json_payload json_data with
    | Ret _ =>
        (Ret json_data, EvHttpGet url :: EvLog INFO "Making API call to: " :: h)
    | Raise e =>
        (Raise e,
         api_error_line e :: EvHttpGet url
           :: EvLog INFO "Making API call to: " :: h)
    end.
Proof.
  intros H.
  unfold make_api_call_attempt, try_except, bind, log, emit, http_get, lift.
  rewrite calls_cons, same_endpoint_log, H.
  destruct (validate_json_payload json_data) as [[]|e]; [reflexivity|].
  unfold api_error_line, raise, ret.
  destruct (is_request_exception e), (is_validation_error e); reflexivity.
Qed.

Lemma attempt_on_transport_error w url h e :
  requests_get w url (calls (same_endpoint url) h) = HttpRaise e ->
  make_api_call_attempt w url h
  = (Raise e,
     api_error_line e :: EvHttpGet url :: EvLog INFO "Making API call to: " :: h).
Proof.
  intros H.
  unfold make_api_call_attempt, try_except, bind, log, emit, http_get, lift.
  rewrite calls_cons, same_endpoint_log, H.
  unfold api_error_line, raise, ret.
  destruct (is_request_exception e), (is_validation_error e); reflexivity.
Qed.

Lemma make_api_call_returns w url h a h1 :
  make_api_call_attempt w url h = (Ret a, h1) ->
  make_api_call w url h = (Ret a, h1).
Proof.
  intros H. unfold make_api_call, Tenacity.retry. cbn. rewrite H. reflexivity.
Qed.

Lemma make_api_call_reraises w url h e h1 :
  make_api_call_attempt w url h = (Raise e, h1) ->
  api_retry_on e = false ->
  make_api_call w url h = (Raise e, h1).
Proof.
  intros H R. unfold make_api_call, Tenacity.retry. cbn. rewrite H, R.
  reflexivity.
Qed.

(** A body the validator accepts is returned after a single request. *)
Lemma make_api_call_accepts w url h json_data :
  requests_get w url (calls (same_endpoint url) h) = HttpOk json_data ->
  validate_json_payload json_data = Ret tt ->
  make_api_call w url h
  = (Ret json_data, EvHttpGet url :: EvLog INFO "Making API call to: " :: h).
Proof.
  intros H V. apply make_api_call_returns.
  rewrite (attempt_on_body _ _ _ _ H), V. reflexivity.
Qed.

(** A body the validator rejects with a non-retryable exception ends the
    call after a single request. *)
Lemma make_api_call_rejects w url h json_data e :
  requests_get w url (calls (same_endpoint url) h) = HttpOk json_data ->
  validate_json_payload json_data = Raise e ->
  api_retry_on e = false ->
  make_api_call w url h
  = (Raise e,
     api_error_line e :: EvHttpGet url :: EvLog INFO "Making API call to: " :: h).
Proof.
  intros H V R. apply make_api_call_reraises; [|exact R].
  rewrite (attempt_on_body _ _ _ _ H), V. reflexivity.
Qed.

(** C1 (as amended).  Whatever a request is answered with,
    - a body with embedded status '1' and error code '1' whose [erros] field
      yields a message (absent, empty, or a list led by an object with an
      [erro] key) makes [make_api_call] raise [InvalidTokenError] with that
      message,
    - a body with status '2' makes it raise [ValidationError],
    - a body with status '3' is returned as it is,
    and in each case exactly one request is made: no retry. *)
Theorem api_gateway_classifies_without_retry :
  forall w url h json_data,
    requests_get w url (calls (same_endpoint url) h) = HttpOk json_data ->
    (forall erro_message,
        embedded "status_processamento" json_data = Some (VStr "1") ->
        embedded "codigo_erro" json_data = Some (VStr "1") ->
        erro_detail json_data = Some erro_message ->
        exists new,
          make_api_call w url h
          = (Raise (InvalidTokenError erro_message), new ++ h)
          /\ calls is_http new = 1%nat)
    /\ (embedded "status_processamento" json_data = Some (VStr "2") ->
        exists new,
          make_api_call w url h
          = (Raise (ValidationError "Invalid query parameter."), new ++ h)
          /\ calls is_http new = 1%nat)
    /\ (embedded "status_processamento" json_data = Some (VStr "3") ->
        exists new,
          make_api_call w url h = (Ret json_data, new ++ h)
          /\ calls is_http new = 1%nat).
Proof.
  intros w url h json_data H. repeat split.
  - intros msg St Code D.
    pose proof (validate_status_1 _ _ St D) as V.
    unfold error_code_is_1 in V. rewrite Code in V. cbn in V.
    eexists [_; _; _]. split.
    + cbn [app]. apply (make_api_call_rejects _ _ _ _ _ H V). reflexivity.
    + reflexivity.
  - intros St. pose proof (validate_status_2 _ St) as V.
    eexists [_; _; _]. split.
    + cbn [app]. apply (make_api_call_rejects _ _ _ _ _ H V). reflexivity.
    + reflexivity.
  - intros St. pose proof (validate_status_3 _ St) as V.
    eexists [_; _]. split.
    + cbn [app]. apply (make_api_call_accepts _ _ _ _ H V).
    + reflexivity.
Qed.

Lemma api_gateway_classifies_without_retry_witness :
  exists new,
    make_api_call (world_answering body_invalid_token) sample_url []
    = (Raise (InvalidTokenError (VStr "token invalido")), new ++ [])
    /\ calls is_http new = 1%nat.
Proof.
  apply (proj1 (api_gateway_classifies_without_retry
                  (world_answering body_invalid_token) sample_url []
                  body_invalid_token eq_refl));
    reflexivity.
Defined.

(** C1 as stated fails: this body has status '1' and error code '1', yet
    the lookup [erros[0]['erro']] raises [KeyError] before the error code is
    examined, so the exception is not [InvalidTokenError]. *)
Lemma invalid_token_masked_by_malformed_erros :
  embedded "status_processamento" body_invalid_token_malformed
  = Some (VStr "1")
  /\ embedded "codigo_erro" body_invalid_token_malformed = Some (VStr "1")
  /\ fst (make_api_call (world_answering body_invalid_token_malformed)
            sample_url [])
     = Raise (KeyError (VStr "erro"))
  /\ forall erro_message,
      fst (make_api_call (world_answering body_invalid_token_malformed)
             sample_url [])
      <> Raise (InvalidTokenError erro_message).
Proof.
  repeat split; try reflexivity.
  intros erro_message. vm_compute. discriminate.
Qed.

(** C10 (as amended).  For a body that is an object whose [retorno] is
    absent or an object, and whose embedded status is anything but the
    strings '1', '2', '3' (absent, a number, another string),
    [validate_json_payload] raises nothing and [make_api_call] returns the
    body as it is after a single request. *)
Theorem unclassified_status_is_success :
  forall w url h json_data,
    envelope_ok json_data = true ->
    status_is_123 json_data = false ->
    validate_json_payload json_data = Ret tt
    /\ (requests_get w url (calls (same_endpoint url) h) = HttpOk json_data ->
        exists new,
          make_api_call w url h = (Ret json_data, new ++ h)
          /\ calls is_http new = 1%nat).
Proof.
  intros w url h json_data Env St.
  pose proof (validate_other_status _ Env St) as V. split; [exact V|].
  intros H. eexists [_; _]. split.
  - cbn [app]. apply (make_api_call_accepts _ _ _ _ H V).
  - reflexivity.
Qed.

Lemma unclassified_status_is_success_witness :
  validate_json_payload body_numeric_status = Ret tt
  /\ exists new,
      make_api_call (world_answering body_numeric_status) sample_url []
      = (Ret body_numeric_status, new ++ [])
      /\ calls is_http new = 1%nat.
Proof.
  destruct (unclassified_status_is_success
              (world_answering body_numeric_status) sample_url []
              body_numeric_status eq_refl eq_refl) as [V K].
  split; [exact V|]. apply K. reflexivity.
Defined.

(** C10 as stated fails: a body whose [retorno] is [null] has no status at
    all, yet [.get] on [None] raises [AttributeError], which
    [make_api_call] logs and re-raises. *)
Lemma null_envelope_is_not_a_success :
  status_is_123 body_null_envelope = false
  /\ validate_json_payload body_null_envelope = Raise AttributeError
  /\ fst (make_api_call (world_answering body_null_envelope) sample_url [])
     = Raise AttributeError.
Proof. repeat split; reflexivity. Qed.

(** A body with status '1', an error code other than '1' and a readable
    message fails the attempt with [RetryableError]. *)
Lemma attempt_on_retryable_body w url h json_data erro_message :
  requests_get w url (calls (same_endpoint url) h) = HttpOk json_data ->
  embedded "status_processamento" json_data = Some (VStr "1") ->
  error_code_is_1 json_data = false ->
  erro_detail json_data = Some erro_message ->
  make_api_call_attempt w url h
  = (Raise (RetryableError erro_message),
     EvLog ERROR "Unexpected error: " :: EvHttpGet url
       :: EvLog INFO "Making API call to: " :: h).
Proof.
  intros H St Code D.
  rewrite (attempt_on_body _ _ _ _ H), (validate_status_1 _ _ St D), Code.
  reflexivity.
Qed.

(** The waits tenacity computes for [make_api_call]: 2.5 * 2^(n-1) is
    below the 30 minimum for every attempt that can be followed by a sleep. *)
Lemma api_wait_schedule :
  api_wait 1 = (30 # 1)%Q /\ api_wait 2 = (30 # 1)%Q /\ api_wait 3 = (30 # 1)%Q.
Proof. repeat split; reflexivity. Qed.

(** The older exponent convention gives the same three waits. *)
Lemma api_wait_schedule_legacy :
  map (Tenacity.wait_exponential_legacy (5 # 2)%Q (30 # 1)%Q (375 # 2)%Q)
      [1; 2; 3]%nat
  = map api_wait [1; 2; 3]%nat.
Proof. reflexivity. Qed.

(** C2 (as amended).  When every response to a URL has embedded status '1',
    an error code other than '1' and a readable message, [make_api_call]
    makes exactly 4 requests with three sleeps between them, the first of
    30 time-units and none below 30 or above the 187.5 cap, and then raises
    tenacity's [RetryError] around the [RetryableError] of the fourth
    response. *)
Theorem retryable_error_schedule :
  forall w url h,
    (forall n, exists json_data erro_message,
        requests_get w url n = HttpOk json_data
        /\ embedded "status_processamento" json_data = Some (VStr "1")
        /\ error_code_is_1 json_data = false
        /\ erro_detail json_data = Some erro_message) ->
    exists new json_data erro_message s2 s3,
      make_api_call w url h
      = (Raise (RetryError (RetryableError erro_message)), new ++ h)
      /\ requests_get w url (calls (same_endpoint url) h + 3)
         = HttpOk json_data
      /\ erro_detail json_data = Some erro_message
      /\ calls is_http new = 4%nat
      /\ sleeps new = [(30 # 1)%Q; s2; s3]
      /\ ((30 # 1) <= s2)%Q /\ (s2 <= (375 # 2))%Q
      /\ ((30 # 1) <= s3)%Q /\ (s3 <= (375 # 2))%Q
      /\ interactions new
         = [EvHttpGet url; EvSleep (30 # 1); EvHttpGet url; EvSleep s2;
            EvHttpGet url; EvSleep s3; EvHttpGet url].
Proof.
  intros w url h H.
  unfold make_api_call, Tenacity.retry. cbn [Nat.sub].
  destruct (H (calls (same_endpoint url) h)) as (b1 & m1 & R1 & S1 & C1 & D1).
  pose proof (attempt_on_retryable_body _ _ _ _ _ R1 S1 C1 D1) as A1.
  cbn [Tenacity.attempt]. rewrite A1. cbn [api_retry_on is_request_exception
    is_retryable_error orb].
  match goal with |- context [make_api_call_attempt w url ?h1] =>
    destruct (H (calls (same_endpoint url) h1)) as (b2 & m2 & R2 & S2 & C2 & D2);
    rewrite (attempt_on_retryable_body _ _ _ _ _ R2 S2 C2 D2) end.
  match goal with |- context [make_api_call_attempt w url ?h1] =>
    destruct (H (calls (same_endpoint url) h1)) as (b3 & m3 & R3 & S3 & C3 & D3);
    rewrite (attempt_on_retryable_body _ _ _ _ _ R3 S3 C3 D3) end.
  match goal with |- context [make_api_call_attempt w url ?h1] =>
    assert (I4 : calls (same_endpoint url) h1
                 = (calls (same_endpoint url) h + 3)%nat)
      by (destruct url; unfold calls;
          cbn [filter length same_endpoint is_gerar is_obter_link
                 is_contatos]; lia);
    destruct (H (calls (same_endpoint url) h1)) as (b4 & m4 & R4 & S4 & C4 & D4);
    rewrite (attempt_on_retryable_body _ _ _ _ _ R4 S4 C4 D4) end.
  rewrite I4 in R4.
  eexists [_; _; _; _; _; _; _; _; _; _; _; _; _; _; _], b4, m4,
    (api_wait 2), (api_wait 3).
  split; [reflexivity|]. split; [exact R4|]. split; [exact D4|].
  split; [destruct url; reflexivity|].
  split; [destruct url; reflexivity|].
  repeat (split; [apply Qle_bool_imp_le; reflexivity|]).
  destruct url; reflexivity.
Qed.

Lemma world_answering_retryable n :
  exists json_data erro_message,
    requests_get (world_answering body_retryable) sample_url n
    = HttpOk json_data
    /\ embedded "status_processamento" json_data = Some (VStr "1")
    /\ error_code_is_1 json_data = false
    /\ erro_detail json_data = Some erro_message.
Proof.
  exists body_retryable, (VStr "API bloqueada"). repeat split; reflexivity.
Defined.

Lemma retryable_error_schedule_witness :
  exists new json_data erro_message s2 s3,
    make_api_call (world_answering body_retryable) sample_url []
    = (Raise (RetryError (RetryableError erro_message)), new ++ [])
    /\ requests_get (world_answering body_retryable) sample_url
         (calls (same_endpoint sample_url) [] + 3)
       = HttpOk json_data
    /\ erro_detail json_data = Some erro_message
    /\ calls is_http new = 4%nat
    /\ sleeps new = [(30 # 1)%Q; s2; s3]
    /\ ((30 # 1) <= s2)%Q /\ (s2 <= (375 # 2))%Q
    /\ ((30 # 1) <= s3)%Q /\ (s3 <= (375 # 2))%Q
    /\ interactions new
       = [EvHttpGet sample_url; EvSleep (30 # 1); EvHttpGet sample_url;
          EvSleep s2; EvHttpGet sample_url; EvSleep s3;
          EvHttpGet sample_url].
Proof.
  apply (retryable_error_schedule (world_answering body_retryable)
           sample_url []).
  exact world_answering_retryable.
Defined.

(** C2 as stated fails: every response of this environment has status '1'
    and error code '6', yet the call sleeps three times, 30 time-units each,
    not 30, 75, 187.5, 187.5. *)
Lemma backoff_is_not_30_75_187 :
  (forall n, requests_get (world_answering body_retryable) sample_url n
             = HttpOk body_retryable)
  /\ embedded "status_processamento" body_retryable = Some (VStr "1")
  /\ embedded "codigo_erro" body_retryable = Some (VStr "6")
  /\ sleeps (snd (make_api_call (world_answering body_retryable)
                    sample_url []))
     = [(30 # 1)%Q; (30 # 1)%Q; (30 # 1)%Q]
  /\ ~ Forall2 Qeq
         (sleeps (snd (make_api_call (world_answering body_retryable)
                         sample_url [])))
         [(30 # 1)%Q; (75 # 1)%Q; (375 # 2)%Q; (375 # 2)%Q].
Proof.
  repeat split; try reflexivity.
  vm_compute. intros F.
  inversion F as [|? ? ? ? _ F1]; subst.
  inversion F1 as [|? ? ? ? E2 _]; subst.
  discriminate E2.
Qed.

(* ===================================================================== *)
(** * The notification dispatcher *)
(* ===================================================================== *)

(** Running a program symbolically. *)
Ltac run :=
  repeat (progress
            (unfold try_except, bind, log, sleep, emit, ret, raise, lift,
               sg_send, http_get, bq_query, bq_query_job;
             cbn -[in_2xx build_message calls validate_json_payload
                   first_email first_total_spend make_api_call
                   make_api_call_attempt generate_nfce get_nota_fiscal_link
                   get_client_email_from_tinyerp get_client_email
                   get_purchase_details get_purchase_details_attempt
                   get_daily_checkins get_quarter_spend get_lifetime_spend
                   aggregate_email_data send_email send_email_rec])).

(** The events a final history [l] adds in front of [h]. *)
Ltac prefix_of l h :=
  lazymatch l with
  | h => constr:(@nil event)
  | ?e :: ?l' => let p := prefix_of l' h in constr:(e :: p)
  end.

Ltac give_new :=
  lazymatch goal with
  | |- exists new, (_, ?l) = (_, new ++ ?h) /\ _ =>
      let p := prefix_of l h in exists p
  | |- exists new, (_, ?l) = (_, new ++ ?h) =>
      let p := prefix_of l h in exists p
  | |- exists new, ?l = new ++ ?h /\ _ =>
      let p := prefix_of l h in exists p
  end.

(** The recursive equation of the source: [send_email] is its body applied
    to itself; the depth bound is never the reason it stops. *)
Lemma send_email_unfold w email_data retry_count h :
  send_email w email_data retry_count h
  = send_email_body w (send_email w) email_data retry_count h.
Proof.
  unfold send_email.
  destruct retry_count as [|[|n]]; reflexivity.
Qed.

Ltac failed_reply H w :=
  match goal with
  | |- context [sg_client_send w ?m ?k] =>
      let F := fresh "F" in
      pose proof (H k) as F;
      destruct (sg_client_send w m k) as [? ?|?];
      [ cbn [send_failed] in F; apply negb_true_iff in F; cbn [fst];
        rewrite ?F | ];
      clear F
  end.

(** C9.  When every send attempt for a payload fails (a transport exception
    or a non-2xx status), [send_email] makes 3 attempts, sleeps 60
    time-units before the second and 120 before the third, logs the
    max-retry error last, and returns normally: no exception reaches its
    caller. *)
Theorem send_email_gives_up_after_three_attempts :
  forall w email_data h,
    (forall n,
        send_failed
          (sg_client_send w (build_message (VStr TEST_EMAIL) email_data) n)
        = true) ->
    exists new,
      send_email w email_data 0 h = (Ret tt, new ++ h)
      /\ calls is_send new = 3%nat
      /\ sleeps new = [(60 # 1)%Q; (120 # 1)%Q]
      /\ interactions new
         = [EvSend (build_message (VStr TEST_EMAIL) email_data);
            EvSleep (60 # 1);
            EvSend (build_message (VStr TEST_EMAIL) email_data);
            EvSleep (120 # 1);
            EvSend (build_message (VStr TEST_EMAIL) email_data)]
      /\ hd_error new
         = Some (EvLog ERROR "Max retry attempts reached for sending email").
Proof.
  intros w d h H. unfold send_email. cbn [Nat.sub send_email_rec].
  unfold send_email_body. run.
  failed_reply H w; run; cbn [send_email_rec]; unfold send_email_body; run;
    failed_reply H w; run; cbn [send_email_rec]; unfold send_email_body; run;
    failed_reply H w; run.
  all: give_new; repeat split; reflexivity.
Qed.

Lemma send_email_gives_up_after_three_attempts_witness :
  exists new,
    send_email (world_answering body_no_contacts) (VDict []) 0 []
    = (Ret tt, new ++ [])
    /\ calls is_send new = 3%nat
    /\ sleeps new = [(60 # 1)%Q; (120 # 1)%Q]
    /\ interactions new
       = [EvSend (build_message (VStr TEST_EMAIL) (VDict []));
          EvSleep (60 # 1);
          EvSend (build_message (VStr TEST_EMAIL) (VDict []));
          EvSleep (120 # 1);
          EvSend (build_message (VStr TEST_EMAIL) (VDict []))]
    /\ hd_error new
       = Some (EvLog ERROR "Max retry attempts reached for sending email").
Proof.
  apply (send_email_gives_up_after_three_attempts
           (world_answering body_no_contacts) (VDict []) []).
  intros n. reflexivity.
Defined.

(* ===================================================================== *)
(** * The fiscal-document orchestrator *)
(* ===================================================================== *)

(** X7.  When the generate-document request is answered at once with a
    body the validator accepts and that carries
    [retorno.registros.registro.idNotaFiscal], [generate_nfce] returns that
    identifier. *)
Lemma generate_nfce_returns_nested_id w dados_id h json_data nfce_id :
  requests_get w (GerarNotaFiscalPedido (TINY_ERP_API_TOKEN w) dados_id)
    (calls is_gerar h) = HttpOk json_data ->
  validate_json_payload json_data = Ret tt ->
  nested_idNotaFiscal json_data = Some nfce_id ->
  fst (generate_nfce w dados_id h) = Ret nfce_id.
Proof.
  intros H V N. unfold generate_nfce.
  unfold bind at 1. cbn [log emit].
  unfold bind at 1.
  rewrite (make_api_call_accepts w _ _ json_data); [|exact H|exact V].
  unfold nested_idNotaFiscal, embedded, retorno_of in N.
  destruct json_data as [| | | | |?|body]; try discriminate N.
  destruct (dict_get "retorno" body) as [[| | | | |?|retorno]|] eqn:E1;
    try discriminate N.
  destruct (dict_get "registros" retorno) as [[| | | | |?|registros]|] eqn:E2;
    try discriminate N.
  destruct (dict_get "registro" registros) as [[| | | | |?|registro]|] eqn:E3;
    try discriminate N.
  repeat (run; unfold dict_has; rewrite ?E1, ?E2, ?E3, ?N).
  reflexivity.
Qed.

(** C6, the failing input: the response is a success (status '3') and has
    [retorno.registros.registro], but no [idNotaFiscal] in it; the
    subscript raises [KeyError] where the claim expects
    [ValidationError]. *)
Lemma generate_nfce_missing_id_raises_KeyError :
  validate_json_payload body_registro_without_id = Ret tt
  /\ nested_idNotaFiscal body_registro_without_id = None
  /\ fst (generate_nfce (world_answering body_registro_without_id)
            (VStr "123") [])
     = Raise (KeyError (VStr "idNotaFiscal")).
Proof. repeat split; reflexivity. Qed.

(* ===================================================================== *)
(** * What a program may append to the history *)
(* ===================================================================== *)

Section Emits.
Context {A : Type}.
Variable P : event -> bool.

Lemma emits_from_ret (a : A) h : emits_from P (ret a) h.
Proof. exists []. split; reflexivity. Qed.

Lemma emits_from_raise e h : emits_from P (raise (A:=A) e) h.
Proof. exists []. split; reflexivity. Qed.

Lemma emits_from_lift (r : result A) h : emits_from P (lift r) h.
Proof. exists []. split; reflexivity. Qed.

Lemma emits_from_try (m : M A) handler h :
  emits_from P m h ->
  (forall e h', m h = (Raise e, h') -> emits_from P (handler e) h') ->
  emits_from P (try_except m handler) h.
Proof.
  intros (new & E & F) K. unfold emits_from, try_except.
  destruct (m h) as [[a|e] h'] eqn:R; cbn [snd] in *.
  - exists new. auto.
  - destruct (K e h' eq_refl) as (new' & E' & F').
    exists (new' ++ new). rewrite E', E, app_assoc, forallb_app, F, F'. auto.
Qed.
End Emits.

Lemma emits_from_emit P ev h : P ev = true -> emits_from P (emit ev) h.
Proof. intros H. exists [ev]. cbn. rewrite H. auto. Qed.

Lemma emits_from_bind {A B} P (m : M A) (k : A -> M B) h :
  emits_from P m h ->
  (forall a h', m h = (Ret a, h') -> emits_from P (k a) h') ->
  emits_from P (bind m k) h.
Proof.
  intros (new & E & F) K. unfold emits_from, bind.
  destruct (m h) as [[a|e] h'] eqn:R; cbn [snd] in *.
  - destruct (K a h' eq_refl) as (new' & E' & F').
    exists (new' ++ new). rewrite E', E, app_assoc, forallb_app, F, F'. auto.
  - exists new. auto.
Qed.

Lemma emits_from_weaken {A} (P Q : event -> bool) (m : M A) h :
  (forall ev, P ev = true -> Q ev = true) ->
  emits_from P m h -> emits_from Q m h.
Proof.
  intros PQ (new & E & F). exists new. split; [exact E|].
  rewrite forallb_forall in *. auto.
Qed.

Lemma calls_none kind P new :
  forallb P new = true ->
  (forall ev, P ev = true -> kind ev = false) ->
  calls kind new = 0%nat.
Proof.
  intros F PK. induction new as [|ev new IH]; [reflexivity|].
  cbn in F. apply andb_true_iff in F as [F1 F2].
  rewrite calls_cons, (PK _ F1). auto.
Qed.

(** A program that emits no event of a kind leaves that counter alone. *)
Lemma emits_from_frame {A} P kind (m : M A) h r h' :
  emits_from P m h ->
  (forall ev, P ev = true -> kind ev = false) ->
  m h = (r, h') ->
  calls kind h' = calls kind h.
Proof.
  intros (new & E & F) PK R. rewrite R in E. cbn in E. subst h'.
  rewrite calls_app, (calls_none _ _ _ F PK). reflexivity.
Qed.

Lemma emits_from_extends {A} P (m : M A) h r h' :
  emits_from P m h -> m h = (r, h') ->
  exists new, h' = new ++ h /\ forallb P new = true.
Proof. intros (new & E & F) R. rewrite R in E. exists new. auto. Qed.

Lemma emits_from_http_get P w url h :
  P (EvHttpGet url) = true -> emits_from P (http_get w url) h.
Proof.
  intros H. exists [EvHttpGet url]. unfold http_get.
  destruct (requests_get w url _); cbn; rewrite H; auto.
Qed.

Lemma emits_from_bq_query {R} P q kind (answers : nat -> bq_reply R) h :
  P (EvQuery q) = true -> emits_from P (bq_query q kind answers) h.
Proof.
  intros H. exists [EvQuery q]. unfold bq_query.
  destruct (answers _); cbn; rewrite H; auto.
Qed.

Lemma emits_from_bq_query_job {R} P q kind (answers : nat -> bq_reply R)
  succeeded h :
  P (EvQuery q) = true -> emits_from P (bq_query_job q kind answers succeeded) h.
Proof.
  intros H. exists [EvQuery q]. unfold bq_query_job.
  destruct (answers _); cbn; rewrite H; auto.
Qed.

Lemma emits_from_sg_send P w m h :
  P (EvSend m) = true -> emits_from P (sg_send w m) h.
Proof.
  intros H. exists [EvSend m]. unfold sg_send.
  destruct (sg_client_send w m _); cbn; rewrite H; auto.
Qed.

(** The retry loop adds only sleeps and its hook's log lines to what the
    decorated function emits. *)
Lemma emits_from_attempt {A} P wait retry_on before_sleep (fn : M A) :
  quiet P -> emits P fn ->
  forall n k h,
    emits_from P (Tenacity.attempt wait retry_on before_sleep fn n k) h.
Proof.
  intros [QL QS] F n. induction n as [|n IH]; intros k h.
  - destruct (F h) as (new & E & Fn). exists new. cbn.
    destruct (fn h) as [[a|e] h1]; cbn in *; [auto|].
    destruct (retry_on e); auto.
  - destruct (F h) as (new & E & Fn). unfold emits_from. cbn.
    destruct (fn h) as [[a|e] h1] eqn:R; cbn in *; [exists new; auto|].
    destruct (retry_on e); [|exists new; auto].
    match goal with |- context [Tenacity.attempt _ _ _ _ n (S k) ?h2] =>
      destruct (IH (S k) h2) as (new' & E' & F') end.
    rewrite E'. subst h1.
    destruct before_sleep as [lv|].
    + exists (new' ++ EvSleep (wait k) :: EvLog lv "Retrying" :: new).
      rewrite <- app_assoc, forallb_app, F'. cbn. rewrite QS, QL, Fn. auto.
    + exists (new' ++ EvSleep (wait k) :: new).
      rewrite <- app_assoc, forallb_app, F'. cbn. rewrite QS, Fn. auto.
Qed.

(** Whatever the retry loop returns, some attempt returned it. *)
Lemma attempt_ret_inv {A} wait retry_on before_sleep (fn : M A) n k h a h' :
  Tenacity.attempt wait retry_on before_sleep fn n k h = (Ret a, h') ->
  exists h0, fn h0 = (Ret a, h').
Proof.
  revert k h. induction n as [|n IH]; intros k h; cbn.
  - destruct (fn h) as [[a0|e] h1] eqn:R.
    + intros [= <- <-]. eauto.
    + destruct (retry_on e); discriminate.
  - destruct (fn h) as [[a0|e] h1] eqn:R.
    + intros [= <- <-]. eauto.
    + destruct (retry_on e); [|discriminate]. apply IH.
Qed.

Ltac emits_step :=
  cbv zeta;
  lazymatch goal with
  | |- emits _ _ => intros ?
  | |- emits_from _ (bind _ _) _ => apply emits_from_bind; [|intros ? ? ?]
  | |- emits_from _ (try_except _ _) _ => apply emits_from_try; [|intros ? ? ?]
  | |- emits_from _ (ret _) _ => apply emits_from_ret
  | |- emits_from _ (raise _) _ => apply emits_from_raise
  | |- emits_from _ (lift _) _ => apply emits_from_lift
  | |- emits_from _ (log _ _) _ => apply emits_from_emit
  | |- emits_from _ (sleep _) _ => apply emits_from_emit
  | |- emits_from _ (http_get _ _) _ => apply emits_from_http_get
  | |- emits_from _ (bq_query _ _ _) _ => apply emits_from_bq_query
  | |- emits_from _ (bq_query_job _ _ _ _) _ => apply emits_from_bq_query_job
  | |- emits_from _ (sg_send _ _) _ => apply emits_from_sg_send
  | |- emits_from ?P (fun _ => _) ?h =>
      unfold emits_from at 1; cbv beta iota;
      lazymatch goal with
      | |- exists new, snd (?m h) = _ /\ _ => change (emits_from P m h)
      end
  | |- emits_from _ (if ?b then _ else _) _ => destruct b
  | |- emits_from _ (match ?x with _ => _ end) _ => destruct x
  end.

Ltac emits_auto := repeat emits_step; auto.

Section StageEmits.
Variable w : world.
Variable P : event -> bool.
Hypothesis Pquiet : quiet P.

Let Plog : forall lv msg, P (EvLog lv msg) = true := proj1 Pquiet.
Let Psleep : forall s, P (EvSleep s) = true := proj2 Pquiet.

Lemma make_api_call_emits url :
  P (EvHttpGet url) = true -> emits P (make_api_call w url).
Proof.
  intros H h. apply emits_from_attempt; [exact Pquiet|].
  unfold make_api_call_attempt. emits_auto.
Qed.

Lemma generate_nfce_emits dados_id :
  (forall token, P (EvHttpGet (GerarNotaFiscalPedido token dados_id)) = true) ->
  emits P (generate_nfce w dados_id).
Proof.
  intros H. unfold generate_nfce. emits_auto.
  apply make_api_call_emits. auto.
Qed.

Lemma get_nota_fiscal_link_emits idNotafiscal :
  (forall token, P (EvHttpGet (NotaFiscalObterLink token idNotafiscal)) = true) ->
  emits P (get_nota_fiscal_link w idNotafiscal).
Proof.
  intros H. unfold get_nota_fiscal_link. emits_auto.
  apply make_api_call_emits. auto.
Qed.

Lemma get_client_email_from_tinyerp_emits cpf :
  (forall token, P (EvHttpGet (ContatosPesquisa token cpf)) = true) ->
  emits P (get_client_email_from_tinyerp w cpf).
Proof.
  intros H. unfold get_client_email_from_tinyerp. emits_auto.
  apply make_api_call_emits. auto.
Qed.

Lemma get_client_email_emits cpf :
  P (EvQuery (ClientEmailQuery cpf)) = true ->
  (forall token, P (EvHttpGet (ContatosPesquisa token cpf)) = true) ->
  emits P (get_client_email w cpf).
Proof.
  intros Hq H. unfold get_client_email. emits_auto.
  apply get_client_email_from_tinyerp_emits. auto.
Qed.

Lemma get_purchase_details_emits dados_id :
  P (EvQuery (PurchaseDetailsQuery dados_id)) = true ->
  emits P (get_purchase_details w dados_id).
Proof.
  intros H h. apply emits_from_attempt; [exact Pquiet|].
  unfold get_purchase_details_attempt. emits_auto.
Qed.

Lemma get_daily_checkins_emits cpf :
  P (EvQuery (DailyCheckinsQuery cpf)) = true ->
  emits P (get_daily_checkins w cpf).
Proof. intros H. unfold get_daily_checkins. emits_auto. Qed.

Lemma get_quarter_spend_emits cpf :
  P (EvQuery (QuarterSpendQuery cpf)) = true ->
  emits P (get_quarter_spend w cpf).
Proof. intros H. unfold get_quarter_spend. emits_auto. Qed.

Lemma get_lifetime_spend_emits cpf :
  P (EvQuery (LifetimeSpendQuery cpf)) = true ->
  emits P (get_lifetime_spend w cpf).
Proof. intros H. unfold get_lifetime_spend. emits_auto. Qed.

Lemma aggregate_email_data_emits cpf dados_id email url name :
  (forall q, P (EvQuery q) = true) ->
  emits P (aggregate_email_data w cpf dados_id email url name).
Proof.
  intros H. unfold aggregate_email_data. emits_auto.
  - apply get_purchase_details_emits. auto.
  - apply get_daily_checkins_emits. auto.
  - apply get_quarter_spend_emits. auto.
  - apply get_lifetime_spend_emits. auto.
Qed.

Lemma send_email_rec_emits email_data :
  P (EvSend (build_message (VStr TEST_EMAIL) email_data)) = true ->
  forall n retry_count, emits P (send_email_rec w n email_data retry_count).
Proof.
  intros H n. induction n as [|n IH]; intros rc h; cbn [send_email_rec];
    unfold send_email_body, TEST_MODE; emits_auto.
  apply IH.
Qed.

Lemma send_email_emits email_data retry_count :
  P (EvSend (build_message (VStr TEST_EMAIL) email_data)) = true ->
  emits P (send_email w email_data retry_count).
Proof. intros H. apply send_email_rec_emits. exact H. Qed.
End StageEmits.

(* ===================================================================== *)
(** * The pipeline *)
(* ===================================================================== *)

(** No exception leaves [process_webhook_payload]. *)
Lemma process_webhook_payload_returns w payload h :
  fst (process_webhook_payload w payload h) = Ret tt.
Proof.
  unfold process_webhook_payload, try_except.
  match goal with |- context [match ?b h with _ => _ end] =>
    destruct (b h) as [[[]|e] h'] end; [reflexivity|].
  destruct e; reflexivity.
Qed.

(** C4.  A payload without [dados.id] (no [dados] key, a [dados] that is
    not an object, or an object without [id]; the payload itself may be any
    JSON value) makes [process_webhook_payload] return normally after
    writing a single error log line: the history gains no ERP request, no
    warehouse query and no send. *)
Theorem missing_dados_id_stops_the_pipeline :
  forall w payload h,
    payload_dados_id payload = None ->
    exists msg,
      process_webhook_payload w payload h = (Ret tt, [EvLog ERROR msg] ++ h).
Proof.
  intros w payload h H.
  unfold payload_dados_id, payload_dados in H.
  unfold process_webhook_payload.
  destruct payload as [| | | | s|l|p]; run; try (eexists; reflexivity).
  - destruct (is_substring "dados" s); run; eexists; reflexivity.
  - destruct (existsb _ l); run; eexists; reflexivity.
  - unfold dict_has.
    destruct (dict_get "dados" p) as [[| | | | |?|dados]|]; run;
      try (eexists; reflexivity).
    rewrite H. run. eexists; reflexivity.
Qed.

Lemma missing_dados_id_stops_the_pipeline_witness :
  exists msg,
    process_webhook_payload (world_answering body_nfce_55)
      (VDict [("dados", VDict [("cliente", VDict [("cpfCnpj", VStr "111")])])])
      []
    = (Ret tt, [EvLog ERROR msg] ++ []).
Proof.
  apply (missing_dados_id_stops_the_pipeline (world_answering body_nfce_55)).
  reflexivity.
Defined.

(* ===================================================================== *)
(** * The analytics aggregator *)
(* ===================================================================== *)

Lemma dict_get_set_same k v d : dict_get k (dict_set k v d) = Some v.
Proof.
  induction d as [|[k' v'] d IH]; cbn.
  - rewrite String.eqb_refl. reflexivity.
  - destruct (String.eqb k k') eqn:E; cbn; rewrite ?String.eqb_refl, ?E; auto.
Qed.

(** What one successful attempt of the items query returns: an object whose
    [items] is the non-empty list of item details. *)
Lemma get_purchase_details_attempt_ret w dados_id h summary h1 :
  get_purchase_details_attempt w dados_id h = (Ret summary, h1) ->
  exists fields item items,
    summary = VDict fields
    /\ dict_get "items" fields = Some (VList (item :: items)).
Proof.
  unfold get_purchase_details_attempt. run.
  destruct (query_purchase_details w dados_id _) as [[|row rows]|e]; run.
  - discriminate.
  - intros [= <- <-]. do 3 eexists. split; [reflexivity|].
    apply dict_get_set_same.
  - destruct (is_bad_request e); run; discriminate.
Qed.

Lemma get_purchase_details_ret w dados_id h summary h1 :
  get_purchase_details w dados_id h = (Ret summary, h1) ->
  exists fields item items,
    summary = VDict fields
    /\ dict_get "items" fields = Some (VList (item :: items)).
Proof.
  unfold get_purchase_details, Tenacity.retry. intros R.
  apply attempt_ret_inv in R as [h0 R].
  eapply get_purchase_details_attempt_ret; eauto.
Qed.

(** Each loyalty query always returns its one-field object, and the field
    is 0 when the query fails. *)
Lemma get_daily_checkins_total w cpf h :
  exists v new,
    get_daily_checkins w cpf h
    = (Ret (VDict [("daily_checkins", v)]), new ++ h)
    /\ (forall e,
           query_daily_checkins w cpf (calls is_checkins_query h) = BqRaise e ->
           v = VInt 0).
Proof.
  unfold get_daily_checkins. run.
  destruct (query_daily_checkins w cpf _) as [rows|e]; run.
  - eexists. give_new. split; [reflexivity|]. discriminate.
  - destruct (is_bad_request e); run;
      (eexists; give_new; split; reflexivity).
Qed.

Lemma get_quarter_spend_total w cpf h :
  exists v new,
    get_quarter_spend w cpf h
    = (Ret (VDict [("quarter_spend", v)]), new ++ h)
    /\ (forall e,
           query_quarter_spend w cpf (calls is_quarter_query h) = BqRaise e ->
           v = VInt 0).
Proof.
  unfold get_quarter_spend. run.
  destruct (query_quarter_spend w cpf _) as [rows|e]; run.
  - eexists. give_new. split; [reflexivity|]. discriminate.
  - destruct (is_bad_request e); run;
      (eexists; give_new; split; reflexivity).
Qed.

Lemma get_lifetime_spend_total w cpf h :
  exists v new,
    get_lifetime_spend w cpf h
    = (Ret (VDict [("total_spend", v)]), new ++ h)
    /\ (forall e,
           query_lifetime_spend w cpf (calls is_lifetime_query h) = BqRaise e ->
           v = VInt 0).
Proof.
  unfold get_lifetime_spend. run.
  destruct (query_lifetime_spend w cpf _) as [[|row rows]|e]; run.
  - destruct (lifetime_job_succeeded w cpf _); run;
      (eexists; give_new; split; [reflexivity|discriminate]).
  - destruct (lifetime_job_succeeded w cpf _); run;
      (eexists; give_new; split; [reflexivity|discriminate]).
  - destruct (is_bad_request e); run;
      (eexists; give_new; split; reflexivity).
Qed.

Lemma quiet_only kind : quiet (only kind).
Proof.
  split; intros; unfold only; cbn; rewrite ?orb_true_r; reflexivity.
Qed.

Ltac kinds_disjoint :=
  let ev := fresh "ev" in
  intros ev; destruct ev as [? ?|?|[]|[]|?]; cbn; congruence.

(** C8.  Once the items query has produced a purchase summary,
    [aggregate_email_data] returns an EmailPayload whose [items] is that
    non-empty item list, and each loyalty field is 0 as soon as its own
    query fails, whatever the other two do; in particular all three are 0
    when all three queries fail. *)
Theorem failed_loyalty_queries_default_to_zero :
  forall w cpf dados_id email url name h summary h1,
    get_purchase_details w dados_id h = (Ret summary, h1) ->
    exists email_data new item items,
      aggregate_email_data w cpf dados_id email url name h
      = (Ret (VDict email_data), new ++ h)
      /\ get summary "items" (VList []) = Ret (VList (item :: items))
      /\ dict_get "items" email_data = Some (VList (item :: items))
      /\ (forall e,
             query_daily_checkins w cpf (calls is_checkins_query h)
             = BqRaise e ->
             dict_get "daily_checkins" email_data = Some (VInt 0))
      /\ (forall e,
             query_quarter_spend w cpf (calls is_quarter_query h)
             = BqRaise e ->
             dict_get "quarter_spend" email_data = Some (VInt 0))
      /\ (forall e,
             query_lifetime_spend w cpf (calls is_lifetime_query h)
             = BqRaise e ->
             dict_get "lifetime_spend" email_data = Some (VInt 0)).
Proof.
  intros w cpf dados_id email url name h summary h1 R.
  destruct (get_purchase_details_ret _ _ _ _ _ R)
    as (fields & item & items & -> & I).
  pose proof (get_purchase_details_emits w _ (quiet_only is_items_query)
                dados_id eq_refl h) as Em.
  destruct (emits_from_extends _ _ _ _ _ Em R) as (n1 & -> & _).
  destruct (get_daily_checkins_total w cpf (n1 ++ h)) as (v1 & n2 & R1 & D1).
  destruct (get_quarter_spend_total w cpf (n2 ++ n1 ++ h))
    as (v2 & n3 & R2 & D2).
  destruct (get_lifetime_spend_total w cpf (n3 ++ n2 ++ n1 ++ h))
    as (v3 & n4 & R3 & D3).
  assert (C1 : calls is_checkins_query (n1 ++ h) = calls is_checkins_query h).
  { eapply emits_from_frame; [exact Em| |exact R]. kinds_disjoint. }
  assert (C2 : calls is_quarter_query (n2 ++ n1 ++ h)
               = calls is_quarter_query h).
  { rewrite <- (emits_from_frame _ is_quarter_query _ _ _ _ Em
                   ltac:(kinds_disjoint) R).
    eapply emits_from_frame; [|
      |exact R1].
    - apply (get_daily_checkins_emits w _ (quiet_only is_checkins_query)).
      reflexivity.
    - kinds_disjoint. }
  assert (C3 : calls is_lifetime_query (n3 ++ n2 ++ n1 ++ h)
               = calls is_lifetime_query h).
  { rewrite <- (emits_from_frame _ is_lifetime_query _ _ _ _ Em
                   ltac:(kinds_disjoint) R).
    rewrite <- (emits_from_frame _ is_lifetime_query _ _ _ _
                   (get_daily_checkins_emits w _ (quiet_only is_checkins_query)
                      cpf eq_refl _)
                   ltac:(kinds_disjoint) R1).
    eapply emits_from_frame; [| |exact R2].
    - apply (get_quarter_spend_emits w _ (quiet_only is_quarter_query)).
      reflexivity.
    - kinds_disjoint. }
  rewrite C1 in D1. rewrite C2 in D2. rewrite C3 in D3.
  unfold aggregate_email_data, try_except.
  unfold bind at 1. rewrite R.
  unfold bind at 1. rewrite R1.
  unfold bind at 1. rewrite R2.
  unfold bind at 1. rewrite R3.
  run. rewrite I.
  destruct (is_none url); run.
  - eexists. exists (n4 ++ n3 ++ n2 ++ n1), item, items.
    rewrite <- !app_assoc. repeat split; try reflexivity.
    + intros e He. rewrite (D1 e He). reflexivity.
    + intros e He. rewrite (D2 e He). reflexivity.
    + intros e He. rewrite (D3 e He). reflexivity.
  - eexists. exists (n4 ++ n3 ++ n2 ++ n1), item, items.
    rewrite <- !app_assoc. repeat split; try reflexivity.
    + intros e He. rewrite (D1 e He). reflexivity.
    + intros e He. rewrite (D2 e He). reflexivity.
    + intros e He. rewrite (D3 e He). reflexivity.
Qed.

Lemma failed_loyalty_queries_default_to_zero_witness :
  exists email_data new item items,
    aggregate_email_data world_with_items (VStr "111") (VStr "123")
      (VStr "ana@x.com") VNone (VStr "Ana") []
    = (Ret (VDict email_data), new ++ [])
    /\ dict_get "items" email_data = Some (VList (item :: items))
    /\ dict_get "daily_checkins" email_data = Some (VInt 0)
    /\ dict_get "quarter_spend" email_data = Some (VInt 0)
    /\ dict_get "lifetime_spend" email_data = Some (VInt 0).
Proof.
  eassert (R0 : get_purchase_details world_with_items (VStr "123") []
                = (Ret _, _)) by (vm_compute; reflexivity).
  destruct (failed_loyalty_queries_default_to_zero world_with_items
              (VStr "111") (VStr "123") (VStr "ana@x.com") VNone (VStr "Ana")
              [] _ _ R0)
    as (d & new & item & items & R & _ & I & D1 & D2 & D3).
  exists d, new, item, items.
  repeat split;
    [exact R | exact I | eapply D1; reflexivity | eapply D2; reflexivity
     | eapply D3; reflexivity].
Defined.

(* ===================================================================== *)
(** * Walking the pipeline *)
(* ===================================================================== *)

Lemma reached_refl P h : reached P h h.
Proof. exists []. auto. Qed.

Lemma reached_calls P kind h hcur :
  reached P h hcur ->
  (forall ev, P ev = true -> kind ev = false) ->
  calls kind hcur = calls kind h.
Proof.
  intros (mid & -> & F) PK. rewrite calls_app, (calls_none _ _ _ F PK).
  reflexivity.
Qed.

(** Sequencing under an invariant: while the stages so far emitted only
    [P]-events, the continuation may rely on it. *)
Lemma reached_bind {A B} (P Q : event -> bool) (m : M A) (k : A -> M B)
  h hcur :
  (forall ev, P ev = true -> Q ev = true) ->
  reached P h hcur ->
  emits_from P m hcur ->
  (forall a h', m hcur = (Ret a, h') -> reached P h h' ->
                emits_from Q (k a) h') ->
  emits_from Q (bind m k) hcur.
Proof.
  intros PQ (mid & Hc & Fm) Em K.
  apply emits_from_bind.
  - eapply emits_from_weaken; eauto.
  - intros a h' E. apply (K a h' E).
    destruct (emits_from_extends _ _ _ _ _ Em E) as (new & -> & Fn).
    exists (new ++ mid). subst hcur.
    rewrite app_assoc, forallb_app, Fn, Fm. auto.
Qed.

Lemma lift_ret_inv {A} (r : result A) h a h' :
  lift r h = (Ret a, h') -> r = Ret a /\ h' = h.
Proof. unfold lift. intros [= -> ->]. auto. Qed.

Lemma aggregate_fails_with_items w cpf dados_id email url name h e h1 :
  get_purchase_details w dados_id h = (Raise e, h1) ->
  fst (aggregate_email_data w cpf dados_id email url name h) = Raise e.
Proof.
  intros R. unfold aggregate_email_data, try_except.
  unfold bind at 1. rewrite R. reflexivity.
Qed.

(** One attempt of the items query that finds no row. *)
Lemma items_attempt_on_no_rows w dados_id h :
  query_purchase_details w dados_id (calls is_items_query h) = BqRows [] ->
  get_purchase_details_attempt w dados_id h
  = (Raise (PyException "Purchase details not found after retries."),
     EvLog ERROR
       "Unexpected error while fetching purchase details for dados_id"
     :: EvLog WARNING
          "No purchase details found for ID. Data might be delayed or ID is incorrect."
     :: EvQuery (PurchaseDetailsQuery dados_id)
     :: EvLog INFO "Fetching purchase details for dados_id: " :: h).
Proof.
  intros H. unfold get_purchase_details_attempt. run.
  rewrite calls_cons. cbn [is_items_query]. rewrite H. reflexivity.
Qed.

(** Four empty answers in a row exhaust the retry budget. *)
Lemma get_purchase_details_exhausts w dados_id h :
  (forall k, (k < 4)%nat ->
             query_purchase_details w dados_id (calls is_items_query h + k)
             = BqRows []) ->
  exists new,
    get_purchase_details w dados_id h
    = (Raise (RetryError
                (PyException "Purchase details not found after retries.")),
       new ++ h)
    /\ calls is_items_query new = 4%nat.
Proof.
  intros H.
  pose proof (H 0%nat ltac:(lia)) as H0. rewrite Nat.add_0_r in H0.
  pose proof (H 1%nat ltac:(lia)) as H1. rewrite Nat.add_1_r in H1.
  pose proof (H 2%nat ltac:(lia)) as H2.
  replace (calls is_items_query h + 2)%nat
    with (S (S (calls is_items_query h))) in H2 by lia.
  pose proof (H 3%nat ltac:(lia)) as H3.
  replace (calls is_items_query h + 3)%nat
    with (S (S (S (calls is_items_query h)))) in H3 by lia.
  unfold get_purchase_details, Tenacity.retry.
  cbn [Nat.sub Tenacity.attempt].
  rewrite (items_attempt_on_no_rows _ _ _ H0). cbn [Tenacity.any_exception].
  rewrite items_attempt_on_no_rows
    by (unfold calls; cbn [filter length is_items_query]; exact H1).
  rewrite items_attempt_on_no_rows
    by (unfold calls; cbn [filter length is_items_query]; exact H2).
  rewrite items_attempt_on_no_rows
    by (unfold calls; cbn [filter length is_items_query]; exact H3).
  give_new. split; reflexivity.
Qed.

Lemma emits_from_bind_lift {A B} P (r : result A) (k : A -> M B) h :
  (forall a, r = Ret a -> emits_from P (k a) h) ->
  emits_from P (bind (lift r) k) h.
Proof.
  intros K. destruct r as [a|e].
  - exact (K a eq_refl).
  - exists []. auto.
Qed.

(** From "only events of [P]" to the statement about the run. *)
Lemma run_of_emits w payload h P :
  emits_from P (process_webhook_payload w payload) h ->
  exists new,
    process_webhook_payload w payload h = (Ret tt, new ++ h)
    /\ forallb P new = true.
Proof.
  intros (new & E & F). exists new.
  pose proof (process_webhook_payload_returns w payload h) as R.
  destruct (process_webhook_payload w payload h) as [r h'].
  cbn in *. subst. auto.
Qed.

Lemma quiet_neither k1 k2 :
  (forall lv msg, k1 (EvLog lv msg) = false) ->
  (forall s, k1 (EvSleep s) = false) ->
  (forall lv msg, k2 (EvLog lv msg) = false) ->
  (forall s, k2 (EvSleep s) = false) ->
  quiet (neither k1 k2).
Proof.
  intros A1 A2 B1 B2. split; intros; unfold neither;
    rewrite ?A1, ?A2, ?B1, ?B2; reflexivity.
Qed.

Lemma neither_send_is_no_send k ev :
  neither is_send k ev = true -> no_send ev = true.
Proof.
  unfold neither, no_send. destruct (is_send ev); cbn; congruence.
Qed.

Lemma quiet_no_send : quiet no_send.
Proof. split; reflexivity. Qed.

(** A stage of the pipeline that keeps to the events of [P]. *)
Tactic Notation "stage" constr(P) "as" ident(a) ident(h') ident(E) ident(R) :=
  eapply (reached_bind P);
  [ | eassumption | | intros a h' E R].

(** A pure step of the pipeline. *)
Tactic Notation "pure_step" "as" ident(a) ident(Ea) :=
  apply emits_from_bind_lift; intros a Ea.

(** C3.  When the items query of the payload's transaction id answers with
    zero rows on each of its 4 attempts, [get_purchase_details] raises the
    "purchase details not found" condition (wrapped in tenacity's
    [RetryError], after exactly 4 queries), and [process_webhook_payload]
    returns normally without a single send: the pipeline is aborted and no
    exception escapes. *)
Theorem missing_purchase_items_abort_the_pipeline :
  forall w payload dados_id h,
    payload_dados_id payload = Some dados_id ->
    (forall k, (k < 4)%nat ->
               query_purchase_details w dados_id (calls is_items_query h + k)
               = BqRows []) ->
    (forall h0,
        calls is_items_query h0 = calls is_items_query h ->
        exists new,
          get_purchase_details w dados_id h0
          = (Raise (RetryError
                      (PyException
                         "Purchase details not found after retries.")),
             new ++ h0)
          /\ calls is_items_query new = 4%nat)
    /\ exists new,
        process_webhook_payload w payload h = (Ret tt, new ++ h)
        /\ calls is_send new = 0%nat.
Proof.
  intros w payload dados_id h Hid H.
  assert (X : forall h0,
             calls is_items_query h0 = calls is_items_query h ->
             exists new,
               get_purchase_details w dados_id h0
               = (Raise (RetryError
                           (PyException
                              "Purchase details not found after retries.")),
                  new ++ h0)
               /\ calls is_items_query new = 4%nat).
  { intros h0 C. apply get_purchase_details_exhausts. rewrite C. exact H. }
  split; [exact X|].
  cut (emits_from no_send (process_webhook_payload w payload) h).
  { intros Em. destruct (run_of_emits _ _ _ _ Em) as (new & R & F).
    exists new. split; [exact R|].
    eapply calls_none; [exact F|].
    intros ev. unfold no_send. destruct (is_send ev); cbn; congruence. }
  set (early := neither is_send is_items_query).
  assert (Qe : quiet early) by (apply quiet_neither; reflexivity).
  assert (We : forall ev, early ev = true -> no_send ev = true)
    by (intros ev; apply neither_send_is_no_send).
  pose proof (reached_refl early h) as Rch.
  unfold payload_dados_id, payload_dados in Hid.
  destruct payload as [| | | | | |p]; try discriminate.
  destruct (dict_get "dados" p) as [[| | | | | |dados]|] eqn:Ed;
    try discriminate.
  unfold process_webhook_payload.
  apply emits_from_try; [|intros e h' _; destruct e; emits_auto].
  pure_step as has_dados Ea. cbn in Ea. unfold dict_has in Ea.
  rewrite Ed in Ea. injection Ea as <-. cbn [negb].
  pure_step as id Ea. cbn in Ea. rewrite Ed in Ea. cbn in Ea.
  rewrite Hid in Ea. injection Ea as <-.
  destruct (negb (truthy dados_id)); [emits_auto|].
  stage early as nfce_id h1 E1 R1; [exact We| |].
  { apply emits_from_try; [|intros; emits_auto; apply Qe].
    apply generate_nfce_emits; [exact Qe|reflexivity]. }
  pure_step as cliente_info Ec. pure_step as nome En. pure_step as cpf Ep.
  stage early as u h2 E2 R2; [exact We|emits_auto; apply Qe|].
  destruct (is_none cpf); [emits_auto|].
  stage early as email h3 E3 R3; [exact We| |].
  { apply get_client_email_emits; [exact Qe|reflexivity|reflexivity]. }
  destruct (negb (truthy email)); [emits_auto|].
  stage early as url h4 E4 R4; [exact We| |].
  { destruct (truthy nfce_id); [|emits_auto].
    apply emits_from_try; [|intros; emits_auto; apply Qe].
    apply get_nota_fiscal_link_emits; [exact Qe|reflexivity]. }
  apply emits_from_bind.
  { apply aggregate_email_data_emits; [exact quiet_no_send|reflexivity]. }
  intros email_data h5 E5. exfalso.
  destruct (X h4) as (new & G & _).
  { eapply reached_calls; [exact R4|].
    intros ev. unfold early, neither.
    destruct (is_send ev), (is_items_query ev); cbn; congruence. }
  pose proof (aggregate_fails_with_items w cpf dados_id email url nome
                h4 _ _ G) as Fa.
  rewrite E5 in Fa. discriminate Fa.
Qed.

Lemma missing_purchase_items_abort_the_pipeline_witness :
  (exists new,
      get_purchase_details world_without_items (VStr "123") []
      = (Raise (RetryError
                  (PyException "Purchase details not found after retries.")),
         new ++ [])
      /\ calls is_items_query new = 4%nat)
  /\ exists new,
      process_webhook_payload world_without_items sample_payload []
      = (Ret tt, new ++ [])
      /\ calls is_send new = 0%nat.
Proof.
  destruct (missing_purchase_items_abort_the_pipeline world_without_items
              sample_payload (VStr "123") [] eq_refl
              (fun k _ => eq_refl)) as [X Y].
  split; [exact (X [] eq_refl)|exact Y].
Defined.

(* ===================================================================== *)
(** * Customer lookup *)
(* ===================================================================== *)

Lemma first_email_hit pre row post :
  forallb no_email pre = true ->
  truthy (row_email row) = true ->
  first_email (pre ++ row :: post) = Some (row_email row).
Proof.
  intros F T. unfold first_email. induction pre as [|r pre IH]; cbn.
  - rewrite T. reflexivity.
  - cbn in F. apply andb_true_iff in F as [F1 F2].
    unfold no_email in F1. apply negb_true_iff in F1. rewrite F1. auto.
Qed.

Lemma first_email_miss rows :
  forallb no_email rows = true -> first_email rows = None.
Proof.
  intros F. unfold first_email. induction rows as [|r rows IH]; cbn; auto.
  cbn in F. apply andb_true_iff in F as [F1 F2].
  unfold no_email in F1. apply negb_true_iff in F1. rewrite F1. auto.
Qed.

(** A body an attempt returns is a reply the validator accepted. *)
Lemma attempt_ret_body w url h a h' :
  make_api_call_attempt w url h = (Ret a, h') ->
  exists n, requests_get w url n = HttpOk a /\ validate_json_payload a = Ret tt.
Proof.
  unfold make_api_call_attempt. run.
  destruct (requests_get w url _) as [json_data|e] eqn:R; run.
  - destruct (validate_json_payload json_data) as [[]|e] eqn:V; run.
    + intros [= <- <-]. eauto.
    + destruct (is_request_exception e), (is_validation_error e); run;
        discriminate.
  - destruct (is_request_exception e), (is_validation_error e); run;
      discriminate.
Qed.

Lemma make_api_call_ret_body w url h a h' :
  make_api_call w url h = (Ret a, h') ->
  exists n, requests_get w url n = HttpOk a /\ validate_json_payload a = Ret tt.
Proof.
  unfold make_api_call, Tenacity.retry. intros R.
  apply attempt_ret_inv in R as [h0 R].
  eapply attempt_ret_body; eauto.
Qed.

Ltac run_in E :=
  repeat (progress
            (unfold try_except, bind, log, sleep, emit, ret, raise, lift,
               rbind, get, getitem, getitem0, contains in E;
             cbn -[calls validate_json_payload first_email truthy] in E)).

Ltac crunch E :=
  repeat (run_in E; try discriminate E;
          match type of E with
          | context [match ?x with _ => _ end] => destruct x eqn:?
          | context [if ?x then _ else _] => destruct x eqn:?
          end).

(** Inverting the pure lookups left in the context. *)
Ltac invert_lookups :=
  repeat match goal with
         | H : Ret _ = Ret _ |- _ => injection H as ?; subst
         | H : VDict _ = VDict _ |- _ => injection H as ?; subst
         | H : Some _ = Some _ |- _ => injection H as ?; subst
         | H : Raise _ = Ret _ |- _ => discriminate H
         | H : context [match ?x with _ => _ end] |- _ =>
             destruct x eqn:?; cbn in H
         end;
  subst; cbn in *; try discriminate.

(** An email the ERP fallback returns is the first contact's email of a
    contact-search reply the validator accepted. *)
Lemma tinyerp_ret_is_first_contact w cpf h a h' :
  get_client_email_from_tinyerp w cpf h = (Ret a, h') ->
  truthy a = true ->
  exists n json_data,
    requests_get w (ContatosPesquisa (TINY_ERP_API_TOKEN w) cpf) n
    = HttpOk json_data
    /\ validate_json_payload json_data = Ret tt
    /\ first_contact_email json_data = Some a.
Proof.
  unfold get_client_email_from_tinyerp.
  unfold bind at 1. cbn [log emit]. unfold bind at 1.
  destruct (make_api_call w _ _) as [[resp|e] h2] eqn:R; [|discriminate].
  apply make_api_call_ret_body in R as (n & Rn & V).
  intros E T. exists n, resp. split; [exact Rn|]. split; [exact V|].
  clear Rn V. unfold first_contact_email, embedded, retorno_of.
  crunch E.
  all: try (injection E as <- <-; try discriminate T).
  all: invert_lookups.
  all: repeat match goal with
       | H : dict_get _ _ = _ |- _ => rewrite H
       end; reflexivity.
Qed.

(** The fallback on a reply that carries a first-contact email. *)
Lemma tinyerp_returns_first_contact w cpf h json_data email :
  requests_get w (ContatosPesquisa (TINY_ERP_API_TOKEN w) cpf)
    (calls is_contatos h) = HttpOk json_data ->
  validate_json_payload json_data = Ret tt ->
  first_contact_email json_data = Some email ->
  truthy email = true ->
  get_client_email_from_tinyerp w cpf h
  = (Ret email,
     EvLog INFO "Successfully fetched email from TinyERP for CPF/CNPJ: "
     :: EvHttpGet (ContatosPesquisa (TINY_ERP_API_TOKEN w) cpf)
     :: EvLog INFO "Making API call to: "
     :: EvLog INFO "Fetching email for client with CPF/CNPJ from TinyERP: "
     :: h).
Proof.
  intros R V F T. unfold get_client_email_from_tinyerp.
  unfold bind at 1. cbn [log emit]. unfold bind at 1.
  rewrite (make_api_call_accepts w _ _ json_data); [|exact R|exact V].
  clear R V. unfold first_contact_email, embedded, retorno_of in F.
  invert_lookups.
  repeat (run; rewrite ?T;
          repeat match goal with
                 | H : dict_get _ _ = _ |- _ => rewrite H
                 end).
  reflexivity.
Qed.

(** The lookup on a warehouse hit: one query, no ERP request. *)
Lemma get_client_email_from_warehouse w cpf h rows email :
  query_client_email w cpf (calls is_email_query h) = BqRows rows ->
  first_email rows = Some email ->
  get_client_email w cpf h
  = (Ret email,
     EvLog INFO "Email found: " :: EvQuery (ClientEmailQuery cpf)
     :: EvLog INFO "Fetching email for client with CPF/CNPJ: " :: h).
Proof.
  intros R F. unfold get_client_email. run.
  rewrite calls_cons. cbn [is_email_query]. rewrite R, F. reflexivity.
Qed.

(** The lookup on a warehouse miss is the ERP fallback, run after the
    query and the warning. *)
Lemma get_client_email_falls_back w cpf h rows :
  query_client_email w cpf (calls is_email_query h) = BqRows rows ->
  first_email rows = None ->
  let h1 :=
    EvLog WARNING
      "No email found in BigQuery for client with CPF/CNPJ. Falling back to TinyERP."
    :: EvQuery (ClientEmailQuery cpf)
    :: EvLog INFO "Fetching email for client with CPF/CNPJ: " :: h in
  fst (get_client_email w cpf h)
  = fst (get_client_email_from_tinyerp w cpf h1)
  /\ (forall a h',
         get_client_email_from_tinyerp w cpf h1 = (Ret a, h') ->
         get_client_email w cpf h = (Ret a, h')).
Proof.
  intros R F h1. unfold get_client_email. run.
  rewrite calls_cons. cbn [is_email_query]. rewrite R, F.
  fold h1. destruct (get_client_email_from_tinyerp w cpf h1) as [[a|e] h2].
  - split; [reflexivity|]. intros a0 h' [= <- <-]. reflexivity.
  - split; [|discriminate]. destruct (is_bad_request e); reflexivity.
Qed.

(** When the warehouse misses and no accepted contact-search reply carries
    a usable email, the lookup resolves nothing. *)
Lemma get_client_email_unresolved w cpf h rows a h' :
  query_client_email w cpf (calls is_email_query h) = BqRows rows ->
  first_email rows = None ->
  (forall n json_data email,
      requests_get w (ContatosPesquisa (TINY_ERP_API_TOKEN w) cpf) n
      = HttpOk json_data ->
      validate_json_payload json_data = Ret tt ->
      first_contact_email json_data = Some email ->
      truthy email = false) ->
  get_client_email w cpf h = (Ret a, h') ->
  truthy a = false.
Proof.
  intros R F Miss E.
  destruct (get_client_email_falls_back _ _ _ _ R F) as [Fst _].
  cbv zeta in Fst. rewrite E in Fst. cbn [fst] in Fst.
  match type of Fst with
  | _ = fst ?t => destruct t as [r h2] eqn:T
  end.
  cbn [fst] in Fst. subst r.
  destruct (truthy a) eqn:Ta; [|reflexivity].
  destruct (tinyerp_ret_is_first_contact _ _ _ _ _ T Ta)
    as (n & json_data & Rn & V & Fc).
  rewrite (Miss _ _ _ Rn V Fc) in Ta. discriminate.
Qed.

(** C7.  For a tax id whose warehouse query answers with [rows]:
    - if some row has a non-empty email, [get_client_email] returns the
      first such email, and the warehouse query is its only interaction;
    - if no row has one (no row at all included), it falls back to the ERP
      contact search, and returns the first contact's email when the
      accepted reply carries a non-empty one: the query comes first, the
      ERP request second;
    - if moreover no accepted contact-search reply carries a usable
      first-contact email, then for every payload with that tax id
      [process_webhook_payload] sends nothing and returns normally. *)
Theorem customer_lookup_warehouse_then_erp :
  forall w cpf h rows,
    query_client_email w cpf (calls is_email_query h) = BqRows rows ->
    (forall pre row post,
        rows = pre ++ row :: post ->
        forallb no_email pre = true ->
        truthy (row_email row) = true ->
        exists new,
          get_client_email w cpf h = (Ret (row_email row), new ++ h)
          /\ interactions new = [EvQuery (ClientEmailQuery cpf)])
    /\ (forallb no_email rows = true ->
        (forall json_data email,
            requests_get w (ContatosPesquisa (TINY_ERP_API_TOKEN w) cpf)
              (calls is_contatos h) = HttpOk json_data ->
            validate_json_payload json_data = Ret tt ->
            first_contact_email json_data = Some email ->
            truthy email = true ->
            exists new,
              get_client_email w cpf h = (Ret email, new ++ h)
              /\ interactions new
                 = [EvQuery (ClientEmailQuery cpf);
                    EvHttpGet (ContatosPesquisa (TINY_ERP_API_TOKEN w) cpf)])
        /\ ((forall n json_data email,
                requests_get w (ContatosPesquisa (TINY_ERP_API_TOKEN w) cpf) n
                = HttpOk json_data ->
                validate_json_payload json_data = Ret tt ->
                first_contact_email json_data = Some email ->
                truthy email = false) ->
            forall payload,
              payload_cpfCnpj payload = Some cpf ->
              exists new,
                process_webhook_payload w payload h = (Ret tt, new ++ h)
                /\ calls is_send new = 0%nat)).
Proof.
  intros w cpf h rows R. split; [|intros Miss; split].
  - intros pre row post -> F T.
    rewrite (get_client_email_from_warehouse _ _ _ _ _ R
               (first_email_hit _ _ _ F T)).
    give_new. split; reflexivity.
  - intros json_data email Rc V Fc T.
    destruct (get_client_email_falls_back _ _ _ _ R (first_email_miss _ Miss))
      as [_ Fb].
    cbv zeta in Fb.
    match type of Fb with
    | forall a h', get_client_email_from_tinyerp _ _ ?h1 = _ -> _ =>
        rewrite (Fb _ _ (tinyerp_returns_first_contact w cpf h1 json_data
                           email Rc V Fc T))
    end.
    give_new. split; reflexivity.
  - intros ErpMiss payload Hp.
    cut (emits_from no_send (process_webhook_payload w payload) h).
    { intros Em. destruct (run_of_emits _ _ _ _ Em) as (new & Rn & F).
      exists new. split; [exact Rn|].
      eapply calls_none; [exact F|].
      intros ev. unfold no_send. destruct (is_send ev); cbn; congruence. }
    set (early := neither is_send is_email_query).
    assert (Qe : quiet early) by (apply quiet_neither; reflexivity).
    assert (We : forall ev, early ev = true -> no_send ev = true)
      by (intros ev; apply neither_send_is_no_send).
    pose proof (reached_refl early h) as Rch.
    unfold payload_cpfCnpj, payload_dados in Hp.
    destruct payload as [| | | | | |p]; try discriminate.
    destruct (dict_get "dados" p) as [[| | | | | |dados]|] eqn:Ed;
      try discriminate.
    destruct (dict_get "cliente" dados) as [[| | | | | |cliente]|] eqn:Ec;
      try discriminate.
    unfold process_webhook_payload.
    apply emits_from_try; [|intros e h' _; destruct e; emits_auto].
    pure_step as has_dados Ea. cbn in Ea. unfold dict_has in Ea.
    rewrite Ed in Ea. injection Ea as <-. cbn [negb].
    pure_step as dados_id Ea.
    destruct (negb (truthy dados_id)); [emits_auto|].
    stage early as nfce_id h1 E1 R1; [exact We| |].
    { apply emits_from_try; [|intros; emits_auto; apply Qe].
      apply generate_nfce_emits; [exact Qe|reflexivity]. }
    pure_step as cliente_info Eci. cbn in Eci. rewrite Ed in Eci.
    cbn in Eci. rewrite Ec in Eci. injection Eci as <-.
    pure_step as nome En.
    pure_step as cpf' Ep. cbn in Ep. rewrite Hp in Ep. injection Ep as <-.
    stage early as u h2 E2 R2; [exact We|emits_auto; apply Qe|].
    destruct (is_none cpf); [emits_auto|].
    apply emits_from_bind.
    { apply get_client_email_emits;
        [exact quiet_no_send|reflexivity|reflexivity]. }
    intros email h3 E3.
    assert (Tf : truthy email = false).
    { eapply (get_client_email_unresolved w cpf h2 rows);
        [|apply first_email_miss; exact Miss|exact ErpMiss|exact E3].
      rewrite (reached_calls early is_email_query h h2 R2); [exact R|].
      intros ev. unfold early, neither.
      destruct (is_send ev), (is_email_query ev); cbn; congruence. }
    rewrite Tf. cbn [negb]. emits_auto.
Qed.

Lemma customer_lookup_warehouse_then_erp_witness :
  exists new,
    process_webhook_payload (world_erp_contact VNone) sample_payload []
    = (Ret tt, new ++ [])
    /\ calls is_send new = 0%nat.
Proof.
  apply (proj2 (proj2 (customer_lookup_warehouse_then_erp
                         (world_erp_contact VNone) (VStr "111") []
                         [{| row_email := VNone |}] eq_refl)
                  eq_refl)).
  - intros n json_data email [= <-] _ [= <-]. reflexivity.
  - reflexivity.
Defined.

(* ===================================================================== *)
(** * Fiscal-document failure is not fatal *)
(* ===================================================================== *)

Lemma quiet_without_document : quiet without_document.
Proof. split; reflexivity. Qed.

Lemma quiet_any_event : quiet any_event.
Proof. split; reflexivity. Qed.

(** Without a link, the aggregated payload has no [nota_fiscal_url]. *)
Lemma aggregate_without_link_omits_url w cpf dados_id email name h data h' :
  aggregate_email_data w cpf dados_id email VNone name h = (Ret data, h') ->
  omits_nota_fiscal_url data = true.
Proof.
  unfold aggregate_email_data, try_except.
  unfold bind at 1.
  destruct (get_purchase_details w dados_id h) as [[items|e] h1];
    [|run; discriminate].
  unfold bind at 1.
  destruct (get_daily_checkins w cpf h1) as [[c|e] h2]; [|run; discriminate].
  unfold bind at 1.
  destruct (get_quarter_spend w cpf h2) as [[q|e] h3]; [|run; discriminate].
  unfold bind at 1.
  destruct (get_lifetime_spend w cpf h3) as [[l|e] h4]; [|run; discriminate].
  unfold bind at 1. unfold lift at 1.
  match goal with
  | |- context [match ?r with Ret _ => _ | Raise _ => _ end] =>
      destruct r as [fields|e] eqn:L
  end; [|run; discriminate].
  cbn [is_none negb]. unfold ret. intros [= <- <-].
  unfold rbind in L.
  repeat match type of L with
         | match ?x with Ret _ => _ | Raise _ => _ end = _ =>
             destruct x; [|discriminate L]
         end.
  injection L as <-. reflexivity.
Qed.

(** The first thing [send_email] does with a payload is to send it. *)
Lemma send_email_sends w email_data h :
  exists new,
    snd (send_email w email_data 0 h) = new ++ h
    /\ In (EvSend (build_message (VStr TEST_EMAIL) email_data)) new.
Proof.
  rewrite send_email_unfold. unfold send_email_body. run.
  destruct (sg_client_send w _ _) as [status_code body|e]; run.
  - destruct (in_2xx status_code); run.
    + cbn [snd]. give_new. cbn. auto.
    + match goal with
      | |- context [send_email w email_data ?rc ?h1] =>
          destruct (send_email_emits w any_event quiet_any_event
                      email_data rc eq_refl h1) as (n & -> & _)
      end.
      exists (n ++ [EvSleep (inject_Z 60);
                    EvLog WARNING "Retrying to send email";
                    EvLog ERROR "Failed to send email on attempt";
                    EvSend (build_message (VStr TEST_EMAIL) email_data);
                    EvLog INFO "Sending email with data: "]).
      rewrite <- app_assoc. split; [reflexivity|].
      apply in_or_app. right. cbn. auto.
  - match goal with
    | |- context [send_email w email_data ?rc ?h1] =>
        destruct (send_email_emits w any_event quiet_any_event
                    email_data rc eq_refl h1) as (n & -> & _)
    end.
    exists (n ++ [EvSleep (inject_Z 60);
                  EvLog WARNING "Retrying to send email";
                  EvSend (build_message (VStr TEST_EMAIL) email_data);
                  EvLog INFO "Sending email with data: "]).
    rewrite <- app_assoc. split; [reflexivity|].
    apply in_or_app. right. cbn. auto.
Qed.

(** C5 (as amended).  When [generate_nfce] ends with any exception, the
    invocation goes on with no document identifier: it returns normally,
    makes no link request, and every message it sends omits
    [nota_fiscal_url]; and when in addition the payload carries a tax id
    that is not [null], the customer lookup (started after the two log
    lines) resolves an email and the aggregation (called with no link)
    yields an EmailPayload, that payload omits [nota_fiscal_url] and is
    sent. *)
Theorem nfce_failure_is_not_fatal :
  forall w payload dados_id h e h1,
    payload_dados_id payload = Some dados_id ->
    truthy dados_id = true ->
    generate_nfce w dados_id h = (Raise e, h1) ->
    exists new,
      process_webhook_payload w payload h = (Ret tt, new ++ h)
      /\ calls is_obter_link new = 0%nat
      /\ (forall m, In (EvSend m) new ->
                    omits_nota_fiscal_url (dynamic_template_data m) = true)
      /\ (forall cpf email h2 email_data h3,
             payload_cpfCnpj payload = Some cpf ->
             is_none cpf = false ->
             get_client_email w cpf (after_failed_generation h1)
             = (Ret email, h2) ->
             truthy email = true ->
             aggregate_email_data w cpf dados_id email VNone
               (payload_cliente_nome payload) h2
             = (Ret email_data, h3) ->
             omits_nota_fiscal_url email_data = true
             /\ In (EvSend (build_message (VStr TEST_EMAIL) email_data)) new).
Proof.
  intros w payload dados_id h e h1 Hid Ht G.
  assert (Em : emits_from without_document (process_webhook_payload w payload) h).
  { pose proof quiet_without_document as Qw.
    unfold payload_dados_id, payload_dados in Hid.
    destruct payload as [| | | | | |p]; try discriminate.
    destruct (dict_get "dados" p) as [[| | | | | |dados]|] eqn:Ed;
      try discriminate.
    unfold process_webhook_payload.
    apply emits_from_try; [|intros e0 h' _; destruct e0; emits_auto].
    pure_step as has_dados Ea. cbn in Ea. unfold dict_has in Ea.
    rewrite Ed in Ea. injection Ea as <-. cbn [negb].
    pure_step as id Ea. cbn in Ea. rewrite Ed in Ea. cbn in Ea.
    rewrite Hid in Ea. injection Ea as <-. rewrite Ht. cbn [negb].
    apply emits_from_bind.
    { apply emits_from_try; [|intros; emits_auto].
      apply generate_nfce_emits; [exact Qw|reflexivity]. }
    intros nfce_id h1' E1. unfold try_except in E1. rewrite G in E1.
    cbn in E1. injection E1 as <- <-.
    pure_step as cliente_info Ec. pure_step as nome En. pure_step as cpf Ep.
    apply emits_from_bind; [emits_auto|]. intros u h2 _.
    destruct (is_none cpf); [emits_auto|].
    apply emits_from_bind.
    { apply get_client_email_emits; [exact Qw|reflexivity|reflexivity]. }
    intros email h3 _.
    destruct (negb (truthy email)); [emits_auto|].
    cbn [truthy].
    apply emits_from_bind; [emits_auto|]. intros url h4 E4.
    injection E4 as <- <-.
    apply emits_from_bind.
    { apply aggregate_email_data_emits; [exact Qw|reflexivity]. }
    intros email_data h5 E5.
    apply send_email_emits; [exact Qw|].
    cbn. exact (aggregate_without_link_omits_url _ _ _ _ _ _ _ _ E5). }
  destruct (run_of_emits _ _ _ _ Em) as (new & R & F).
  exists new. split; [exact R|]. split; [|split].
  - eapply calls_none; [exact F|].
    intros [| |[]| |]; cbn; congruence.
  - intros m Hin. rewrite forallb_forall in F. exact (F _ Hin).
  - intros cpf email h2 email_data h3 Hp Hn EL Te EA.
    split; [exact (aggregate_without_link_omits_url _ _ _ _ _ _ _ _ EA)|].
    (* the stages extend the history *)
    destruct (emits_from_extends _ _ _ _ _
                (generate_nfce_emits w any_event quiet_any_event dados_id
                   (fun _ => eq_refl) h) G) as (n1 & -> & _).
    destruct (emits_from_extends _ _ _ _ _
                (get_client_email_emits w any_event quiet_any_event cpf
                   eq_refl (fun _ => eq_refl) _) EL) as (n2 & -> & _).
    destruct (emits_from_extends _ _ _ _ _
                (aggregate_email_data_emits w any_event quiet_any_event
                   cpf dados_id email VNone (payload_cliente_nome _)
                   (fun _ => eq_refl) _) EA) as (n3 & -> & _).
    destruct (send_email_sends w email_data
                (n3 ++ n2 ++ after_failed_generation (n1 ++ h)))
      as (n4 & S4 & I4).
    (* the run, stage by stage *)
    assert (Tail : exists tail,
               snd (process_webhook_payload w payload h)
               = tail ++ n4 ++ n3 ++ n2 ++ after_failed_generation (n1 ++ h)).
    { unfold payload_cliente_nome, payload_cpfCnpj, payload_dados_id,
        payload_dados in *.
      destruct payload as [| | | | | |p]; try discriminate.
      destruct (dict_get "dados" p) as [[| | | | | |dados]|] eqn:Ed;
        try discriminate.
      destruct (dict_get "cliente" dados) as [[| | | | | |cliente]|] eqn:Ec;
        try discriminate.
      unfold process_webhook_payload, after_failed_generation in *.
      repeat (run; unfold dict_has;
              rewrite ?Ed, ?Hid, ?Ht, ?G, ?Ec, ?Hp, ?Hn, ?EL, ?Te, ?EA).
      destruct (send_email w email_data 0 _) as [[[]|e0] h4] eqn:Se;
        cbn [snd] in *; subst h4.
      - exists []. reflexivity.
      - destruct e0; run; eexists [_]; reflexivity. }
    destruct Tail as (tail & Tl). rewrite R in Tl. cbn [snd] in Tl.
    unfold after_failed_generation in Tl.
    assert (Eq : new ++ h
                 = (tail ++ n4 ++ n3 ++ n2
                    ++ [EvLog INFO "Cliente Nome, CPF/CNPJ";
                        EvLog ERROR "Error during NFCe generation: "]
                    ++ n1) ++ h).
    { rewrite Tl. rewrite <- !app_assoc. reflexivity. }
    apply app_inv_tail in Eq. rewrite Eq.
    apply in_or_app. right. apply in_or_app. left. exact I4.
Qed.

Lemma nfce_failure_is_not_fatal_witness :
  exists new,
    process_webhook_payload world_generation_refused sample_payload []
    = (Ret tt, new ++ [])
    /\ calls is_obter_link new = 0%nat
    /\ exists email_data,
        omits_nota_fiscal_url email_data = true
        /\ In (EvSend (build_message (VStr TEST_EMAIL) email_data)) new.
Proof.
  eassert (G : generate_nfce world_generation_refused (VStr "123") []
               = (Raise _, _)) by (vm_compute; reflexivity).
  destruct (nfce_failure_is_not_fatal world_generation_refused sample_payload
              (VStr "123") [] _ _ eq_refl eq_refl G)
    as (new & R & L & _ & D).
  exists new. split; [exact R|]. split; [exact L|].
  eassert (EL : get_client_email world_generation_refused (VStr "111")
                  (after_failed_generation _) = (Ret _, _))
    by (vm_compute; reflexivity).
  eassert (EA : aggregate_email_data world_generation_refused (VStr "111")
                  (VStr "123") _ VNone (payload_cliente_nome sample_payload) _
                = (Ret _, _))
    by (vm_compute; reflexivity).
  eexists. exact (D (VStr "111") _ _ _ _ eq_refl eq_refl EL eq_refl EA).
Defined.

(** C5 as stated fails: here document generation is refused (status '2'),
    the warehouse has no row for the customer and the ERP no contact, so no
    email resolves and the run ends without a single send. *)
Lemma generation_failure_can_leave_the_email_unsent :
  (exists h1,
      generate_nfce world_refused_unknown_customer (VStr "123") []
      = (Raise (ValidationError "Invalid query parameter."), h1))
  /\ exists new,
      process_webhook_payload world_refused_unknown_customer sample_payload []
      = (Ret tt, new)
      /\ calls is_send new = 0%nat.
Proof.
  split.
  - eexists. vm_compute. reflexivity.
  - eexists. split; [vm_compute; reflexivity|reflexivity].
Qed.

(* ===================================================================== *)
(** * Further properties: the API gateway *)
(* ===================================================================== *)

Lemma calls_after_attempt url s e lv msg h :
  calls (same_endpoint url)
    (EvSleep s :: api_error_line e :: EvHttpGet url :: EvLog lv msg :: h)
  = S (calls (same_endpoint url) h).
Proof. destruct url; reflexivity. Qed.

(** One attempt on a reply that calls for a retry. *)
Lemma attempt_on_retryable_reply w url h :
  reply_retryable (requests_get w url (calls (same_endpoint url) h)) = true ->
  exists e,
    make_api_call_attempt w url h
    = (Raise e,
       api_error_line e :: EvHttpGet url
         :: EvLog INFO "Making API call to: " :: h)
    /\ api_retry_on e = true.
Proof.
  intros H.
  destruct (requests_get w url _) as [json_data|e] eqn:R; cbn in H.
  - rewrite (attempt_on_body _ _ _ _ R).
    destruct (validate_json_payload json_data) as [[]|e]; [discriminate|].
    eauto.
  - rewrite (attempt_on_transport_error _ _ _ _ R). eauto.
Qed.

(** The loop moves on after a retryable failure. *)
Lemma api_loop_retries w url n k h e h1 :
  make_api_call_attempt w url h = (Raise e, h1) ->
  api_retry_on e = true ->
  Tenacity.attempt api_wait api_retry_on None (make_api_call_attempt w url)
    (S n) k h
  = Tenacity.attempt api_wait api_retry_on None (make_api_call_attempt w url)
      n (S k) (EvSleep (api_wait k) :: h1).
Proof. intros A R. cbn. rewrite A, R. reflexivity. Qed.

Lemma api_loop_gives_up w url k h e h1 :
  make_api_call_attempt w url h = (Raise e, h1) ->
  api_retry_on e = true ->
  Tenacity.attempt api_wait api_retry_on None (make_api_call_attempt w url)
    0 k h
  = (Raise (RetryError e), h1).
Proof. intros A R. cbn. rewrite A, R. reflexivity. Qed.

Lemma api_loop_returns w url n k h a h1 :
  make_api_call_attempt w url h = (Ret a, h1) ->
  Tenacity.attempt api_wait api_retry_on None (make_api_call_attempt w url)
    n k h
  = (Ret a, h1).
Proof. intros A. destruct n; cbn; rewrite A; reflexivity. Qed.

(** Takes the hypothesis on the reply at offset [j] from [h] to the history
    the loop has reached. *)
Ltac retry_step H h j :=
  match goal with
  | |- context [Tenacity.attempt _ _ _ (make_api_call_attempt ?w ?url) _ _ ?hc] =>
      let e := fresh "e" in
      let A := fresh "A" in
      let R := fresh "R" in
      destruct (attempt_on_retryable_reply w url hc) as (e & A & R);
      [ rewrite ?calls_after_attempt;
        match goal with
        | |- reply_retryable (requests_get _ _ ?X) = true =>
            replace X with (calls (same_endpoint url) h + j)%nat by lia;
            apply H; lia
        end
      | first [ rewrite (api_loop_retries _ _ _ _ _ _ _ A R)
              | rewrite (api_loop_gives_up _ _ _ _ _ _ A R) ] ]
  end.

(** What an attempt raises is the exception of the reply it got. *)
Lemma attempt_raises_reply_exception w url h e h1 :
  make_api_call_attempt w url h = (Raise e, h1) ->
  reply_exception (requests_get w url (calls (same_endpoint url) h)) = Some e.
Proof.
  intros A.
  destruct (requests_get w url (calls (same_endpoint url) h))
    as [json_data|e0] eqn:R.
  - rewrite (attempt_on_body _ _ _ _ R) in A. cbn [reply_exception].
    destruct (validate_json_payload json_data) as [[]|e1];
      [discriminate|]. congruence.
  - rewrite (attempt_on_transport_error _ _ _ _ R) in A. cbn. congruence.
Qed.

(** X1.  When each of the four replies to a URL calls for a retry (a
    [RequestException] from the transport or a body classified as
    [RetryableError], in any mix), [make_api_call] makes exactly 4 requests
    with three sleeps of 30 in between and then raises [RetryError] around
    the last exception: the one of the fourth reply. *)
Theorem make_api_call_exhausts_on_retryable_replies :
  forall w url h,
    (forall n, (n < 4)%nat ->
               reply_retryable
                 (requests_get w url (calls (same_endpoint url) h + n))
               = true) ->
    exists new e,
      make_api_call w url h = (Raise (RetryError e), new ++ h)
      /\ reply_exception
           (requests_get w url (calls (same_endpoint url) h + 3))
         = Some e
      /\ api_retry_on e = true
      /\ interactions new
         = [EvHttpGet url; EvSleep (30 # 1); EvHttpGet url; EvSleep (30 # 1);
            EvHttpGet url; EvSleep (30 # 1); EvHttpGet url].
Proof.
  intros w url h H. unfold make_api_call, Tenacity.retry. cbn [Nat.sub].
  retry_step H h 0%nat. retry_step H h 1%nat. retry_step H h 2%nat.
  retry_step H h 3%nat.
  eexists _, e2. split; [|split; [|split; [exact R2|]]].
  - match goal with
    | |- (_, ?l) = (_, _ ++ ?h) =>
        let p := prefix_of l h in instantiate (1 := p)
    end.
    reflexivity.
  - apply attempt_raises_reply_exception in A2.
    rewrite ?calls_after_attempt in A2.
    replace (calls (same_endpoint url) h + 3)%nat
      with (S (S (S (calls (same_endpoint url) h)))) by lia.
    exact A2.
  - unfold api_error_line. destruct url; reflexivity.
Qed.

Lemma make_api_call_exhausts_on_retryable_replies_witness :
  exists new,
    make_api_call world_timeouts_then_blocked sample_url []
    = (Raise (RetryError (RetryableError (VStr "API bloqueada"))), new ++ [])
    /\ interactions new
       = [EvHttpGet sample_url; EvSleep (30 # 1); EvHttpGet sample_url;
          EvSleep (30 # 1); EvHttpGet sample_url; EvSleep (30 # 1);
          EvHttpGet sample_url].
Proof.
  destruct (make_api_call_exhausts_on_retryable_replies
              world_timeouts_then_blocked sample_url [])
    as (new & e & R & T & _ & I).
  { intros n Hn. destruct n as [|[|[|[|n]]]]; [reflexivity..|lia]. }
  vm_compute in T. injection T as <-.
  exists new. split; [exact R|exact I].
Defined.

(** X2.  [make_api_call] recovers from transient failures: when the first
    [n < 4] replies call for a retry and the next one is a body the
    validator accepts, that body is returned after [n + 1] requests and [n]
    sleeps of 30. *)
Theorem make_api_call_recovers :
  forall w url h n json_data,
    (n < 4)%nat ->
    (forall j, (j < n)%nat ->
               reply_retryable
                 (requests_get w url (calls (same_endpoint url) h + j))
               = true) ->
    requests_get w url (calls (same_endpoint url) h + n) = HttpOk json_data ->
    validate_json_payload json_data = Ret tt ->
    exists new,
      make_api_call w url h = (Ret json_data, new ++ h)
      /\ calls is_http new = S n
      /\ sleeps new = repeat (30 # 1)%Q n.
Proof.
  intros w url h n json_data Hn H Rn V.
  unfold make_api_call, Tenacity.retry. cbn [Nat.sub].
  assert (Last : forall m k hc,
             calls (same_endpoint url) hc
             = (calls (same_endpoint url) h + n)%nat ->
             Tenacity.attempt api_wait api_retry_on None
               (make_api_call_attempt w url) m k hc
             = (Ret json_data,
                EvHttpGet url :: EvLog INFO "Making API call to: " :: hc)).
  { intros m k hc C. apply api_loop_returns.
    rewrite (attempt_on_body w url hc json_data), V; [reflexivity|].
    rewrite C. exact Rn. }
  destruct n as [|[|[|[|n]]]]; [| | | |lia].
  - rewrite Last by (rewrite Nat.add_0_r; reflexivity).
    give_new. destruct url; repeat split; reflexivity.
  - retry_step H h 0%nat.
    rewrite Last by (rewrite calls_after_attempt; lia).
    give_new. unfold api_error_line. destruct url; repeat split; reflexivity.
  - retry_step H h 0%nat. retry_step H h 1%nat.
    rewrite Last by (rewrite !calls_after_attempt; lia).
    give_new. unfold api_error_line. destruct url; repeat split; reflexivity.
  - retry_step H h 0%nat. retry_step H h 1%nat. retry_step H h 2%nat.
    rewrite Last by (rewrite !calls_after_attempt; lia).
    give_new. unfold api_error_line. destruct url; repeat split; reflexivity.
Qed.

Lemma make_api_call_recovers_witness :
  exists new,
    make_api_call world_recovering sample_url []
    = (Ret body_no_contacts, new ++ [])
    /\ calls is_http new = 3%nat
    /\ sleeps new = [(30 # 1)%Q; (30 # 1)%Q].
Proof.
  apply (make_api_call_recovers world_recovering sample_url [] 2
           body_no_contacts); try reflexivity.
  - lia.
  - intros j Hj. destruct j as [|[|j]]; [reflexivity..|lia].
Defined.

(** X3.  A transport exception that is neither a [RequestException] nor a
    [RetryableError] ends [make_api_call] at once: it is logged and raised
    as it is, after a single request and without a sleep. *)
Theorem make_api_call_reraises_other_transport_errors :
  forall w url h e,
    requests_get w url (calls (same_endpoint url) h) = HttpRaise e ->
    api_retry_on e = false ->
    make_api_call w url h
    = (Raise e,
       [api_error_line e; EvHttpGet url; EvLog INFO "Making API call to: "]
       ++ h).
Proof.
  intros w url h e R N. apply make_api_call_reraises; [|exact N].
  exact (attempt_on_transport_error _ _ _ _ R).
Qed.

Lemma make_api_call_reraises_other_transport_errors_witness :
  make_api_call
    (sample_world (fun _ => HttpRaise (OtherError "ValueError" "bad json"))
       [] [] 500)
    sample_url []
  = (Raise (OtherError "ValueError" "bad json"),
     [api_error_line (OtherError "ValueError" "bad json");
      EvHttpGet sample_url; EvLog INFO "Making API call to: "] ++ []).
Proof.
  apply (make_api_call_reraises_other_transport_errors
           (sample_world
              (fun _ => HttpRaise (OtherError "ValueError" "bad json"))
              [] [] 500)
           sample_url []); reflexivity.
Defined.

Lemma qmax_bounds a b : (a <= Tenacity.qmax a b)%Q /\ (b <= Tenacity.qmax a b)%Q.
Proof.
  unfold Tenacity.qmax. destruct (Qle_bool b a) eqn:E.
  - split; [apply Qle_refl|apply Qle_bool_iff; exact E].
  - split; [|apply Qle_refl].
    apply Qlt_le_weak, Qnot_le_lt. intros L.
    apply Qle_bool_iff in L. congruence.
Qed.

Lemma qmin_le_r a b : (Tenacity.qmin a b <= b)%Q.
Proof.
  unfold Tenacity.qmin. destruct (Qle_bool a b) eqn:E.
  - apply Qle_bool_iff; exact E.
  - apply Qle_refl.
Qed.

Lemma qmax_lub a b c :
  (a <= c)%Q -> (b <= c)%Q -> (Tenacity.qmax a b <= c)%Q.
Proof. intros A B. unfold Tenacity.qmax. destruct (Qle_bool b a); assumption. Qed.

(** The clamp of [wait_exponential]: between [min] and [max]. *)
Lemma wait_exponential_bounds multiplier wmin wmax n :
  (0 <= wmin)%Q -> (wmin <= wmax)%Q ->
  (wmin <= Tenacity.wait_exponential multiplier wmin wmax n)%Q
  /\ (Tenacity.wait_exponential multiplier wmin wmax n <= wmax)%Q.
Proof.
  intros P L. unfold Tenacity.wait_exponential. cbv zeta. split.
  - eapply Qle_trans; [apply (proj2 (qmax_bounds (inject_Z 0) wmin))|].
    apply qmax_bounds.
  - apply qmax_lub; [|apply qmin_le_r].
    apply qmax_lub; [|exact L].
    eapply Qle_trans; [exact P|exact L].
Qed.

(** X4.  Whatever the attempt number, a sleep of the [make_api_call] retry
    lasts between 30 and 187.5 time-units and a sleep of the
    [get_purchase_details] retry between 30 and 90. *)
Theorem retry_sleeps_are_bounded :
  forall attempt_number,
    ((30 # 1) <= api_wait attempt_number)%Q
    /\ (api_wait attempt_number <= (375 # 2))%Q
    /\ ((30 # 1) <= items_wait attempt_number)%Q
    /\ (items_wait attempt_number <= (90 # 1))%Q.
Proof.
  intros n. unfold api_wait, items_wait.
  destruct (wait_exponential_bounds (5 # 2) (30 # 1) (375 # 2) n)
    as [A1 A2]; [discriminate|discriminate|].
  destruct (wait_exponential_bounds (30 # 1) (30 # 1) (90 # 1) n)
    as [B1 B2]; [discriminate|discriminate|].
  auto.
Qed.

(** X5.  A body with embedded status '1' whose [codigo_erro] is not the
    string '1' (absent included) and whose [erros] is readable (absent,
    falsy, or a list whose first entry is an object with an [erro] key) is
    classified as [RetryableError], which the retry predicate accepts; the
    exception carries [erros[0].erro] in the last case and the text
    "Unknown error" when [erros] is absent or falsy. *)
Theorem status_1_other_code_is_retryable :
  forall json_data erro_message,
    embedded "status_processamento" json_data = Some (VStr "1") ->
    error_code_is_1 json_data = false ->
    erro_detail json_data = Some erro_message ->
    validate_json_payload json_data = Raise (RetryableError erro_message)
    /\ reply_retryable (HttpOk json_data) = true
    /\ (embedded "erros" json_data = None ->
        erro_message = VStr "Unknown error")
    /\ (forall erros,
           embedded "erros" json_data = Some erros ->
           if truthy erros
           then exists erro rest,
                  erros = VList (VDict erro :: rest)
                  /\ dict_get "erro" erro = Some erro_message
           else erro_message = VStr "Unknown error").
Proof.
  intros json_data msg St Code D.
  pose proof (validate_status_1 _ _ St D) as V. rewrite Code in V.
  split; [exact V|]. split; [|split].
  - cbn. rewrite V. reflexivity.
  - intros E. unfold erro_detail in D. rewrite E in D. congruence.
  - intros erros E. unfold erro_detail in D. rewrite E in D.
    destruct (truthy erros); [|congruence].
    destruct erros as [| | | | |[|[| | | | | |erro] rest]|];
      try discriminate D.
    eauto.
Qed.

Lemma status_1_other_code_is_retryable_witness :
  validate_json_payload body_retryable
  = Raise (RetryableError (VStr "API bloqueada"))
  /\ reply_retryable (HttpOk body_retryable) = true.
Proof.
  destruct (status_1_other_code_is_retryable
              body_retryable (VStr "API bloqueada") eq_refl eq_refl eq_refl)
    as (V & R & _).
  split; assumption.
Defined.
(* ===================================================================== *)
(** * Further properties: the fiscal-document calls *)
(* ===================================================================== *)

(** A body the validator accepts is an object whose envelope, if present,
    is an object. *)
Lemma accepted_body_envelope json_data :
  validate_json_payload json_data = Ret tt ->
  envelope_ok json_data = true.
Proof.
  intros V. unfold envelope_ok.
  destruct json_data as [| | | | | |body]; try discriminate V.
  unfold validate_json_payload in V. cbn in V.
  destruct (dict_get "retorno" body) as [[| | | | | |retorno]|];
    try discriminate V; reflexivity.
Qed.

Lemma generate_nfce_returns_nested_id_witness :
  fst (generate_nfce (world_answering body_nfce_55) (VStr "123") [])
  = Ret (VStr "55").
Proof.
  apply (generate_nfce_returns_nested_id (world_answering body_nfce_55)
           (VStr "123") [] body_nfce_55 (VStr "55")); reflexivity.
Defined.

(** X8.  When the accepted generate-document response has no
    [retorno.registros], or its [registros] object has no [registro],
    [generate_nfce] raises [ValidationError] after its single request. *)
Theorem generate_nfce_rejects_missing_containers :
  forall w dados_id h json_data,
    requests_get w (GerarNotaFiscalPedido (TINY_ERP_API_TOKEN w) dados_id)
      (calls is_gerar h) = HttpOk json_data ->
    validate_json_payload json_data = Ret tt ->
    (embedded "registros" json_data = None
     \/ exists registros,
         embedded "registros" json_data = Some (VDict registros)
         /\ dict_get "registro" registros = None) ->
    exists new,
      generate_nfce w dados_id h
      = (Raise (ValidationError
                  "NFCe generation response is missing expected fields."),
         new ++ h)
      /\ calls is_http new = 1%nat.
Proof.
  intros w dados_id h json_data R V M. unfold generate_nfce.
  unfold bind at 1. cbn [log emit]. unfold bind at 1.
  rewrite (make_api_call_accepts w _ _ json_data); [|exact R|exact V].
  pose proof (accepted_body_envelope _ V) as Env.
  unfold envelope_ok in Env. unfold embedded, retorno_of in M.
  destruct json_data as [| | | | | |body]; try discriminate Env.
  destruct (dict_get "retorno" body) as [[| | | | | |retorno]|] eqn:E1;
    try discriminate Env.
  - destruct M as [M|(registros & M & M')].
    + repeat (run; unfold dict_has; rewrite ?E1, ?M).
      give_new. split; reflexivity.
    + repeat (run; unfold dict_has; rewrite ?E1, ?M, ?M').
      give_new. split; reflexivity.
  - repeat (run; unfold dict_has; rewrite ?E1).
    give_new. split; reflexivity.
Qed.

Lemma generate_nfce_rejects_missing_containers_witness :
  exists new,
    generate_nfce (world_answering body_no_contacts) (VStr "123") []
    = (Raise (ValidationError
                "NFCe generation response is missing expected fields."),
       new ++ [])
    /\ calls is_http new = 1%nat.
Proof.
  apply (generate_nfce_rejects_missing_containers
           (world_answering body_no_contacts) (VStr "123") []
           body_no_contacts); try reflexivity.
  left. reflexivity.
Defined.

(** X6.  On an accepted link response, [get_nota_fiscal_link] returns
    [retorno.link_nfe] when the key is there, and otherwise logs an error
    and raises [ValidationError]; either way after a single request. *)
Theorem get_nota_fiscal_link_returns_or_rejects :
  forall w idNotafiscal h json_data,
    requests_get w (NotaFiscalObterLink (TINY_ERP_API_TOKEN w) idNotafiscal)
      (calls is_obter_link h) = HttpOk json_data ->
    validate_json_payload json_data = Ret tt ->
    exists new,
      calls is_http new = 1%nat
      /\ match nested_link_nfe json_data with
         | Some link =>
             get_nota_fiscal_link w idNotafiscal h = (Ret link, new ++ h)
         | None =>
             get_nota_fiscal_link w idNotafiscal h
             = (Raise (ValidationError
                         "Nota Fiscal link response is missing expected fields."),
                new ++ h)
             /\ hd_error new
                = Some (EvLog ERROR
                          "Nota Fiscal link response is missing expected fields.")
         end.
Proof.
  intros w id h json_data R V.
  pose proof (accepted_body_envelope _ V) as Env.
  unfold envelope_ok in Env. unfold nested_link_nfe, embedded, retorno_of.
  assert (Call : forall k : value -> M value,
             bind (make_api_call w
                     (NotaFiscalObterLink (TINY_ERP_API_TOKEN w) id)) k
               (EvLog INFO "Fetching Nota Fiscal link for idNotafiscal: " :: h)
             = k json_data
                 (EvHttpGet (NotaFiscalObterLink (TINY_ERP_API_TOKEN w) id)
                  :: EvLog INFO "Making API call to: "
                  :: EvLog INFO "Fetching Nota Fiscal link for idNotafiscal: "
                  :: h)).
  { intros k. unfold bind.
    rewrite (make_api_call_accepts w _ _ json_data); [reflexivity|exact R|exact V]. }
  destruct json_data as [| | | | | |body]; try discriminate Env.
  destruct (dict_get "retorno" body) as [[| | | | | |retorno]|] eqn:E1;
    try discriminate Env.
  - destruct (dict_get "link_nfe" retorno) as [link|] eqn:E2.
    + unfold get_nota_fiscal_link. unfold bind at 1. cbn [log emit].
      rewrite Call.
      repeat (run; unfold dict_has; rewrite ?E1, ?E2).
      eexists [_; _; _; _]. split; cycle 1; reflexivity.
    + unfold get_nota_fiscal_link. unfold bind at 1. cbn [log emit].
      rewrite Call.
      repeat (run; unfold dict_has; rewrite ?E1, ?E2).
      eexists [_; _; _; _].
      split; cycle 1; [split; reflexivity|reflexivity].
  - unfold get_nota_fiscal_link. unfold bind at 1. cbn [log emit].
    rewrite Call.
    repeat (run; unfold dict_has; rewrite ?E1).
    eexists [_; _; _; _].
    split; cycle 1; [split; reflexivity|reflexivity].
Qed.

Lemma get_nota_fiscal_link_returns_or_rejects_witness :
  exists new,
    calls is_http new = 1%nat
    /\ get_nota_fiscal_link (world_answering (body_link (VStr "http://x/55")))
         (VStr "55") []
       = (Ret (VStr "http://x/55"), new ++ []).
Proof.
  apply (get_nota_fiscal_link_returns_or_rejects
           (world_answering (body_link (VStr "http://x/55")))
           (VStr "55") [] (body_link (VStr "http://x/55")));
    reflexivity.
Defined.

(* ===================================================================== *)
(** * Further properties: customer lookup *)
(* ===================================================================== *)

(** X9.  A warehouse error is not a miss: when the email query raises,
    [get_client_email] writes an error line for it (the BadRequest line
    for a [BadRequest], the general one otherwise) and raises the same
    exception, and the ERP is not consulted: the query is the only
    interaction. *)
Theorem get_client_email_propagates_warehouse_errors :
  forall w cpf h e,
    query_client_email w cpf (calls is_email_query h) = BqRaise e ->
    exists new,
      get_client_email w cpf h = (Raise e, new ++ h)
      /\ new
         = [EvLog ERROR
              (if is_bad_request e
               then "BigQuery BadRequest Error while fetching email for client"
               else "Error fetching email for client");
            EvQuery (ClientEmailQuery cpf);
            EvLog INFO "Fetching email for client with CPF/CNPJ: "]
      /\ interactions new = [EvQuery (ClientEmailQuery cpf)].
Proof.
  intros w cpf h e R. unfold get_client_email. run.
  rewrite calls_cons. cbn [is_email_query]. rewrite R.
  destruct (is_bad_request e); run; give_new; repeat split; reflexivity.
Qed.

Lemma get_client_email_propagates_warehouse_errors_witness :
  exists new,
    get_client_email
      {| TINY_ERP_API_TOKEN := "token";
         requests_get := fun _ _ => HttpOk body_no_contacts;
         query_client_email := fun _ _ => BqRaise (BadRequest "syntax");
         query_purchase_details := fun _ _ => BqRows [];
         query_daily_checkins := fun _ _ => BqRows [];
         query_quarter_spend := fun _ _ => BqRows [];
         query_lifetime_spend := fun _ _ => BqRows [];
         lifetime_job_succeeded := fun _ _ => true;
         sg_client_send := fun _ _ => SgResponse 202 EmptyString |}
      (VStr "111") []
    = (Raise (BadRequest "syntax"), new ++ [])
    /\ new
       = [EvLog ERROR
            "BigQuery BadRequest Error while fetching email for client";
          EvQuery (ClientEmailQuery (VStr "111"));
          EvLog INFO "Fetching email for client with CPF/CNPJ: "]
    /\ interactions new = [EvQuery (ClientEmailQuery (VStr "111"))].
Proof.
  apply get_client_email_propagates_warehouse_errors. reflexivity.
Defined.
(* ===================================================================== *)
(** * Further properties: the analytics aggregator *)
(* ===================================================================== *)

Lemma dict_get_set_other k k' v d :
  String.eqb k k' = false ->
  dict_get k (dict_set k' v d) = dict_get k d.
Proof.
  intros N. induction d as [|[k0 v0] d IH]; cbn.
  - rewrite N. reflexivity.
  - destruct (String.eqb k' k0) eqn:E; cbn.
    + apply String.eqb_eq in E. subst k0. rewrite N. reflexivity.
    + destruct (String.eqb k k0); auto.
Qed.

(** After [update], the four header fields are those of the row. *)
Lemma update_summary_header d row :
  dict_get "total_discount" (update_summary d row)
  = Some (row_total_discount row)
  /\ dict_get "total_paid" (update_summary d row) = Some (row_total_paid row)
  /\ dict_get "payment_method" (update_summary d row)
     = Some (row_payment_method row)
  /\ dict_get "sub_total" (update_summary d row) = Some (row_sub_total row).
Proof.
  unfold update_summary. repeat split.
  - rewrite !dict_get_set_other by reflexivity. apply dict_get_set_same.
  - rewrite !dict_get_set_other by reflexivity. apply dict_get_set_same.
  - rewrite !dict_get_set_other by reflexivity. apply dict_get_set_same.
  - apply dict_get_set_same.
Qed.

(** The summary built from a non-empty answer: the items in row order and
    the header of the last row. *)
Lemma summary_of_rows rows last :
  let fields :=
    dict_set "items" (VList (map item_detail (rows ++ [last])))
      (fold_left update_summary (rows ++ [last]) []) in
  dict_get "items" fields = Some (VList (map item_detail (rows ++ [last])))
  /\ dict_get "total_discount" fields = Some (row_total_discount last)
  /\ dict_get "total_paid" fields = Some (row_total_paid last)
  /\ dict_get "payment_method" fields = Some (row_payment_method last)
  /\ dict_get "sub_total" fields = Some (row_sub_total last).
Proof.
  cbv zeta. rewrite fold_left_app. cbn [fold_left].
  destruct (update_summary_header (fold_left update_summary rows []) last)
    as (A & B & C & D).
  split; [apply dict_get_set_same|].
  rewrite !dict_get_set_other by reflexivity. auto.
Qed.

Lemma items_attempt_on_rows w dados_id h row rows :
  query_purchase_details w dados_id (calls is_items_query h)
  = BqRows (row :: rows) ->
  get_purchase_details_attempt w dados_id h
  = (Ret (VDict (dict_set "items" (VList (map item_detail (row :: rows)))
                   (fold_left update_summary (row :: rows) []))),
     [EvLog INFO "Purchase summary for dados_id";
      EvLog INFO "Items details: ";
      EvQuery (PurchaseDetailsQuery dados_id);
      EvLog INFO "Fetching purchase details for dados_id: "] ++ h).
Proof.
  intros R. unfold get_purchase_details_attempt. run.
  rewrite calls_cons. cbn [is_items_query]. rewrite R. reflexivity.
Qed.

Lemma sleeps_app a b : sleeps (a ++ b) = sleeps b ++ sleeps a.
Proof. unfold sleeps. rewrite rev_app_distr, flat_map_app. reflexivity. Qed.

(** One attempt of the items query that cannot deliver. *)
Lemma items_attempt_unavailable w dados_id h :
  items_unavailable
    (query_purchase_details w dados_id (calls is_items_query h)) = true ->
  exists e new,
    get_purchase_details_attempt w dados_id h = (Raise e, new ++ h)
    /\ calls is_items_query new = 1%nat
    /\ sleeps new = [].
Proof.
  intros U.
  destruct (query_purchase_details w dados_id (calls is_items_query h))
    as [[|row rows]|e] eqn:Q; try discriminate U.
  - rewrite (items_attempt_on_no_rows _ _ _ Q).
    eexists. give_new. repeat split; reflexivity.
  - unfold get_purchase_details_attempt. run.
    rewrite calls_cons. cbn [is_items_query]. rewrite Q.
    destruct (is_bad_request e); run;
      (eexists; give_new; repeat split; reflexivity).
Qed.

(** X10.  Whatever [get_purchase_details] returns is the summary of a
    non-empty answer of the items query: [items] lists the rows' details in
    row order, and the discount, total paid, payment method and subtotal
    are those of the last row. *)
Theorem purchase_summary_comes_from_the_rows :
  forall w dados_id h summary h1,
    get_purchase_details w dados_id h = (Ret summary, h1) ->
    exists n rows last fields,
      query_purchase_details w dados_id n = BqRows (rows ++ [last])
      /\ summary = VDict fields
      /\ dict_get "items" fields
         = Some (VList (map item_detail (rows ++ [last])))
      /\ dict_get "total_discount" fields = Some (row_total_discount last)
      /\ dict_get "total_paid" fields = Some (row_total_paid last)
      /\ dict_get "payment_method" fields = Some (row_payment_method last)
      /\ dict_get "sub_total" fields = Some (row_sub_total last).
Proof.
  intros w dados_id h summary h1 R.
  unfold get_purchase_details, Tenacity.retry in R.
  apply attempt_ret_inv in R as [h0 R].
  destruct (query_purchase_details w dados_id (calls is_items_query h0))
    as [[|row rows]|e] eqn:Q.
  - rewrite (items_attempt_on_no_rows _ _ _ Q) in R. discriminate.
  - rewrite (items_attempt_on_rows _ _ _ _ _ Q) in R.
    assert (S : summary
                = VDict (dict_set "items"
                           (VList (map item_detail (row :: rows)))
                           (fold_left update_summary (row :: rows) [])))
      by congruence.
    destruct (@exists_last _ (row :: rows) ltac:(discriminate))
      as (pre & last & E).
    rewrite E in S, Q.
    exists (calls is_items_query h0), pre, last. eexists.
    split; [exact Q|]. split; [exact S|].
    apply summary_of_rows.
  - destruct (items_attempt_unavailable w dados_id h0) as (e' & n1 & A & _).
    { rewrite Q. reflexivity. }
    rewrite A in R. discriminate.
Qed.

Lemma purchase_summary_comes_from_the_rows_witness :
  exists n rows last fields,
    query_purchase_details world_with_items (VStr "123") n
    = BqRows (rows ++ [last])
    /\ dict_get "items" fields
       = Some (VList (map item_detail (rows ++ [last])))
    /\ dict_get "sub_total" fields = Some (row_sub_total last).
Proof.
  eassert (R : get_purchase_details world_with_items (VStr "123") []
               = (Ret _, _)) by (vm_compute; reflexivity).
  destruct (purchase_summary_comes_from_the_rows _ _ _ _ _ R)
    as (n & rows & last & fields & Q & _ & I & _ & _ & _ & S).
  exists n, rows, last, fields. auto.
Defined.

Lemma items_loop_recovers w dados_id row rows :
  forall n m k h,
    (n <= m)%nat ->
    (forall j, (j < n)%nat ->
               items_unavailable
                 (query_purchase_details w dados_id
                    (calls is_items_query h + j)) = true) ->
    query_purchase_details w dados_id (calls is_items_query h + n)
    = BqRows (row :: rows) ->
    exists new,
      Tenacity.attempt items_wait Tenacity.any_exception (Some INFO)
        (get_purchase_details_attempt w dados_id) m k h
      = (Ret (VDict (dict_set "items" (VList (map item_detail (row :: rows)))
                       (fold_left update_summary (row :: rows) []))),
         new ++ h)
      /\ calls is_items_query new = S n
      /\ length (sleeps new) = n.
Proof.
  induction n as [|n IH]; intros m k h Le U Q.
  - rewrite Nat.add_0_r in Q.
    pose proof (items_attempt_on_rows _ _ _ _ _ Q) as A.
    eexists. split; [|split].
    + destruct m; cbn [Tenacity.attempt]; rewrite A; reflexivity.
    + reflexivity.
    + reflexivity.
  - destruct m as [|m]; [lia|].
    destruct (items_attempt_unavailable w dados_id h) as (e & n1 & A & C1 & S1).
    { rewrite <- (Nat.add_0_r (calls is_items_query h)). apply U. lia. }
    cbn [Tenacity.attempt]. rewrite A. cbn [Tenacity.any_exception].
    set (h2 := EvSleep (items_wait k) :: EvLog INFO "Retrying" :: n1 ++ h).
    assert (C2 : calls is_items_query h2 = S (calls is_items_query h)).
    { unfold h2. rewrite !calls_cons. cbn [is_items_query].
      rewrite calls_app, C1. reflexivity. }
    destruct (IH m (S k) h2) as (n3 & R3 & C3 & S3).
    + lia.
    + intros j Hj. rewrite C2.
      replace (S (calls is_items_query h) + j)%nat
        with (calls is_items_query h + S j)%nat by lia.
      apply U. lia.
    + rewrite C2.
      replace (S (calls is_items_query h) + n)%nat
        with (calls is_items_query h + S n)%nat by lia.
      exact Q.
    + exists (n3 ++ EvSleep (items_wait k) :: EvLog INFO "Retrying" :: n1).
      rewrite R3. unfold h2. split; [|split].
      * rewrite <- app_assoc. reflexivity.
      * rewrite calls_app, C3, !calls_cons. cbn [is_items_query].
        rewrite C1. lia.
      * rewrite sleeps_app, length_app, S3.
        change (EvSleep (items_wait k) :: EvLog INFO "Retrying" :: n1)
          with ([EvSleep (items_wait k); EvLog INFO "Retrying"] ++ n1).
        rewrite sleeps_app, S1. cbn. lia.
Qed.

(** X11.  [get_purchase_details] tolerates ingestion lag: when the first
    [n < 4] answers are unavailable (an exception of any class, or zero
    rows) and the next answer has rows, it returns the summary of those
    rows after [n + 1] queries and [n] sleeps. *)
Theorem get_purchase_details_recovers :
  forall w dados_id h n rows last,
    (n < 4)%nat ->
    (forall j, (j < n)%nat ->
               items_unavailable
                 (query_purchase_details w dados_id
                    (calls is_items_query h + j)) = true) ->
    query_purchase_details w dados_id (calls is_items_query h + n)
    = BqRows (rows ++ [last]) ->
    exists new fields,
      get_purchase_details w dados_id h = (Ret (VDict fields), new ++ h)
      /\ calls is_items_query new = S n
      /\ length (sleeps new) = n
      /\ dict_get "items" fields
         = Some (VList (map item_detail (rows ++ [last])))
      /\ dict_get "sub_total" fields = Some (row_sub_total last).
Proof.
  intros w dados_id h n rows last Hn U Q.
  destruct (rows ++ [last]) as [|row rest] eqn:E.
  { destruct rows; discriminate E. }
  destruct (items_loop_recovers w dados_id row rest n 3 1 h
              ltac:(lia) U Q) as (new & R & C & S).
  exists new. eexists. unfold get_purchase_details, Tenacity.retry.
  cbn [Nat.sub]. rewrite R. split; [reflexivity|].
  split; [exact C|]. split; [exact S|].
  rewrite <- E.
  destruct (summary_of_rows rows last) as (I & _ & _ & _ & St).
  cbv zeta in I, St. auto.
Qed.

Lemma get_purchase_details_recovers_witness :
  exists new fields,
    get_purchase_details world_recovering (VStr "123") []
    = (Ret (VDict fields), new ++ [])
    /\ calls is_items_query new = 3%nat
    /\ length (sleeps new) = 2%nat
    /\ dict_get "items" fields
       = Some (VList (map item_detail ([] ++ [sample_item])))
    /\ dict_get "sub_total" fields = Some (row_sub_total sample_item).
Proof.
  apply (get_purchase_details_recovers world_recovering (VStr "123") [] 2
           [] sample_item).
  - lia.
  - intros j Hj. destruct j as [|[|j]]; [reflexivity..|lia].
  - reflexivity.
Defined.
Lemma first_total_spend_not_none rows :
  is_none (first_total_spend rows) = false.
Proof.
  unfold first_total_spend.
  destruct (find _ rows) as [row|] eqn:F; [|reflexivity].
  apply find_some in F as [_ F]. apply negb_true_iff in F. exact F.
Qed.

(** X12.  The three loyalty queries never raise: each issues exactly one
    warehouse query and returns its one-field object, whatever the
    warehouse answers; and the lifetime total it returns is never [None]. *)
Theorem loyalty_queries_never_raise :
  forall w cpf h,
    (exists v new,
        get_daily_checkins w cpf h
        = (Ret (VDict [("daily_checkins", v)]), new ++ h)
        /\ interactions new = [EvQuery (DailyCheckinsQuery cpf)])
    /\ (exists v new,
           get_quarter_spend w cpf h
           = (Ret (VDict [("quarter_spend", v)]), new ++ h)
           /\ interactions new = [EvQuery (QuarterSpendQuery cpf)])
    /\ (exists v new,
           get_lifetime_spend w cpf h
           = (Ret (VDict [("total_spend", v)]), new ++ h)
           /\ interactions new = [EvQuery (LifetimeSpendQuery cpf)]
           /\ is_none v = false).
Proof.
  intros w cpf h. split; [|split].
  - unfold get_daily_checkins. run.
    destruct (query_daily_checkins w cpf _) as [rows|e]; run.
    + eexists. give_new. split; reflexivity.
    + destruct (is_bad_request e); run;
        (eexists; give_new; split; reflexivity).
  - unfold get_quarter_spend. run.
    destruct (query_quarter_spend w cpf _) as [rows|e]; run.
    + eexists. give_new. split; reflexivity.
    + destruct (is_bad_request e); run;
        (eexists; give_new; split; reflexivity).
  - unfold get_lifetime_spend. run.
    destruct (query_lifetime_spend w cpf _) as [[|row rows]|e]; run.
    + destruct (lifetime_job_succeeded w cpf _); run;
        (eexists; give_new; repeat split; reflexivity).
    + destruct (lifetime_job_succeeded w cpf _); run;
        (eexists; give_new; repeat split; try reflexivity;
         apply first_total_spend_not_none).
    + destruct (is_bad_request e); run;
        (eexists; give_new; repeat split; reflexivity).
Qed.

(** What [aggregate_email_data] returns once the items query has produced
    a summary: the eleven fields, then the link when there is one. *)
Lemma aggregate_returns w cpf dados_id email url name h fields h1 :
  get_purchase_details w dados_id h = (Ret (VDict fields), h1) ->
  exists v1 v2 v3 new,
    aggregate_email_data w cpf dados_id email url name h
    = (Ret (VDict
              (let email_data :=
                 [("client_email", email);
                  ("client_name", name);
                  ("dados_id", dados_id);
                  ("items",
                   match dict_get "items" fields with
                   | Some v => v | None => VList [] end);
                  ("sub_total",
                   match dict_get "sub_total" fields with
                   | Some v => v | None => VStr "0.00" end);
                  ("total_discount",
                   match dict_get "total_discount" fields with
                   | Some v => v | None => VStr "0.00" end);
                  ("total_paid",
                   match dict_get "total_paid" fields with
                   | Some v => v | None => VStr "0.00" end);
                  ("payment_method",
                   match dict_get "payment_method" fields with
                   | Some v => v | None => VStr "N/A" end);
                  ("daily_checkins", v1);
                  ("quarter_spend", v2);
                  ("lifetime_spend", v3)] in
               if is_none url then email_data
               else email_data ++ [("nota_fiscal_url", url)])),
       new ++ h).
Proof.
  intros R.
  destruct (emits_from_extends _ _ _ _ _
              (get_purchase_details_emits w any_event quiet_any_event
                 dados_id eq_refl h) R) as (n1 & -> & _).
  destruct (get_daily_checkins_total w cpf (n1 ++ h)) as (v1 & n2 & R1 & _).
  destruct (get_quarter_spend_total w cpf (n2 ++ n1 ++ h))
    as (v2 & n3 & R2 & _).
  destruct (get_lifetime_spend_total w cpf (n3 ++ n2 ++ n1 ++ h))
    as (v3 & n4 & R3 & _).
  exists v1, v2, v3, (n4 ++ n3 ++ n2 ++ n1).
  unfold aggregate_email_data, try_except.
  unfold bind at 1. rewrite R.
  unfold bind at 1. rewrite R1.
  unfold bind at 1. rewrite R2.
  unfold bind at 1. rewrite R3.
  rewrite <- !app_assoc. cbv zeta.
  destruct (is_none url); run; reflexivity.
Qed.

(** X13.  Once the items query has produced a summary,
    [aggregate_email_data] returns an EmailPayload that echoes the resolved
    email, the client name and the transaction id, copies the summary's
    header fields (with their defaults), has eleven keys, and gains a
    twelfth, [nota_fiscal_url], exactly when a link was passed in. *)
Theorem email_payload_echoes_its_inputs :
  forall w cpf dados_id email url name h fields h1,
    get_purchase_details w dados_id h = (Ret (VDict fields), h1) ->
    exists data new,
      aggregate_email_data w cpf dados_id email url name h
      = (Ret (VDict data), new ++ h)
      /\ dict_get "client_email" data = Some email
      /\ dict_get "client_name" data = Some name
      /\ dict_get "dados_id" data = Some dados_id
      /\ dict_get "nota_fiscal_url" data
         = (if is_none url then None else Some url)
      /\ length data = (if is_none url then 11 else 12)%nat
      /\ (forall key default,
             In (key, default)
                [("sub_total", VStr "0.00"); ("total_discount", VStr "0.00");
                 ("total_paid", VStr "0.00"); ("payment_method", VStr "N/A")] ->
             dict_get key data
             = Some (match dict_get key fields with
                     | Some v => v
                     | None => default
                     end)).
Proof.
  intros w cpf dados_id email url name h fields h1 R.
  destruct (aggregate_returns w cpf dados_id email url name h fields h1 R)
    as (v1 & v2 & v3 & new & A).
  eexists. exists new. split; [exact A|]. cbv zeta.
  destruct (is_none url); repeat split; try reflexivity.
  - intros key default [[= <- <-]|[[= <- <-]|[[= <- <-]|[[= <- <-]|[]]]]];
      reflexivity.
  - intros key default [[= <- <-]|[[= <- <-]|[[= <- <-]|[[= <- <-]|[]]]]];
      reflexivity.
Qed.

Lemma email_payload_echoes_its_inputs_witness :
  exists data new,
    aggregate_email_data world_with_items (VStr "111") (VStr "123")
      (VStr "ana@x.com") (VStr "http://x/55") (VStr "Ana") []
    = (Ret (VDict data), new ++ [])
    /\ dict_get "client_email" data = Some (VStr "ana@x.com")
    /\ dict_get "nota_fiscal_url" data = Some (VStr "http://x/55")
    /\ length data = 12%nat.
Proof.
  eassert (R : get_purchase_details world_with_items (VStr "123") []
               = (Ret (VDict _), _)) by (vm_compute; reflexivity).
  destruct (email_payload_echoes_its_inputs world_with_items (VStr "111")
              (VStr "123") (VStr "ana@x.com") (VStr "http://x/55")
              (VStr "Ana") [] _ _ R)
    as (data & new & A & E & _ & _ & U & L & _).
  exists data, new. auto.
Defined.
(* ===================================================================== *)
(** * Further properties: the notification dispatcher *)
(* ===================================================================== *)

(** An attempt the provider accepts ends [send_email]. *)
Lemma send_email_on_success w email_data retry_count h status_code body :
  sg_client_send w (build_message (VStr TEST_EMAIL) email_data)
    (calls is_send h) = SgResponse status_code body ->
  in_2xx status_code = true ->
  send_email w email_data retry_count h
  = (Ret tt,
     [EvLog INFO "Email successfully sent";
      EvSend (build_message (VStr TEST_EMAIL) email_data);
      EvLog INFO "Sending email with data: "] ++ h).
Proof.
  intros R S. rewrite send_email_unfold. unfold send_email_body. run.
  rewrite calls_cons. cbn [is_send]. rewrite R. run. rewrite S. reflexivity.
Qed.

(** A failed attempt: one send, then either the sleep and the next call,
    or the final error line. *)
Lemma send_email_on_failure w email_data retry_count h :
  send_failed
    (sg_client_send w (build_message (VStr TEST_EMAIL) email_data)
       (calls is_send h)) = true ->
  exists new,
    calls is_send new = 1%nat
    /\ sleeps new = []
    /\ send_email w email_data retry_count h
       = if (retry_count <? 2)%nat then
           send_email w email_data (retry_count + 1)
             (EvSleep (inject_Z (2 ^ (Z.of_nat retry_count + 1) * 30))
              :: EvLog WARNING "Retrying to send email" :: new ++ h)
         else
           (Ret tt,
            EvLog ERROR "Max retry attempts reached for sending email"
            :: new ++ h).
Proof.
  intros F. rewrite send_email_unfold. unfold send_email_body. run.
  rewrite calls_cons. cbn [is_send].
  destruct (sg_client_send w _ (calls is_send h)) as [status_code body|e];
    cbn [send_failed] in F.
  - apply negb_true_iff in F. run. rewrite F. run.
    exists [EvLog ERROR "Failed to send email on attempt";
            EvSend (build_message (VStr TEST_EMAIL) email_data);
            EvLog INFO "Sending email with data: "].
    repeat split. unfold Nat.ltb. cbn [Nat.leb].
    destruct (retry_count <=? 1)%nat; reflexivity.
  - run.
    exists [EvSend (build_message (VStr TEST_EMAIL) email_data);
            EvLog INFO "Sending email with data: "].
    repeat split. unfold Nat.ltb. cbn [Nat.leb].
    destruct (retry_count <=? 1)%nat; reflexivity.
Qed.

Lemma calls_send_after_failure s lv msg new h :
  calls is_send new = 1%nat ->
  calls is_send (EvSleep s :: EvLog lv msg :: new ++ h)
  = S (calls is_send h).
Proof.
  intros C. rewrite !calls_cons. cbn [is_send]. rewrite calls_app, C.
  reflexivity.
Qed.

(** X14.  [send_email] stops at the first attempt the provider accepts:
    after [n < 3] failed attempts and a 2xx answer it has sent [n + 1]
    times, slept 60 before the second attempt and 120 before the third,
    logged the success last, and returns normally. *)
Theorem send_email_stops_at_first_success :
  forall w email_data h n status_code body,
    (n < 3)%nat ->
    (forall j, (j < n)%nat ->
               send_failed
                 (sg_client_send w (build_message (VStr TEST_EMAIL) email_data)
                    (calls is_send h + j)) = true) ->
    sg_client_send w (build_message (VStr TEST_EMAIL) email_data)
      (calls is_send h + n) = SgResponse status_code body ->
    in_2xx status_code = true ->
    exists new,
      send_email w email_data 0 h = (Ret tt, new ++ h)
      /\ calls is_send new = S n
      /\ sleeps new = firstn n [(60 # 1)%Q; (120 # 1)%Q]
      /\ hd_error new = Some (EvLog INFO "Email successfully sent").
Proof.
  intros w d h n s b Hn F R Ok.
  destruct n as [|[|[|n]]]; [| | |lia].
  - rewrite Nat.add_0_r in R.
    rewrite (send_email_on_success _ _ _ _ _ _ R Ok).
    eexists. split; [reflexivity|]. repeat split.
  - destruct (send_email_on_failure w d 0 h) as (n1 & C1 & S1 & E1).
    { rewrite <- (Nat.add_0_r (calls is_send h)). apply F. lia. }
    rewrite E1. cbn [Nat.ltb Nat.leb Nat.add].
    rewrite (send_email_on_success w d 1 _ s b);
      [|rewrite (calls_send_after_failure _ _ _ _ _ C1), <- Nat.add_1_r;
        exact R|exact Ok].
    eexists (_ :: _ :: _ :: _ :: _ :: n1).
    split; [reflexivity|]. split; [|split; [|reflexivity]].
    + rewrite !calls_cons. cbn [is_send]. rewrite C1. reflexivity.
    + change (sleeps ([EvLog INFO "Email successfully sent";
                       EvSend (build_message (VStr TEST_EMAIL) d);
                       EvLog INFO "Sending email with data: ";
                       EvSleep (inject_Z (2 ^ (Z.of_nat 0 + 1) * 30));
                       EvLog WARNING "Retrying to send email"] ++ n1)
              = [(60 # 1)%Q]).
      rewrite sleeps_app, S1. reflexivity.
  - destruct (send_email_on_failure w d 0 h) as (n1 & C1 & S1 & E1).
    { rewrite <- (Nat.add_0_r (calls is_send h)). apply F. lia. }
    rewrite E1. cbn [Nat.ltb Nat.leb Nat.add].
    match goal with
    | |- context [send_email w d 1 ?h1] =>
        destruct (send_email_on_failure w d 1 h1) as (n2 & C2 & S2 & E2);
        [ rewrite (calls_send_after_failure _ _ _ _ _ C1), <- Nat.add_1_r;
          apply F; lia
        | rewrite E2; cbn [Nat.ltb Nat.leb Nat.add] ]
    end.
    rewrite (send_email_on_success w d 2 _ s b);
      [|rewrite (calls_send_after_failure _ _ _ _ _ C2),
          (calls_send_after_failure _ _ _ _ _ C1);
        replace (S (S (calls is_send h))) with (calls is_send h + 2)%nat
          by lia;
        exact R|exact Ok].
    eexists (_ :: _ :: _ :: _ :: _ :: n2 ++ _ :: _ :: n1).
    split; [cbn [app]; rewrite <- app_assoc; reflexivity|].
    split; [|split; [|reflexivity]].
    + rewrite !calls_cons. cbn [is_send].
      rewrite calls_app, C2, !calls_cons. cbn [is_send]. rewrite C1.
      reflexivity.
    + change (sleeps ([EvLog INFO "Email successfully sent";
                       EvSend (build_message (VStr TEST_EMAIL) d);
                       EvLog INFO "Sending email with data: ";
                       EvSleep (inject_Z (2 ^ (Z.of_nat 1 + 1) * 30));
                       EvLog WARNING "Retrying to send email"]
                      ++ n2
                      ++ [EvSleep (inject_Z (2 ^ (Z.of_nat 0 + 1) * 30));
                          EvLog WARNING "Retrying to send email"] ++ n1)
              = [(60 # 1)%Q; (120 # 1)%Q]).
      rewrite !sleeps_app, S1, S2. reflexivity.
Qed.

Lemma send_email_stops_at_first_success_witness :
  exists new,
    send_email world_recovering (VDict []) 0 [] = (Ret tt, new ++ [])
    /\ calls is_send new = 3%nat
    /\ sleeps new = [(60 # 1)%Q; (120 # 1)%Q]
    /\ hd_error new = Some (EvLog INFO "Email successfully sent").
Proof.
  apply (send_email_stops_at_first_success world_recovering (VDict []) [] 2
           202%Z EmptyString); try reflexivity.
  - lia.
  - intros j Hj. destruct j as [|[|j]]; [reflexivity..|lia].
Defined.

Lemma sleeps_cons ev l :
  sleeps (ev :: l)
  = sleeps l ++ match ev with EvSleep s => [s] | _ => [] end.
Proof.
  change (ev :: l) with ([ev] ++ l). rewrite sleeps_app.
  destruct ev; reflexivity.
Qed.

Ltac assoc_app :=
  repeat (progress (cbn [app]; rewrite <- ?app_assoc)); reflexivity.

Ltac count_history C1 C2 C3 S1 S2 S3 :=
  repeat (progress
            (rewrite ?calls_cons, ?calls_app, ?sleeps_cons, ?sleeps_app;
             cbn [is_send]));
  rewrite ?C1, ?C2, ?C3, ?S1, ?S2, ?S3.

(** X15.  Whatever the provider answers, [send_email] returns normally
    after one, two or three sends, having slept nothing, 60, or 60 then
    120: it never raises and never sends a fourth time. *)
Theorem send_email_is_bounded :
  forall w email_data h,
    exists new,
      send_email w email_data 0 h = (Ret tt, new ++ h)
      /\ (1 <= calls is_send new <= 3)%nat
      /\ sleeps new
         = firstn (calls is_send new - 1) [(60 # 1)%Q; (120 # 1)%Q].
Proof.
  intros w d h.
  (* first attempt *)
  destruct (send_failed
              (sg_client_send w (build_message (VStr TEST_EMAIL) d)
                 (calls is_send h))) eqn:F1.
  2:{ destruct (sg_client_send w _ (calls is_send h)) as [s b|e] eqn:R;
        [|discriminate].
      cbn in F1. apply negb_false_iff in F1.
      rewrite (send_email_on_success _ _ _ _ _ _ R F1).
      eexists. split; [reflexivity|]. cbn. split; [lia|reflexivity]. }
  destruct (send_email_on_failure w d 0 h F1) as (n1 & C1 & S1 & E1).
  rewrite E1. cbn [Nat.ltb Nat.leb Nat.add].
  match goal with |- context [send_email w d 1 ?hh] => set (h1 := hh) end.
  (* second attempt *)
  destruct (send_failed
              (sg_client_send w (build_message (VStr TEST_EMAIL) d)
                 (calls is_send h1))) eqn:F2.
  2:{ destruct (sg_client_send w _ (calls is_send h1)) as [s b|e] eqn:R;
        [|discriminate].
      cbn in F2. apply negb_false_iff in F2.
      rewrite (send_email_on_success _ _ _ _ _ _ R F2). unfold h1.
      eexists (_ :: _ :: _ :: _ :: _ :: n1). split; [reflexivity|].
      count_history C1 C1 C1 S1 S1 S1. cbn. split; [lia|reflexivity]. }
  destruct (send_email_on_failure w d 1 h1 F2) as (n2 & C2 & S2 & E2).
  rewrite E2. cbn [Nat.ltb Nat.leb Nat.add].
  match goal with |- context [send_email w d 2 ?hh] => set (h2 := hh) end.
  (* third attempt *)
  destruct (send_failed
              (sg_client_send w (build_message (VStr TEST_EMAIL) d)
                 (calls is_send h2))) eqn:F3.
  2:{ destruct (sg_client_send w _ (calls is_send h2)) as [s b|e] eqn:R;
        [|discriminate].
      cbn in F3. apply negb_false_iff in F3.
      rewrite (send_email_on_success _ _ _ _ _ _ R F3). unfold h2, h1.
      eexists (_ :: _ :: _ :: _ :: _ :: n2 ++ _ :: _ :: n1).
      split; [assoc_app|].
      count_history C1 C2 C2 S1 S2 S2. cbn. split; [lia|reflexivity]. }
  destruct (send_email_on_failure w d 2 h2 F3) as (n3 & C3 & S3 & E3).
  rewrite E3. cbn [Nat.ltb Nat.leb]. unfold h2, h1.
  eexists (_ :: n3 ++ _ :: _ :: n2 ++ _ :: _ :: n1).
  split; [assoc_app|].
  count_history C1 C2 C3 S1 S2 S3. cbn. split; [lia|reflexivity].
Qed.

(* ===================================================================== *)
(** * Further properties: the pipeline as a whole *)
(* ===================================================================== *)

(** Every stage in one statement: what [process_webhook_payload] may
    append. *)
Lemma process_webhook_payload_emits w P payload :
  quiet P ->
  (forall req, P (EvHttpGet req) = true) ->
  (forall q, P (EvQuery q) = true) ->
  (forall email_data,
      P (EvSend (build_message (VStr TEST_EMAIL) email_data)) = true) ->
  emits P (process_webhook_payload w payload).
Proof.
  intros Q Hh Hq Hs h. pose proof (proj1 Q) as Ql.
  unfold process_webhook_payload.
  apply emits_from_try; [|intros e h' _; destruct e; emits_auto].
  emits_auto.
  - apply generate_nfce_emits; auto.
  - apply get_client_email_emits; auto.
  - apply get_nota_fiscal_link_emits; auto.
  - apply aggregate_email_data_emits; auto.
  - apply send_email_emits; auto.
Qed.

(** X17.  No exception ever leaves [process_webhook_payload], whatever the
    payload and whatever the collaborators answer or raise; and the run
    only appends to the history. *)
Theorem process_webhook_payload_never_raises :
  forall w payload h,
    exists new, process_webhook_payload w payload h = (Ret tt, new ++ h).
Proof.
  intros w payload h.
  destruct (run_of_emits w payload h any_event) as (new & R & _).
  - apply process_webhook_payload_emits; try reflexivity.
    exact quiet_any_event.
  - exists new. exact R.
Qed.

(** X16.  With [TEST_MODE] set, every message an invocation sends is
    addressed to [TEST_EMAIL], never to the customer's address; it comes
    from [FROM_EMAIL] with the purchase template and unsubscribe group. *)
Theorem every_message_goes_to_the_test_inbox :
  forall w payload h,
    exists new,
      process_webhook_payload w payload h = (Ret tt, new ++ h)
      /\ forall m,
          In (EvSend m) new ->
          to_emails m = VStr TEST_EMAIL
          /\ from_email m = FROM_EMAIL
          /\ template_id m = TEMPLATE_ID
          /\ asm_group_id m = 23816%Z.
Proof.
  intros w payload h.
  destruct (run_of_emits w payload h sent_to_test_inbox) as (new & R & F).
  - apply process_webhook_payload_emits; try reflexivity.
    split; reflexivity.
  - exists new. split; [exact R|]. intros m Hin.
    rewrite forallb_forall in F. specialize (F _ Hin). cbn in F.
    repeat (apply andb_true_iff in F as [F ?]).
    destruct (to_emails m); try discriminate F.
    cbn in F. apply String.eqb_eq in F. subst.
    repeat split.
    + apply String.eqb_eq. assumption.
    + apply String.eqb_eq. assumption.
    + apply Z.eqb_eq. assumption.
Qed.

(** X18.  A falsy [dados.id] (an empty string, 0, [false], [null], an empty
    list or object) is handled like a missing one: a single error line,
    and nothing else happens. *)
Theorem falsy_dados_id_stops_the_pipeline :
  forall w payload dados_id h,
    payload_dados_id payload = Some dados_id ->
    truthy dados_id = false ->
    process_webhook_payload w payload h
    = (Ret tt, [EvLog ERROR "Missing 'dados.id' in payload."] ++ h).
Proof.
  intros w payload dados_id h Hid Ht.
  unfold payload_dados_id, payload_dados in Hid.
  destruct payload as [| | | | | |p]; try discriminate.
  destruct (dict_get "dados" p) as [[| | | | | |dados]|] eqn:Ed;
    try discriminate.
  unfold process_webhook_payload.
  repeat (run; unfold dict_has; rewrite ?Ed, ?Hid, ?Ht).
  reflexivity.
Qed.

Lemma falsy_dados_id_stops_the_pipeline_witness :
  process_webhook_payload world_with_items
    (VDict [("dados", VDict [("id", VInt 0)])]) []
  = (Ret tt, [EvLog ERROR "Missing 'dados.id' in payload."] ++ []).
Proof.
  apply (falsy_dados_id_stops_the_pipeline world_with_items
           (VDict [("dados", VDict [("id", VInt 0)])]) (VInt 0) []);
    reflexivity.
Defined.

(* ===================================================================== *)
(** * Further properties: what the pipeline does first *)
(* ===================================================================== *)

Lemma interactions_app a b :
  interactions (a ++ b) = interactions b ++ interactions a.
Proof. unfold interactions. rewrite rev_app_distr, filter_app. reflexivity. Qed.

Lemma hd_error_app {A} (l l' : list A) x :
  hd_error l = Some x -> hd_error (l ++ l') = Some x.
Proof. destruct l; [discriminate|auto]. Qed.

Lemma forallb_any_event l : forallb any_event l = true.
Proof. induction l; auto. Qed.

(** Where a sequence ends relative to where its first part ends. *)
Lemma bind_extends {A B} P (m : M A) (k : A -> M B) h :
  (forall a h', m h = (Ret a, h') -> emits_from P (k a) h') ->
  exists n2, snd (bind m k h) = n2 ++ snd (m h) /\ forallb P n2 = true.
Proof.
  intros K. unfold bind. destruct (m h) as [[a|e] h1] eqn:R; cbn [snd].
  - destruct (K a h1 eq_refl) as (n2 & E & F). exists n2. auto.
  - exists []. auto.
Qed.

Lemma try_extends {A} P (m : M A) handler h :
  (forall e h', m h = (Raise e, h') -> emits_from P (handler e) h') ->
  exists n2,
    snd (try_except m handler h) = n2 ++ snd (m h) /\ forallb P n2 = true.
Proof.
  intros K. unfold try_except. destruct (m h) as [[a|e] h1] eqn:R; cbn [snd].
  - exists []. auto.
  - destruct (K e h1 eq_refl) as (n2 & E & F). exists n2. auto.
Qed.

Lemma starts_with_extended {A B} ev (m : M A) (m' : M B) h n2 :
  starts_with ev m h ->
  snd (m' h) = n2 ++ snd (m h) ->
  starts_with ev m' h.
Proof.
  intros (new & E & I) E'. exists (n2 ++ new).
  rewrite E', E, app_assoc. split; [reflexivity|].
  rewrite interactions_app. apply hd_error_app. exact I.
Qed.

Lemma starts_with_bind {A B} ev (m : M A) (k : A -> M B) h :
  starts_with ev m h ->
  (forall a h', m h = (Ret a, h') -> emits_from any_event (k a) h') ->
  starts_with ev (bind m k) h.
Proof.
  intros St K. destruct (bind_extends any_event m k h K) as (n2 & E & _).
  eapply starts_with_extended; eauto.
Qed.

Lemma starts_with_try {A} ev (m : M A) handler h :
  starts_with ev m h ->
  (forall e h', m h = (Raise e, h') -> emits_from any_event (handler e) h') ->
  starts_with ev (try_except m handler) h.
Proof.
  intros St K. destruct (try_extends any_event m handler h K) as (n2 & E & _).
  eapply starts_with_extended; eauto.
Qed.

Lemma starts_with_after_log {A} ev lv msg (k : M A) h :
  starts_with ev k (EvLog lv msg :: h) ->
  starts_with ev (bind (log lv msg) (fun _ => k)) h.
Proof.
  intros (new & E & I). exists (new ++ [EvLog lv msg]). 
  unfold bind, log, emit. rewrite E, <- app_assoc. split; [reflexivity|].
  rewrite interactions_app. exact I.
Qed.

(** A retried call starts the way its first attempt starts. *)
Lemma starts_with_attempt {A} ev wait retry_on before_sleep (fn : M A) :
  (forall h, starts_with ev fn h) ->
  forall n k h,
    starts_with ev (Tenacity.attempt wait retry_on before_sleep fn n k) h.
Proof.
  intros St n k h.
  assert (F : emits any_event fn).
  { intros h0. destruct (St h0) as (new & E & _). exists new.
    split; [exact E|apply forallb_any_event]. }
  destruct (St h) as (n1 & E1 & I1). unfold starts_with.
  destruct n as [|n]; cbn [Tenacity.attempt];
    destruct (fn h) as [[a|e] h1] eqn:R; cbn [snd] in E1; subst h1;
    try (exists n1; cbn [snd]; auto; fail);
    destruct (retry_on e); try (exists n1; cbn [snd]; auto; fail).
  match goal with
  | |- context [Tenacity.attempt _ _ _ _ n (S k) ?hc] =>
      destruct (emits_from_attempt any_event wait retry_on before_sleep fn
                  quiet_any_event F n (S k) hc) as (n2 & E2 & _)
  end.
  destruct before_sleep as [lv|].
  - exists (n2 ++ (EvSleep (wait k) :: EvLog lv "Retrying" :: nil) ++ n1).
    rewrite E2. split; [now rewrite <- !app_assoc|].
    rewrite !interactions_app. do 2 apply hd_error_app. exact I1.
  - exists (n2 ++ (EvSleep (wait k) :: nil) ++ n1).
    rewrite E2. split; [now rewrite <- !app_assoc|].
    rewrite !interactions_app. do 2 apply hd_error_app. exact I1.
Qed.

(** The first thing [make_api_call] does is the request. *)
Lemma make_api_call_starts_with_the_request w url h :
  starts_with (EvHttpGet url) (make_api_call w url) h.
Proof.
  apply starts_with_attempt. clear h. intros h. unfold starts_with.
  destruct (requests_get w url (calls (same_endpoint url) h))
    as [json_data|e] eqn:R.
  - rewrite (attempt_on_body _ _ _ _ R).
    destruct (validate_json_payload json_data) as [[]|e]; cbn [snd];
      give_new; split; reflexivity.
  - rewrite (attempt_on_transport_error _ _ _ _ R). cbn [snd].
    give_new. split; reflexivity.
Qed.

Lemma generate_nfce_starts_with_the_request w dados_id h :
  starts_with
    (EvHttpGet (GerarNotaFiscalPedido (TINY_ERP_API_TOKEN w) dados_id))
    (generate_nfce w dados_id) h.
Proof.
  unfold generate_nfce. apply starts_with_after_log. cbv zeta.
  apply starts_with_bind.
  - apply make_api_call_starts_with_the_request.
  - intros response h' _. pose proof quiet_any_event as Pquiet.
    emits_auto.
Qed.

Lemma starts_with_pure {A B} ev (r : result A) a (k : A -> M B) h :
  r = Ret a ->
  starts_with ev (k a) h ->
  starts_with ev (bind (lift r) k) h.
Proof. intros ->. exact (fun H => H). Qed.

(** What is left of the pipeline once the document has been requested. *)
Lemma after_generation_emits w P payload dados_id nfce_id :
  quiet P ->
  (forall req, P (EvHttpGet req) = true) ->
  (forall q, P (EvQuery q) = true) ->
  (forall email_data,
      P (EvSend (build_message (VStr TEST_EMAIL) email_data)) = true) ->
  emits P
    (cliente_info <- lift (dados <- getitem payload "dados" ;;
                           get dados "cliente" (VDict []))%res ;;
     cliente_nome <- lift (get cliente_info "nome" (VStr "Unknown Client")) ;;
     cliente_cpfCnpj <- lift (get cliente_info "cpfCnpj" VNone) ;;
     log INFO "Cliente Nome, CPF/CNPJ" ;;
     if is_none cliente_cpfCnpj then
       log WARNING "NFCe was emitted, but CPF/CNPJ is missing. No email will be sent." ;;
       ret tt
     else
       client_email <- get_client_email w cliente_cpfCnpj ;;
       if negb (truthy client_email) then
         log WARNING "No email found. NFCe was emitted, but no email will be sent." ;;
         ret tt
       else
         nota_fiscal_url <-
           (if truthy nfce_id then
              try_except (get_nota_fiscal_link w nfce_id)
                (fun e =>
                   log ERROR "Error fetching NFCe link: " ;;
                   ret VNone)
            else ret VNone) ;;
         email_data <- aggregate_email_data w cliente_cpfCnpj dados_id
                         client_email nota_fiscal_url cliente_nome ;;
         send_email w email_data 0)%prog.
Proof.
  intros Q Hh Hq Hs h. pose proof (proj1 Q) as Ql.
  emits_auto.
  - apply get_client_email_emits; auto.
  - apply get_nota_fiscal_link_emits; auto.
  - apply aggregate_email_data_emits; auto.
  - apply send_email_emits; auto.
Qed.

(** With a usable [dados.id], the pipeline starts with the
    document-generation request for that id. *)
Lemma process_starts_with_generation w payload dados_id h :
  payload_dados_id payload = Some dados_id ->
  truthy dados_id = true ->
  starts_with
    (EvHttpGet (GerarNotaFiscalPedido (TINY_ERP_API_TOKEN w) dados_id))
    (process_webhook_payload w payload) h.
Proof.
  intros Hid Ht.
  unfold payload_dados_id, payload_dados in Hid.
  destruct payload as [| | | | | |p]; try discriminate.
  destruct (dict_get "dados" p) as [[| | | | | |dados]|] eqn:Ed;
    try discriminate.
  unfold process_webhook_payload.
  apply starts_with_try;
    [|intros e h' _; pose proof quiet_any_event as Pquiet;
      destruct e; emits_auto].
  apply (starts_with_pure _ _ true);
    [cbn; unfold dict_has; rewrite Ed; reflexivity|].
  cbn [negb].
  apply (starts_with_pure _ _ dados_id);
    [cbn; rewrite Ed; cbn; rewrite Hid; reflexivity|].
  rewrite Ht. cbn [negb].
  apply starts_with_bind.
  - apply starts_with_try.
    + apply generate_nfce_starts_with_the_request.
    + intros e h' _. pose proof quiet_any_event as Pquiet. emits_auto.
  - intros nfce_id h' _.
    apply after_generation_emits; try reflexivity.
    exact quiet_any_event.
Qed.

(** X19.  For a payload with a usable [dados.id], the first thing an
    invocation does to the outside world is ask the ERP to generate the
    fiscal document for that id: no warehouse query, contact search or
    send comes before it. *)
Theorem document_generation_comes_first :
  forall w payload dados_id h,
    payload_dados_id payload = Some dados_id ->
    truthy dados_id = true ->
    exists new,
      process_webhook_payload w payload h = (Ret tt, new ++ h)
      /\ hd_error (interactions new)
         = Some (EvHttpGet
                   (GerarNotaFiscalPedido (TINY_ERP_API_TOKEN w) dados_id)).
Proof.
  intros w payload dados_id h Hid Ht.
  destruct (process_starts_with_generation w payload dados_id h Hid Ht)
    as (new & E & I).
  exists new. split; [|exact I].
  pose proof (process_webhook_payload_returns w payload h) as R.
  destruct (process_webhook_payload w payload h) as [r h'].
  cbn in *. subst. reflexivity.
Qed.

Lemma document_generation_comes_first_witness :
  exists new,
    process_webhook_payload world_with_items sample_payload [] 
    = (Ret tt, new ++ [])
    /\ hd_error (interactions new)
       = Some (EvHttpGet
                 (GerarNotaFiscalPedido
                    (TINY_ERP_API_TOKEN world_with_items) (VStr "123"))).
Proof.
  apply (document_generation_comes_first world_with_items sample_payload
           (VStr "123") []); reflexivity.
Defined.

(** X20.  When a payload with a usable [dados.id] carries no customer tax
    id ([dados.cliente] or its [cpfCnpj] is absent or [null], or [cliente]
    is not an object), the invocation still asks for the fiscal document
    -- that request is its first interaction -- but does nothing else:
    besides log lines and retry sleeps the history gains only
    document-generation requests -- no warehouse query, no contact search,
    no link request and no send. *)
Theorem missing_tax_id_only_generates_the_document :
  forall w payload dados_id h,
    payload_dados_id payload = Some dados_id ->
    truthy dados_id = true ->
    no_tax_id payload = true ->
    exists new,
      process_webhook_payload w payload h = (Ret tt, new ++ h)
      /\ hd_error (interactions new)
         = Some (EvHttpGet
                   (GerarNotaFiscalPedido (TINY_ERP_API_TOKEN w) dados_id))
      /\ forallb generation_only new = true.
Proof.
  intros w payload dados_id h Hid Ht Hn.
  destruct (process_starts_with_generation w payload dados_id h Hid Ht)
    as (new' & E' & I).
  assert (Em : emits_from generation_only
                 (process_webhook_payload w payload) h).
  { unfold payload_dados_id, payload_dados in Hid.
    unfold no_tax_id, payload_cpfCnpj, payload_dados in Hn.
    destruct payload as [| | | | | |p]; try discriminate.
    destruct (dict_get "dados" p) as [[| | | | | |dados]|] eqn:Ed;
      try discriminate.
    pose proof (quiet_only is_gerar) as Pquiet.
    pose proof (proj1 Pquiet) as Plog.
    unfold process_webhook_payload, generation_only.
    apply emits_from_try; [|intros e h' _; destruct e; emits_auto].
    pure_step as has_dados Ehas.
    cbn in Ehas. unfold dict_has in Ehas. rewrite Ed in Ehas.
    injection Ehas as <-. cbn [negb].
    pure_step as id Eid.
    cbn in Eid. rewrite Ed in Eid. cbn in Eid. rewrite Hid in Eid.
    injection Eid as <-. rewrite Ht. cbn [negb].
    apply emits_from_bind.
    { apply emits_from_try; [|intros e h' _; emits_auto].
      apply generate_nfce_emits; auto. }
    intros nfce_id h1 _.
    pure_step as cliente_info Eci.
    cbn in Eci. rewrite Ed in Eci. cbn in Eci. injection Eci as <-.
    pure_step as cliente_nome Enome.
    pure_step as cliente_cpfCnpj Ecpf.
    assert (Hc : is_none cliente_cpfCnpj = true).
    { destruct (dict_get "cliente" dados) as [[| | | | | |cliente]|];
        cbn in Ecpf; try discriminate Ecpf.
      - injection Ecpf as <-.
        destruct (dict_get "cpfCnpj" cliente); [exact Hn|reflexivity].
      - injection Ecpf as <-. reflexivity. }
    rewrite Hc. emits_auto. }
  destruct (run_of_emits w payload h generation_only Em) as (new & R & F).
  exists new. split; [exact R|]. split; [|exact F].
  rewrite R in E'. cbn [snd] in E'. apply app_inv_tail in E'. subst new'.
  exact I.
Qed.

Lemma missing_tax_id_only_generates_the_document_witness :
  exists new,
    process_webhook_payload world_with_items
      (VDict [("dados", VDict [("id", VStr "123");
                               ("cliente", VDict [("nome", VStr "Ana")])])])
      []
    = (Ret tt, new ++ [])
    /\ hd_error (interactions new)
       = Some (EvHttpGet
                 (GerarNotaFiscalPedido
                    (TINY_ERP_API_TOKEN world_with_items) (VStr "123")))
    /\ forallb generation_only new = true.
Proof.
  apply (missing_tax_id_only_generates_the_document world_with_items
           (VDict [("dados", VDict [("id", VStr "123");
                                    ("cliente",
                                     VDict [("nome", VStr "Ana")])])])
           (VStr "123") []); reflexivity.
Defined.

(* ===================================================================== *)
(** * Further properties: how many external calls an invocation makes *)
(* ===================================================================== *)

Lemma adds_at_most_weaken {A} kind n n' (m : M A) h :
  (n <= n')%nat -> adds_at_most kind n m h -> adds_at_most kind n' m h.
Proof. unfold adds_at_most. lia. Qed.

Lemma adds_at_most_bind {A B} kind n1 n2 n (m : M A) (k : A -> M B) h :
  (n1 + n2 <= n)%nat ->
  adds_at_most kind n1 m h ->
  (forall a h', m h = (Ret a, h') -> adds_at_most kind n2 (k a) h') ->
  adds_at_most kind n (bind m k) h.
Proof.
  unfold adds_at_most, bind. intros L Hm Hk.
  destruct (m h) as [[a|e] h1] eqn:R; cbn [snd] in *.
  - specialize (Hk a h1 eq_refl). lia.
  - lia.
Qed.

Lemma adds_at_most_try {A} kind n1 n2 n (m : M A) handler h :
  (n1 + n2 <= n)%nat ->
  adds_at_most kind n1 m h ->
  (forall e h', m h = (Raise e, h') -> adds_at_most kind n2 (handler e) h') ->
  adds_at_most kind n (try_except m handler) h.
Proof.
  unfold adds_at_most, try_except. intros L Hm Hk.
  destruct (m h) as [[a|e] h1] eqn:R; cbn [snd] in *.
  - lia.
  - specialize (Hk e h1 eq_refl). lia.
Qed.

Lemma adds_at_most_ret {A} kind n (a : A) h : adds_at_most kind n (ret a) h.
Proof. unfold adds_at_most, ret. cbn [snd]. lia. Qed.

Lemma adds_at_most_raise {A} kind n e h :
  adds_at_most kind n (@raise A e) h.
Proof. unfold adds_at_most, raise. cbn [snd]. lia. Qed.

Lemma adds_at_most_lift {A} kind n (r : result A) h :
  adds_at_most kind n (lift r) h.
Proof. unfold adds_at_most, lift. cbn [snd]. lia. Qed.

Lemma adds_at_most_emit kind n ev h :
  kind ev = false -> adds_at_most kind n (emit ev) h.
Proof.
  intros K. unfold adds_at_most, emit. cbn [snd]. rewrite calls_cons, K. lia.
Qed.

Section AddsAtMost.
Variable w : world.
Variable kind : event -> bool.
Hypothesis Klog : forall lv msg, kind (EvLog lv msg) = false.
Hypothesis Ksleep : forall s, kind (EvSleep s) = false.

(** What one request of each collaborator counts for. *)
Variable nh nq ns : nat.
Hypothesis Khttp : forall req, kind (EvHttpGet req) = true -> (1 <= nh)%nat.
Hypothesis Kquery : forall q, kind (EvQuery q) = true -> (1 <= nq)%nat.
Hypothesis Ksend : forall m, kind (EvSend m) = true -> (1 <= ns)%nat.

Lemma adds_at_most_log n lv msg h : adds_at_most kind n (log lv msg) h.
Proof. apply adds_at_most_emit, Klog. Qed.

Lemma adds_at_most_sleep n s h : adds_at_most kind n (sleep s) h.
Proof. apply adds_at_most_emit, Ksleep. Qed.

Lemma adds_at_most_cons ev n h :
  (kind ev = true -> (1 <= n)%nat) ->
  (calls kind (ev :: h) <= calls kind h + n)%nat.
Proof.
  intros K. rewrite calls_cons. destruct (kind ev); [specialize (K eq_refl)|];
    lia.
Qed.

Lemma adds_at_most_http_get n url h :
  (nh <= n)%nat -> adds_at_most kind n (http_get w url) h.
Proof.
  intros L. apply (adds_at_most_weaken kind nh); [exact L|].
  unfold adds_at_most, http_get.
  destruct (requests_get w url _); cbn [snd];
    apply adds_at_most_cons, Khttp.
Qed.

Lemma adds_at_most_bq_query {R} n q k (answers : nat -> bq_reply R) h :
  (nq <= n)%nat -> adds_at_most kind n (bq_query q k answers) h.
Proof.
  intros L. apply (adds_at_most_weaken kind nq); [exact L|].
  unfold adds_at_most, bq_query.
  destruct (answers _); cbn [snd]; apply adds_at_most_cons, Kquery.
Qed.

Lemma adds_at_most_bq_query_job {R} n q k (answers : nat -> bq_reply R)
  succeeded h :
  (nq <= n)%nat ->
  adds_at_most kind n (bq_query_job q k answers succeeded) h.
Proof.
  intros L. apply (adds_at_most_weaken kind nq); [exact L|].
  unfold adds_at_most, bq_query_job.
  destruct (answers _); cbn [snd]; apply adds_at_most_cons, Kquery.
Qed.

Lemma adds_at_most_sg_send n m h :
  (ns <= n)%nat -> adds_at_most kind n (sg_send w m) h.
Proof.
  intros L. apply (adds_at_most_weaken kind ns); [exact L|].
  unfold adds_at_most, sg_send.
  destruct (sg_client_send w m _); cbn [snd]; apply adds_at_most_cons, Ksend.
Qed.

(** A call retried up to [S n] times costs at most [S n] attempts. *)
Lemma adds_at_most_attempt {A} c wait retry_on before_sleep (fn : M A) :
  (forall h, adds_at_most kind c fn h) ->
  forall n k h,
    adds_at_most kind (S n * c)
      (Tenacity.attempt wait retry_on before_sleep fn n k) h.
Proof.
  intros F n. induction n as [|n IH]; intros k h;
    specialize (F h); unfold adds_at_most in *; cbn [Tenacity.attempt];
    destruct (fn h) as [[a|e] h1]; cbn [snd] in *; try lia;
    destruct (retry_on e); cbn [snd]; try lia.
  match goal with
  | |- context [Tenacity.attempt _ _ _ _ n ?j ?hc] =>
      specialize (IH j hc); revert IH
  end.
  destruct before_sleep as [lv|];
    rewrite !calls_cons, ?Ksleep, ?Klog; lia.
Qed.

Lemma adds_at_most_then {A B} n (m : M A) (k : A -> M B) h :
  adds_at_most kind 0 m h ->
  (forall a h', m h = (Ret a, h') -> adds_at_most kind n (k a) h') ->
  adds_at_most kind n (bind m k) h.
Proof. apply (adds_at_most_bind kind 0 n). lia. Qed.

Lemma adds_at_most_first {A B} n (m : M A) (k : A -> M B) h :
  adds_at_most kind n m h ->
  (forall a h', m h = (Ret a, h') -> adds_at_most kind 0 (k a) h') ->
  adds_at_most kind n (bind m k) h.
Proof. apply (adds_at_most_bind kind n 0). lia. Qed.

(** A [try] whose handler only logs, re-raises or returns. *)
Lemma adds_at_most_guard {A} n (m : M A) handler h :
  adds_at_most kind n m h ->
  (forall e h', m h = (Raise e, h') -> adds_at_most kind 0 (handler e) h') ->
  adds_at_most kind n (try_except m handler) h.
Proof. apply (adds_at_most_try kind n 0). lia. Qed.

Ltac adds_step :=
  cbv zeta;
  lazymatch goal with
  | |- adds_at_most _ _ (bind (log _ _) _) _ =>
      apply adds_at_most_then; [apply adds_at_most_log|intros ? ? _]
  | |- adds_at_most _ _ (bind (sleep _) _) _ =>
      apply adds_at_most_then; [apply adds_at_most_sleep|intros ? ? _]
  | |- adds_at_most _ _ (bind (lift _) _) _ =>
      apply adds_at_most_then; [apply adds_at_most_lift|intros ? ? _]
  | |- adds_at_most _ _ (bind (if ?b then log _ _ else _) _) _ => destruct b
  | |- adds_at_most _ _ (bind (match ?e with KeyError _ => _ | _ => _ end) _) _ =>
      destruct e
  | |- adds_at_most _ _ (ret _) _ => apply adds_at_most_ret
  | |- adds_at_most _ _ (raise _) _ => apply adds_at_most_raise
  | |- adds_at_most _ _ (lift _) _ => apply adds_at_most_lift
  | |- adds_at_most _ _ (log _ _) _ => apply adds_at_most_log
  | |- adds_at_most _ _ (sleep _) _ => apply adds_at_most_sleep
  | |- adds_at_most _ _ (if ?b then _ else _) _ => destruct b
  | |- adds_at_most _ _ (match ?x with _ => _ end) _ => destruct x
  end.

Ltac adds_quiet := repeat adds_step.

Lemma make_api_call_attempt_adds url h :
  adds_at_most kind nh (make_api_call_attempt w url) h.
Proof.
  unfold make_api_call_attempt.
  apply adds_at_most_guard; [|intros e ? _; adds_quiet].
  adds_step. apply adds_at_most_first; [|intros; adds_quiet].
  apply adds_at_most_http_get. lia.
Qed.

Lemma make_api_call_adds url h :
  adds_at_most kind (4 * nh) (make_api_call w url) h.
Proof.
  apply (adds_at_most_attempt nh _ _ _ _ (make_api_call_attempt_adds url) 3).
Qed.

Lemma generate_nfce_adds dados_id h :
  adds_at_most kind (4 * nh) (generate_nfce w dados_id) h.
Proof.
  unfold generate_nfce. adds_step.
  apply adds_at_most_first; [apply make_api_call_adds|intros; adds_quiet].
Qed.

Lemma get_nota_fiscal_link_adds idNotafiscal h :
  adds_at_most kind (4 * nh) (get_nota_fiscal_link w idNotafiscal) h.
Proof.
  unfold get_nota_fiscal_link. adds_step.
  apply adds_at_most_first; [apply make_api_call_adds|intros; adds_quiet].
Qed.

Lemma get_client_email_from_tinyerp_adds cpf h :
  adds_at_most kind (4 * nh) (get_client_email_from_tinyerp w cpf) h.
Proof.
  unfold get_client_email_from_tinyerp. adds_step.
  apply adds_at_most_first; [apply make_api_call_adds|intros; adds_quiet].
Qed.

Lemma get_client_email_adds cpf h :
  adds_at_most kind (nq + 4 * nh) (get_client_email w cpf) h.
Proof.
  unfold get_client_email. adds_step.
  apply adds_at_most_guard; [|intros e ? _; adds_quiet].
  apply (adds_at_most_bind kind nq (4 * nh)); [lia| |].
  - apply adds_at_most_bq_query. lia.
  - intros results ? _. adds_quiet.
    apply get_client_email_from_tinyerp_adds.
Qed.

Lemma get_purchase_details_attempt_adds dados_id h :
  adds_at_most kind nq (get_purchase_details_attempt w dados_id) h.
Proof.
  unfold get_purchase_details_attempt. adds_step.
  apply adds_at_most_guard; [|intros e ? _; adds_quiet].
  apply adds_at_most_first; [|intros; adds_quiet].
  apply adds_at_most_bq_query. lia.
Qed.

Lemma get_purchase_details_adds dados_id h :
  adds_at_most kind (4 * nq) (get_purchase_details w dados_id) h.
Proof.
  apply (adds_at_most_attempt nq _ _ _ _
           (get_purchase_details_attempt_adds dados_id) 3).
Qed.

Lemma get_daily_checkins_adds cpf h :
  adds_at_most kind nq (get_daily_checkins w cpf) h.
Proof.
  unfold get_daily_checkins. adds_step.
  apply adds_at_most_first; [|intros; adds_quiet].
  apply adds_at_most_guard; [|intros e ? _; adds_quiet].
  apply adds_at_most_first; [|intros; adds_quiet].
  apply adds_at_most_bq_query. lia.
Qed.

Lemma get_quarter_spend_adds cpf h :
  adds_at_most kind nq (get_quarter_spend w cpf) h.
Proof.
  unfold get_quarter_spend. adds_step.
  apply adds_at_most_first; [|intros; adds_quiet].
  apply adds_at_most_guard; [|intros e ? _; adds_quiet].
  apply adds_at_most_first; [|intros; adds_quiet].
  apply adds_at_most_bq_query. lia.
Qed.

Lemma get_lifetime_spend_adds cpf h :
  adds_at_most kind nq (get_lifetime_spend w cpf) h.
Proof.
  unfold get_lifetime_spend. adds_step.
  apply adds_at_most_first; [|intros; adds_quiet].
  apply adds_at_most_guard; [|intros e ? _; adds_quiet].
  apply adds_at_most_first; [|intros; adds_quiet].
  apply adds_at_most_bq_query_job. lia.
Qed.

Lemma aggregate_email_data_adds cpf dados_id email url name h :
  adds_at_most kind (7 * nq)
    (aggregate_email_data w cpf dados_id email url name) h.
Proof.
  unfold aggregate_email_data.
  apply adds_at_most_guard; [|intros e ? _; adds_quiet].
  apply (adds_at_most_bind kind (4 * nq) (3 * nq));
    [lia|apply get_purchase_details_adds|intros items h1 _].
  apply (adds_at_most_bind kind nq (2 * nq));
    [lia|apply get_daily_checkins_adds|intros daily_checkins h2 _].
  apply (adds_at_most_bind kind nq nq);
    [lia|apply get_quarter_spend_adds|intros quarter_spend h3 _].
  apply adds_at_most_first;
    [apply get_lifetime_spend_adds|intros; adds_quiet].
Qed.

Lemma send_email_rec_adds n email_data retry_count h :
  adds_at_most kind (S n * ns) (send_email_rec w n email_data retry_count) h.
Proof.
  revert email_data retry_count h.
  induction n as [|n IH]; intros email_data retry_count h;
    cbn [send_email_rec]; unfold send_email_body, TEST_MODE; adds_step;
    unfold adds_at_most at 1; cbv beta iota;
    lazymatch goal with
    | |- (calls _ (snd (?m ?h0)) <= _ + ?b)%nat =>
        change (adds_at_most kind b m h0)
    end.
  - apply (adds_at_most_try kind ns 0); [lia| |intros e ? _; adds_quiet].
    adds_step; [adds_quiet|].
    apply adds_at_most_first; [|intros; adds_quiet].
    apply adds_at_most_sg_send. lia.
  - apply (adds_at_most_try kind ns (S n * ns)); [lia| |intros e ? _].
    + adds_step; [adds_quiet|].
      apply adds_at_most_first; [|intros; adds_quiet].
      apply adds_at_most_sg_send. lia.
    + adds_quiet. apply IH.
Qed.

Lemma send_email_adds email_data h :
  adds_at_most kind (3 * ns) (send_email w email_data 0) h.
Proof. apply (send_email_rec_adds 2). Qed.

Lemma process_webhook_payload_adds payload h :
  adds_at_most kind (12 * nh + 8 * nq + 3 * ns)
    (process_webhook_payload w payload) h.
Proof.
  unfold process_webhook_payload.
  apply adds_at_most_guard; [|intros e ? _; adds_quiet].
  adds_quiet.
  apply (adds_at_most_bind kind (4 * nh) (8 * nh + 8 * nq + 3 * ns));
    [lia| |intros nfce_id h1 _].
  { apply adds_at_most_guard; [|intros e ? _; adds_quiet].
    apply generate_nfce_adds. }
  adds_quiet.
  apply (adds_at_most_bind kind (nq + 4 * nh) (4 * nh + 7 * nq + 3 * ns));
    [lia|apply get_client_email_adds|intros client_email h2 _].
  adds_quiet.
  apply (adds_at_most_bind kind (4 * nh) (7 * nq + 3 * ns));
    [lia| |intros nota_fiscal_url h3 _].
  { adds_step; [|adds_quiet].
    apply adds_at_most_guard; [|intros e ? _; adds_quiet].
    apply get_nota_fiscal_link_adds. }
  apply (adds_at_most_bind kind (7 * nq) (3 * ns));
    [lia|apply aggregate_email_data_adds|intros email_data h4 _].
  apply send_email_adds.
Qed.
End AddsAtMost.

(** X21.  One invocation makes at most 12 ERP requests (three calls of up
    to 4 attempts each), at most 8 warehouse queries (the address, up to 4
    tries for the items, three loyalty figures) and at most 3 sends,
    whatever the payload and whatever the collaborators answer. *)
Theorem external_calls_are_bounded :
  forall w payload h,
    exists new,
      process_webhook_payload w payload h = (Ret tt, new ++ h)
      /\ (calls is_http new <= 12)%nat
      /\ (calls is_query new <= 8)%nat
      /\ (calls is_send new <= 3)%nat.
Proof.
  intros w payload h.
  destruct (run_of_emits w payload h any_event) as (new & R & _).
  { apply process_webhook_payload_emits; try reflexivity.
    exact quiet_any_event. }
  exists new. split; [exact R|].
  pose proof (process_webhook_payload_adds w is_http
                (fun _ _ => eq_refl) (fun _ => eq_refl) 1 0 0
                (fun _ _ => le_n 1)
                (fun q (H : is_http (EvQuery q) = true) =>
                   False_ind _ (Bool.diff_false_true H))
                (fun m (H : is_http (EvSend m) = true) =>
                   False_ind _ (Bool.diff_false_true H))
                payload h) as Hh.
  pose proof (process_webhook_payload_adds w is_query
                (fun _ _ => eq_refl) (fun _ => eq_refl) 0 1 0
                (fun r (H : is_query (EvHttpGet r) = true) =>
                   False_ind _ (Bool.diff_false_true H))
                (fun _ _ => le_n 1)
                (fun m (H : is_query (EvSend m) = true) =>
                   False_ind _ (Bool.diff_false_true H))
                payload h) as Hq.
  pose proof (process_webhook_payload_adds w is_send
                (fun _ _ => eq_refl) (fun _ => eq_refl) 0 0 1
                (fun r (H : is_send (EvHttpGet r) = true) =>
                   False_ind _ (Bool.diff_false_true H))
                (fun q (H : is_send (EvQuery q) = true) =>
                   False_ind _ (Bool.diff_false_true H))
                (fun _ _ => le_n 1)
                payload h) as Hs.
  unfold adds_at_most in Hh, Hq, Hs. rewrite R in Hh, Hq, Hs.
  cbn [snd] in Hh, Hq, Hs. rewrite calls_app in Hh, Hq, Hs.
  repeat split; lia.
Qed.

(* ===================================================================== *)
(** * Further properties: a complete purchase *)
(* ===================================================================== *)

(** The orchestrator's whole run on a response with the nested id. *)
Lemma generate_nfce_run w dados_id h json_data nfce_id :
  requests_get w (GerarNotaFiscalPedido (TINY_ERP_API_TOKEN w) dados_id)
    (calls is_gerar h) = HttpOk json_data ->
  validate_json_payload json_data = Ret tt ->
  nested_idNotaFiscal json_data = Some nfce_id ->
  generate_nfce w dados_id h
  = (Ret nfce_id,
     [EvLog INFO "NFC-e generated successfully with idNotaFiscal: ";
      EvHttpGet (GerarNotaFiscalPedido (TINY_ERP_API_TOKEN w) dados_id);
      EvLog INFO "Making API call to: ";
      EvLog INFO "Starting NFC-e generation for dados_id: "] ++ h).
Proof.
  intros H V N. unfold generate_nfce.
  unfold bind at 1. cbn [log emit].
  unfold bind at 1.
  rewrite (make_api_call_accepts w _ _ json_data); [|exact H|exact V].
  unfold nested_idNotaFiscal, embedded, retorno_of in N.
  destruct json_data as [| | | | |?|body]; try discriminate N.
  destruct (dict_get "retorno" body) as [[| | | | |?|retorno]|] eqn:E1;
    try discriminate N.
  destruct (dict_get "registros" retorno) as [[| | | | |?|registros]|] eqn:E2;
    try discriminate N.
  destruct (dict_get "registro" registros) as [[| | | | |?|registro]|] eqn:E3;
    try discriminate N.
  repeat (run; unfold dict_has; rewrite ?E1, ?E2, ?E3, ?N).
  reflexivity.
Qed.

Lemma get_nota_fiscal_link_run w idNotafiscal h json_data link :
  requests_get w (NotaFiscalObterLink (TINY_ERP_API_TOKEN w) idNotafiscal)
    (calls is_obter_link h) = HttpOk json_data ->
  validate_json_payload json_data = Ret tt ->
  nested_link_nfe json_data = Some link ->
  get_nota_fiscal_link w idNotafiscal h
  = (Ret link,
     [EvLog INFO "Successfully fetched Nota Fiscal link for idNotafiscal: ";
      EvHttpGet (NotaFiscalObterLink (TINY_ERP_API_TOKEN w) idNotafiscal);
      EvLog INFO "Making API call to: ";
      EvLog INFO "Fetching Nota Fiscal link for idNotafiscal: "] ++ h).
Proof.
  intros H V N. unfold get_nota_fiscal_link.
  unfold bind at 1. cbn [log emit].
  unfold bind at 1.
  rewrite (make_api_call_accepts w _ _ json_data); [|exact H|exact V].
  unfold nested_link_nfe, embedded, retorno_of in N.
  destruct json_data as [| | | | |?|body]; try discriminate N.
  destruct (dict_get "retorno" body) as [[| | | | |?|retorno]|] eqn:E1;
    try discriminate N.
  repeat (run; unfold dict_has; rewrite ?E1, ?N).
  reflexivity.
Qed.

Lemma get_purchase_details_first_try w dados_id h row rows :
  query_purchase_details w dados_id (calls is_items_query h)
  = BqRows (row :: rows) ->
  get_purchase_details w dados_id h
  = (Ret (VDict (dict_set "items" (VList (map item_detail (row :: rows)))
                   (fold_left update_summary (row :: rows) []))),
     [EvLog INFO "Purchase summary for dados_id";
      EvLog INFO "Items details: ";
      EvQuery (PurchaseDetailsQuery dados_id);
      EvLog INFO "Fetching purchase details for dados_id: "] ++ h).
Proof.
  intros R. unfold get_purchase_details, Tenacity.retry.
  cbn [Nat.sub Tenacity.attempt].
  rewrite (items_attempt_on_rows _ _ _ _ _ R). reflexivity.
Qed.

Lemma first_email_truthy rows email :
  first_email rows = Some email -> truthy email = true.
Proof.
  unfold first_email. intros F.
  destruct (find _ rows) as [row|] eqn:E; [|discriminate].
  apply find_some in E as [_ T]. injection F as <-. exact T.
Qed.

Lemma filter_none {A} (k : A -> bool) l :
  forallb (fun a => negb (k a)) l = true -> filter k l = [].
Proof.
  induction l as [|a l IH]; cbn; [auto|].
  intros F. apply andb_true_iff in F as [F1 F2].
  apply negb_true_iff in F1. rewrite F1. auto.
Qed.

Lemma dict_get_items_of_summary rows :
  dict_get "items"
    (dict_set "items" (VList (map item_detail rows))
       (fold_left update_summary rows []))
  = Some (VList (map item_detail rows)).
Proof. apply dict_get_set_same. Qed.

(** X22.  The complete purchase: the payload carries a usable id and a tax
    id, the ERP generates the document and gives its link at the first
    request, the warehouse knows the customer's address and the items, and
    the mail provider accepts.  Then the invocation returns having sent
    exactly one message, to [TEST_EMAIL], whose template data echo the
    resolved address, the payload's client name and transaction id, list
    the items' details in row order and carry the document link. *)
Theorem complete_purchase_is_emailed :
  forall w payload dados_id cpf h nfce_body nfce_id link_body link
         email_rows email row rows status_code body,
    payload_dados_id payload = Some dados_id ->
    truthy dados_id = true ->
    payload_cpfCnpj payload = Some cpf ->
    is_none cpf = false ->
    requests_get w (GerarNotaFiscalPedido (TINY_ERP_API_TOKEN w) dados_id)
      (calls is_gerar h) = HttpOk nfce_body ->
    validate_json_payload nfce_body = Ret tt ->
    nested_idNotaFiscal nfce_body = Some nfce_id ->
    truthy nfce_id = true ->
    query_client_email w cpf (calls is_email_query h) = BqRows email_rows ->
    first_email email_rows = Some email ->
    requests_get w (NotaFiscalObterLink (TINY_ERP_API_TOKEN w) nfce_id)
      (calls is_obter_link h) = HttpOk link_body ->
    validate_json_payload link_body = Ret tt ->
    nested_link_nfe link_body = Some link ->
    query_purchase_details w dados_id (calls is_items_query h)
    = BqRows (row :: rows) ->
    (forall m,
        sg_client_send w m (calls is_send h) = SgResponse status_code body) ->
    in_2xx status_code = true ->
    exists data new,
      process_webhook_payload w payload h = (Ret tt, new ++ h)
      /\ filter is_send new
         = [EvSend (build_message (VStr TEST_EMAIL) (VDict data))]
      /\ dict_get "client_email" data = Some email
      /\ dict_get "client_name" data = Some (payload_cliente_nome payload)
      /\ dict_get "dados_id" data = Some dados_id
      /\ dict_get "items" data = Some (VList (map item_detail (row :: rows)))
      /\ dict_get "nota_fiscal_url" data
         = (if is_none link then None else Some link).
Proof.
  intros w payload dados_id cpf h nfce_body nfce_id link_body link
         email_rows email row rows status_code body
         Hid Ht Hcpf Hn Hg Vg Ng Tn Hq Fe Hl Vl Nl Hi Hs Ok.
  pose proof (first_email_truthy _ _ Fe) as Te.
  unfold payload_cliente_nome, payload_dados.
  unfold payload_dados_id, payload_dados in Hid.
  unfold payload_cpfCnpj, payload_dados in Hcpf.
  destruct payload as [| | | | | |p]; try discriminate.
  destruct (dict_get "dados" p) as [[| | | | | |dados]|] eqn:Ed;
    try discriminate.
  destruct (dict_get "cliente" dados) as [[| | | | | |cliente]|] eqn:Ec;
    try discriminate.
  set (name := match dict_get "nome" cliente with
               | Some nome => nome
               | None => VStr "Unknown Client"
               end).
  (* the histories at which the stages start *)
  pose (h1 := [EvLog INFO "Cliente Nome, CPF/CNPJ";
               EvLog INFO "NFC-e generated successfully with idNotaFiscal: ";
               EvHttpGet
                 (GerarNotaFiscalPedido (TINY_ERP_API_TOKEN w) dados_id);
               EvLog INFO "Making API call to: ";
               EvLog INFO "Starting NFC-e generation for dados_id: "] ++ h).
  pose (h2 := [EvLog INFO "Email found: ";
               EvQuery (ClientEmailQuery cpf);
               EvLog INFO "Fetching email for client with CPF/CNPJ: "]
              ++ h1).
  pose (h3 := [EvLog INFO
                 "Successfully fetched Nota Fiscal link for idNotafiscal: ";
               EvHttpGet
                 (NotaFiscalObterLink (TINY_ERP_API_TOKEN w) nfce_id);
               EvLog INFO "Making API call to: ";
               EvLog INFO "Fetching Nota Fiscal link for idNotafiscal: "]
              ++ h2).
  pose proof (generate_nfce_run w dados_id h nfce_body nfce_id Hg Vg Ng)
    as G.
  assert (E : get_client_email w cpf h1 = (Ret email, h2)).
  { apply (get_client_email_from_warehouse w cpf h1 email_rows email);
      [|exact Fe].
    unfold h1, calls. cbn [app filter length is_email_query]. exact Hq. }
  assert (L : get_nota_fiscal_link w nfce_id h2 = (Ret link, h3)).
  { apply (get_nota_fiscal_link_run w nfce_id h2 link_body link);
      [|exact Vl|exact Nl].
    unfold h2, h1, calls. cbn [app filter length is_obter_link]. exact Hl. }
  assert (D : exists hd, get_purchase_details w dados_id h3
              = (Ret (VDict
                        (dict_set "items"
                           (VList (map item_detail (row :: rows)))
                           (fold_left update_summary (row :: rows) []))),
                 hd)).
  { eexists. apply get_purchase_details_first_try.
    unfold h3, h2, h1, calls. cbn [app filter length is_items_query].
    exact Hi. }
  destruct D as (hd & D).
  destruct (aggregate_returns w cpf dados_id email link name h3 _ hd D)
    as (v1 & v2 & v3 & na & A).
  assert (Fa : forallb no_send na = true).
  { destruct (emits_from_extends _ _ _ _ _
                (aggregate_email_data_emits w no_send quiet_no_send cpf
                   dados_id email link name (fun _ => eq_refl) h3) A)
      as (na' & Ea & Fa).
    apply app_inv_tail in Ea. subst na'. exact Fa. }
  match type of A with
  | _ = (Ret (VDict ?d), _) => set (data := d) in *
  end.
  assert (S3 : send_email w (VDict data) 0 (na ++ h3)
               = (Ret tt,
                  [EvLog INFO "Email successfully sent";
                   EvSend (build_message (VStr TEST_EMAIL) (VDict data));
                   EvLog INFO "Sending email with data: "] ++ na ++ h3)).
  { apply (send_email_on_success w (VDict data) 0 (na ++ h3) status_code
             body); [|exact Ok].
    rewrite calls_app, (calls_none is_send no_send na Fa).
    - unfold h3, h2, h1, calls. cbn [app filter length is_send Nat.add].
      apply Hs.
    - intros ev. unfold no_send. destruct (is_send ev); cbn; congruence. }
  exists data.
  exists ([EvLog INFO "Email successfully sent";
           EvSend (build_message (VStr TEST_EMAIL) (VDict data));
           EvLog INFO "Sending email with data: "] ++ na
          ++ [EvLog INFO
                "Successfully fetched Nota Fiscal link for idNotafiscal: ";
              EvHttpGet
                (NotaFiscalObterLink (TINY_ERP_API_TOKEN w) nfce_id);
              EvLog INFO "Making API call to: ";
              EvLog INFO "Fetching Nota Fiscal link for idNotafiscal: ";
              EvLog INFO "Email found: ";
              EvQuery (ClientEmailQuery cpf);
              EvLog INFO "Fetching email for client with CPF/CNPJ: ";
              EvLog INFO "Cliente Nome, CPF/CNPJ";
              EvLog INFO "NFC-e generated successfully with idNotaFiscal: ";
              EvHttpGet
                (GerarNotaFiscalPedido (TINY_ERP_API_TOKEN w) dados_id);
              EvLog INFO "Making API call to: ";
              EvLog INFO "Starting NFC-e generation for dados_id: "]).
  split; [|split].
  - unfold h3, h2, h1 in *. cbn [app] in G, E, L, A, S3.
    clearbody data. clear D Fa.
    unfold process_webhook_payload.
    repeat (run; unfold dict_has; rewrite ?Ed, ?Hid, ?Ht).
    rewrite G.
    repeat (run; rewrite ?Ed, ?Ec, ?Hcpf, ?Hn).
    fold name. rewrite E.
    repeat (run; rewrite ?Te, ?Tn).
    rewrite L. run. rewrite A. run. rewrite S3.
    f_equal. assoc_app.
  - rewrite !filter_app.
    rewrite (filter_none is_send na Fa). reflexivity.
  - subst data. cbv zeta.
    rewrite dict_get_items_of_summary.
    destruct (is_none link); repeat split; reflexivity.
Qed.

Lemma complete_purchase_is_emailed_witness :
  exists data new,
    process_webhook_payload world_complete sample_payload []
    = (Ret tt, new ++ [])
    /\ filter is_send new
       = [EvSend (build_message (VStr TEST_EMAIL) (VDict data))]
    /\ dict_get "client_email" data = Some (VStr "ana@x.com")
    /\ dict_get "client_name" data = Some (VStr "Ana")
    /\ dict_get "dados_id" data = Some (VStr "123")
    /\ dict_get "items" data = Some (VList [item_detail sample_item])
    /\ dict_get "nota_fiscal_url" data = Some (VStr "http://x/55").
Proof.
  apply (complete_purchase_is_emailed world_complete sample_payload
           (VStr "123") (VStr "111") [] body_nfce_55 (VStr "55")
           (body_link (VStr "http://x/55")) (VStr "http://x/55")
           [{| row_email := VStr "ana@x.com" |}] (VStr "ana@x.com")
           sample_item [] 202%Z EmptyString);
    reflexivity.
Defined.

(* ===================================================================== *)
(** * Further properties: the entry point *)
(* ===================================================================== *)

(** Once the set-up went through, [trigger_function] is the log line
    followed by what it does with the blob. *)
Lemma trigger_function_after_set_up p json_loads event token key data h :
  set_up p event token key data ->
  trigger_function p json_loads event h
  = (if truthy (VStr data) then
       payload <- lift (json_loads data) ;;
       process_webhook_payload (invocation_world p token key) payload
     else ret tt)%prog (EvLog INFO "Processing file: " :: h).
Proof.
  intros (S1 & S2 & file & bucket & F & B & D).
  unfold trigger_function, initialize_globals, get_api_token, download_blob.
  unfold try_except, bind, lift, log, emit, ret.
  rewrite S1, S2, F, B, D. reflexivity.
Qed.

(** X23.  An exception leaves [trigger_function] only before the pipeline
    starts: when it raises, the invocation has made no ERP request, no
    warehouse query and no send, and has not slept -- it has written at
    most log lines.  Otherwise it returns normally. *)
Theorem trigger_function_raises_only_before_the_pipeline :
  forall p json_loads event h,
    (exists new,
        trigger_function p json_loads event h = (Ret tt, new ++ h))
    \/ (exists e new,
           trigger_function p json_loads event h = (Raise e, new ++ h)
           /\ interactions new = []).
Proof.
  intros p json_loads event h.
  unfold trigger_function, initialize_globals, get_api_token, download_blob.
  unfold try_except, bind, lift, log, emit, ret, raise.
  destruct (access_secret_version p SECRET_MANAGER_API_TOKEN_NAME)
    as [token|e]; [|right; exists e; give_new; split; reflexivity].
  destruct (access_secret_version p SECRET_MANAGER_SENDGRID_API_KEY_NAME)
    as [key|e]; [|right; exists e; give_new; split; reflexivity].
  destruct (getitem event "name") as [file|e];
    [|right; exists e, []; split; reflexivity].
  destruct (getitem event "bucket") as [bucket|e];
    [|right; exists e, []; split; reflexivity].
  destruct (download_as_string p bucket file) as [data|e];
    [|right; exists e; give_new; split; reflexivity].
  cbn [fst snd].
  destruct (truthy (VStr data));
    [|left; give_new; reflexivity].
  destruct (json_loads data) as [payload|e];
    [|right; exists e; give_new; split; reflexivity].
  left.
  match goal with
  | |- context [process_webhook_payload ?w payload ?h0] =>
      destruct (run_of_emits w payload h0 any_event) as (new & R & _);
      [apply process_webhook_payload_emits; try reflexivity;
       exact quiet_any_event|];
      exists (new ++ [EvLog INFO "Processing file: "]);
      rewrite R, <- app_assoc; reflexivity
  end.
Qed.

(** X24.  A blob that is not JSON is not handled: the parser's exception
    leaves [trigger_function] as it is, with no error line written and the
    pipeline never entered. *)
Theorem malformed_blob_raises_unlogged :
  forall p json_loads event token key data e h,
    set_up p event token key data ->
    truthy (VStr data) = true ->
    json_loads data = Raise e ->
    trigger_function p json_loads event h
    = (Raise e, [EvLog INFO "Processing file: "] ++ h).
Proof.
  intros p json_loads event token key data e h S T J.
  rewrite (trigger_function_after_set_up _ _ _ _ _ _ _ S), T.
  unfold bind, lift. rewrite J. reflexivity.
Qed.

Lemma malformed_blob_raises_unlogged_witness :
  trigger_function (sample_platform "not json" world_complete)
    sample_json_loads sample_event []
  = (Raise (OtherError "JSONDecodeError" "not json"),
     [EvLog INFO "Processing file: "] ++ []).
Proof.
  apply (malformed_blob_raises_unlogged
           (sample_platform "not json" world_complete) sample_json_loads
           sample_event "erp-token" "mail-key" "not json").
  - split; [reflexivity|]. split; [reflexivity|].
    exists (VStr "order.json"), (VStr "webhooks"). repeat split.
  - reflexivity.
  - reflexivity.
Defined.

(** X25.  An empty blob is skipped: after the set-up [trigger_function]
    writes its one log line and returns, whatever the parser would say. *)
Theorem empty_blob_is_skipped :
  forall p json_loads event token key h,
    set_up p event token key EmptyString ->
    trigger_function p json_loads event h
    = (Ret tt, [EvLog INFO "Processing file: "] ++ h).
Proof.
  intros p json_loads event token key h S.
  rewrite (trigger_function_after_set_up _ _ _ _ _ _ _ S). reflexivity.
Qed.

Lemma empty_blob_is_skipped_witness :
  trigger_function (sample_platform EmptyString world_complete)
    sample_json_loads sample_event []
  = (Ret tt, [EvLog INFO "Processing file: "] ++ []).
Proof.
  apply (empty_blob_is_skipped
           (sample_platform EmptyString world_complete) sample_json_loads
           sample_event "erp-token" "mail-key").
  split; [reflexivity|]. split; [reflexivity|].
  exists (VStr "order.json"), (VStr "webhooks"). repeat split.
Defined.

(** X26.  The pipeline runs with the token this invocation has just read
    from Secret Manager: after the set-up, for a parsed payload with a
    usable [dados.id], [trigger_function] returns normally and its first
    external interaction is the document-generation request carrying that
    token and that id. *)
Theorem trigger_function_uses_the_fetched_token :
  forall p json_loads event token key data payload dados_id h,
    set_up p event token key data ->
    truthy (VStr data) = true ->
    json_loads data = Ret payload ->
    payload_dados_id payload = Some dados_id ->
    truthy dados_id = true ->
    exists new,
      trigger_function p json_loads event h = (Ret tt, new ++ h)
      /\ hd_error (interactions new)
         = Some (EvHttpGet (GerarNotaFiscalPedido token dados_id)).
Proof.
  intros p json_loads event token key data payload dados_id h S T J Hid Ht.
  rewrite (trigger_function_after_set_up _ _ _ _ _ _ _ S), T.
  unfold bind, lift. rewrite J.
  destruct (process_starts_with_generation (invocation_world p token key)
              payload dados_id (EvLog INFO "Processing file: " :: h) Hid Ht)
    as (new & E & I).
  cbn [TINY_ERP_API_TOKEN invocation_world] in I.
  exists (new ++ [EvLog INFO "Processing file: "]).
  split.
  - pose proof (process_webhook_payload_returns
                  (invocation_world p token key) payload
                  (EvLog INFO "Processing file: " :: h)) as R.
    destruct (process_webhook_payload _ payload _) as [r h'].
    cbn in *. subst. rewrite <- app_assoc. reflexivity.
  - rewrite interactions_app. exact I.
Qed.

Lemma trigger_function_uses_the_fetched_token_witness :
  exists new,
    trigger_function (sample_platform "{sample}" world_complete)
      sample_json_loads sample_event []
    = (Ret tt, new ++ [])
    /\ hd_error (interactions new)
       = Some (EvHttpGet (GerarNotaFiscalPedido "erp-token" (VStr "123"))).
Proof.
  apply (trigger_function_uses_the_fetched_token
           (sample_platform "{sample}" world_complete) sample_json_loads
           sample_event "erp-token" "mail-key" "{sample}" sample_payload
           (VStr "123") []); try reflexivity.
  split; [reflexivity|]. split; [reflexivity|].
  exists (VStr "order.json"), (VStr "webhooks"). repeat split.
Defined.

(* ===================================================================== *)
(** * Further properties: how long an invocation sleeps *)
(* ===================================================================== *)

Lemma slept_app a b : (slept (a ++ b) == slept a + slept b)%Q.
Proof.
  induction a as [|ev a IH]; cbn [app slept].
  - lra.
  - destruct ev; lra.
Qed.

Lemma slept_cons_awake ev h : is_sleep ev = false -> slept (ev :: h) = slept h.
Proof. destruct ev; cbn; congruence. Qed.

Lemma sleeps_at_most_weaken {A} b b' (m : M A) h :
  (b <= b')%Q -> sleeps_at_most b m h -> sleeps_at_most b' m h.
Proof. unfold sleeps_at_most. lra. Qed.

Lemma sleeps_at_most_bind {A B} b1 b2 b (m : M A) (k : A -> M B) h :
  (0 <= b2)%Q -> (b1 + b2 <= b)%Q ->
  sleeps_at_most b1 m h ->
  (forall a h', m h = (Ret a, h') -> sleeps_at_most b2 (k a) h') ->
  sleeps_at_most b (bind m k) h.
Proof.
  unfold sleeps_at_most, bind. intros P L Hm Hk.
  destruct (m h) as [[a|e] h1] eqn:R; cbn [snd] in *.
  - specialize (Hk a h1 eq_refl). lra.
  - lra.
Qed.

Lemma sleeps_at_most_try {A} b1 b2 b (m : M A) handler h :
  (0 <= b2)%Q -> (b1 + b2 <= b)%Q ->
  sleeps_at_most b1 m h ->
  (forall e h', m h = (Raise e, h') -> sleeps_at_most b2 (handler e) h') ->
  sleeps_at_most b (try_except m handler) h.
Proof.
  unfold sleeps_at_most, try_except. intros P L Hm Hk.
  destruct (m h) as [[a|e] h1] eqn:R; cbn [snd] in *.
  - lra.
  - specialize (Hk e h1 eq_refl). lra.
Qed.

Lemma sleeps_at_most_ret {A} b (a : A) h :
  (0 <= b)%Q -> sleeps_at_most b (ret a) h.
Proof. unfold sleeps_at_most, ret. cbn [snd]. lra. Qed.

Lemma sleeps_at_most_raise {A} b e h :
  (0 <= b)%Q -> sleeps_at_most b (@raise A e) h.
Proof. unfold sleeps_at_most, raise. cbn [snd]. lra. Qed.

Lemma sleeps_at_most_lift {A} b (r : result A) h :
  (0 <= b)%Q -> sleeps_at_most b (lift r) h.
Proof. unfold sleeps_at_most, lift. cbn [snd]. lra. Qed.

Lemma sleeps_at_most_log b lv msg h :
  (0 <= b)%Q -> sleeps_at_most b (log lv msg) h.
Proof.
  unfold sleeps_at_most, log, emit. cbn [snd].
  rewrite slept_cons_awake by reflexivity. lra.
Qed.

Lemma sleeps_at_most_sleep b s h :
  (s <= b)%Q -> sleeps_at_most b (sleep s) h.
Proof.
  unfold sleeps_at_most, sleep, emit. cbn [snd slept]. lra.
Qed.

Lemma sleeps_at_most_http_get b w url h :
  (0 <= b)%Q -> sleeps_at_most b (http_get w url) h.
Proof.
  unfold sleeps_at_most, http_get. intros P.
  destruct (requests_get w url _); cbn [snd];
    rewrite slept_cons_awake by reflexivity; lra.
Qed.

Lemma sleeps_at_most_bq_query {R} b q k (answers : nat -> bq_reply R) h :
  (0 <= b)%Q -> sleeps_at_most b (bq_query q k answers) h.
Proof.
  unfold sleeps_at_most, bq_query. intros P.
  destruct (answers _); cbn [snd];
    rewrite slept_cons_awake by reflexivity; lra.
Qed.

Lemma sleeps_at_most_bq_query_job {R} b q k (answers : nat -> bq_reply R)
  succeeded h :
  (0 <= b)%Q -> sleeps_at_most b (bq_query_job q k answers succeeded) h.
Proof.
  unfold sleeps_at_most, bq_query_job. intros P.
  destruct (answers _); cbn [snd];
    rewrite slept_cons_awake by reflexivity; lra.
Qed.

Lemma sleeps_at_most_sg_send b w m h :
  (0 <= b)%Q -> sleeps_at_most b (sg_send w m) h.
Proof.
  unfold sleeps_at_most, sg_send. intros P.
  destruct (sg_client_send w m _); cbn [snd];
    rewrite slept_cons_awake by reflexivity; lra.
Qed.

Lemma times_nonneg n c : (0 <= c)%Q -> (0 <= times n c)%Q.
Proof. intros P. induction n as [|n IH]; cbn [times]; lra. Qed.

(** A call retried [n] times sleeps [n] times at most, each time for what
    [wait] says. *)
Lemma sleeps_at_most_attempt {A} c wait retry_on before_sleep (fn : M A) :
  (0 <= c)%Q ->
  (forall h, sleeps_at_most 0 fn h) ->
  forall n k h,
    (forall j, (k <= j < k + n)%nat -> (wait j <= c)%Q) ->
    sleeps_at_most (times n c)
      (Tenacity.attempt wait retry_on before_sleep fn n k) h.
Proof.
  intros P F n. induction n as [|n IH]; intros k h W;
    pose proof (F h) as Fh; unfold sleeps_at_most in *;
    cbn [Tenacity.attempt times];
    destruct (fn h) as [[a|e] h1]; cbn [snd] in *;
    try (first [lra|pose proof (times_nonneg n c P); lra]);
    destruct (retry_on e); cbn [snd];
    try (first [lra|pose proof (times_nonneg n c P); lra]).
  assert (Wk : (wait k <= c)%Q) by (apply W; lia).
  match goal with
  | |- context [Tenacity.attempt _ _ _ _ n ?j ?hc] =>
      assert (IHn := IH j hc); revert IHn
  end.
  intros IHn. lapply IHn; [clear IHn; intros IHn|intros j Hj; apply W; lia].
  revert IHn.
  destruct before_sleep as [lv|]; cbn [slept]; lra.
Qed.

Lemma sleeps_at_most_then {A B} b (m : M A) (k : A -> M B) h :
  (0 <= b)%Q ->
  sleeps_at_most 0 m h ->
  (forall a h', m h = (Ret a, h') -> sleeps_at_most b (k a) h') ->
  sleeps_at_most b (bind m k) h.
Proof. intros P. apply (sleeps_at_most_bind 0 b b); lra. Qed.

Lemma sleeps_at_most_first {A B} b (m : M A) (k : A -> M B) h :
  sleeps_at_most b m h ->
  (forall a h', m h = (Ret a, h') -> sleeps_at_most 0 (k a) h') ->
  sleeps_at_most b (bind m k) h.
Proof. apply (sleeps_at_most_bind b 0 b); lra. Qed.

(** A [try] whose handler does not sleep. *)
Lemma sleeps_at_most_guard {A} b (m : M A) handler h :
  sleeps_at_most b m h ->
  (forall e h', m h = (Raise e, h') -> sleeps_at_most 0 (handler e) h') ->
  sleeps_at_most b (try_except m handler) h.
Proof. apply (sleeps_at_most_try b 0 b); lra. Qed.

(** A [try] whose body does not sleep. *)
Lemma sleeps_at_most_rescue {A} b (m : M A) handler h :
  (0 <= b)%Q ->
  sleeps_at_most 0 m h ->
  (forall e h', m h = (Raise e, h') -> sleeps_at_most b (handler e) h') ->
  sleeps_at_most b (try_except m handler) h.
Proof. intros P. apply (sleeps_at_most_try 0 b b); lra. Qed.

Ltac sleeps_step :=
  cbv zeta;
  lazymatch goal with
  | |- sleeps_at_most _ (bind (log _ _) _) _ =>
      apply sleeps_at_most_then;
      [lra|apply sleeps_at_most_log; lra|intros ? ? _]
  | |- sleeps_at_most _ (bind (lift _) _) _ =>
      apply sleeps_at_most_then;
      [lra|apply sleeps_at_most_lift; lra|intros ? ? _]
  | |- sleeps_at_most _ (bind (http_get _ _) _) _ =>
      apply sleeps_at_most_then;
      [lra|apply sleeps_at_most_http_get; lra|intros ? ? _]
  | |- sleeps_at_most _ (bind (bq_query _ _ _) _) _ =>
      apply sleeps_at_most_then;
      [lra|apply sleeps_at_most_bq_query; lra|intros ? ? _]
  | |- sleeps_at_most _ (bind (bq_query_job _ _ _ _) _) _ =>
      apply sleeps_at_most_then;
      [lra|apply sleeps_at_most_bq_query_job; lra|intros ? ? _]
  | |- sleeps_at_most _ (bind (sg_send _ _) _) _ =>
      apply sleeps_at_most_then;
      [lra|apply sleeps_at_most_sg_send; lra|intros ? ? _]
  | |- sleeps_at_most _ (bind (if ?b then log _ _ else _) _) _ => destruct b
  | |- sleeps_at_most _
         (bind (match ?e with KeyError _ => _ | _ => _ end) _) _ =>
      destruct e
  | |- sleeps_at_most _ (ret _) _ => apply sleeps_at_most_ret; lra
  | |- sleeps_at_most _ (raise _) _ => apply sleeps_at_most_raise; lra
  | |- sleeps_at_most _ (lift _) _ => apply sleeps_at_most_lift; lra
  | |- sleeps_at_most _ (log _ _) _ => apply sleeps_at_most_log; lra
  | |- sleeps_at_most _ (if ?b then _ else _) _ => destruct b
  | |- sleeps_at_most _ (match ?x with _ => _ end) _ => destruct x
  end.

Ltac sleeps_awake := repeat sleeps_step.

Section SleepsAtMost.
Variable w : world.

Lemma make_api_call_attempt_sleeps url h :
  sleeps_at_most 0 (make_api_call_attempt w url) h.
Proof.
  unfold make_api_call_attempt.
  apply sleeps_at_most_guard; [|intros e ? _]; sleeps_awake.
Qed.

Lemma make_api_call_sleeps url h :
  sleeps_at_most (90 # 1) (make_api_call w url) h.
Proof.
  apply (sleeps_at_most_weaken (times 3 (30 # 1))); [cbn [times]; lra|].
  apply sleeps_at_most_attempt;
    [lra|apply make_api_call_attempt_sleeps|].
  intros j Hj.
  assert (J : j = 1%nat \/ j = 2%nat \/ j = 3%nat) by lia.
  destruct J as [-> | [-> | ->]]; apply Qle_bool_imp_le; reflexivity.
Qed.

Lemma generate_nfce_sleeps dados_id h :
  sleeps_at_most (90 # 1) (generate_nfce w dados_id) h.
Proof.
  unfold generate_nfce. sleeps_step.
  apply sleeps_at_most_first;
    [apply make_api_call_sleeps|intros; sleeps_awake].
Qed.

Lemma get_nota_fiscal_link_sleeps idNotafiscal h :
  sleeps_at_most (90 # 1) (get_nota_fiscal_link w idNotafiscal) h.
Proof.
  unfold get_nota_fiscal_link. sleeps_step.
  apply sleeps_at_most_first;
    [apply make_api_call_sleeps|intros; sleeps_awake].
Qed.

Lemma get_client_email_from_tinyerp_sleeps cpf h :
  sleeps_at_most (90 # 1) (get_client_email_from_tinyerp w cpf) h.
Proof.
  unfold get_client_email_from_tinyerp. sleeps_step.
  apply sleeps_at_most_first;
    [apply make_api_call_sleeps|intros; sleeps_awake].
Qed.

Lemma get_client_email_sleeps cpf h :
  sleeps_at_most (90 # 1) (get_client_email w cpf) h.
Proof.
  unfold get_client_email. sleeps_step.
  apply sleeps_at_most_guard; [|intros e ? _; sleeps_awake].
  sleeps_awake. apply get_client_email_from_tinyerp_sleeps.
Qed.

Lemma get_purchase_details_attempt_sleeps dados_id h :
  sleeps_at_most 0 (get_purchase_details_attempt w dados_id) h.
Proof.
  unfold get_purchase_details_attempt. sleeps_step.
  apply sleeps_at_most_guard; [|intros e ? _]; sleeps_awake.
Qed.

Lemma get_purchase_details_sleeps dados_id h :
  sleeps_at_most (270 # 1) (get_purchase_details w dados_id) h.
Proof.
  apply (sleeps_at_most_weaken (times 3 (90 # 1))); [cbn [times]; lra|].
  apply sleeps_at_most_attempt;
    [lra|apply get_purchase_details_attempt_sleeps|].
  intros j _. unfold items_wait.
  apply (wait_exponential_bounds (30 # 1) (30 # 1) (90 # 1) j); lra.
Qed.

Lemma get_daily_checkins_sleeps cpf h :
  sleeps_at_most 0 (get_daily_checkins w cpf) h.
Proof.
  unfold get_daily_checkins. sleeps_step.
  apply sleeps_at_most_first; [|intros; sleeps_awake].
  apply sleeps_at_most_guard; [|intros e ? _]; sleeps_awake.
Qed.

Lemma get_quarter_spend_sleeps cpf h :
  sleeps_at_most 0 (get_quarter_spend w cpf) h.
Proof.
  unfold get_quarter_spend. sleeps_step.
  apply sleeps_at_most_first; [|intros; sleeps_awake].
  apply sleeps_at_most_guard; [|intros e ? _]; sleeps_awake.
Qed.

Lemma get_lifetime_spend_sleeps cpf h :
  sleeps_at_most 0 (get_lifetime_spend w cpf) h.
Proof.
  unfold get_lifetime_spend. sleeps_step.
  apply sleeps_at_most_first; [|intros; sleeps_awake].
  apply sleeps_at_most_guard; [|intros e ? _]; sleeps_awake.
Qed.

Lemma aggregate_email_data_sleeps cpf dados_id email url name h :
  sleeps_at_most (270 # 1)
    (aggregate_email_data w cpf dados_id email url name) h.
Proof.
  unfold aggregate_email_data.
  apply sleeps_at_most_guard; [|intros e ? _; sleeps_awake].
  apply sleeps_at_most_first;
    [apply get_purchase_details_sleeps|intros items h1 _].
  apply sleeps_at_most_then;
    [lra|apply get_daily_checkins_sleeps|intros daily_checkins h2 _].
  apply sleeps_at_most_then;
    [lra|apply get_quarter_spend_sleeps|intros quarter_spend h3 _].
  apply sleeps_at_most_then;
    [lra|apply get_lifetime_spend_sleeps|intros; sleeps_awake].
Qed.

(** What is left to sleep from attempt [retry_count] on: 60 and 120 before
    the second and third attempts. *)
Lemma send_email_rec_sleeps n email_data retry_count h :
  sleeps_at_most
    (match retry_count with
     | 0%nat => 180 # 1
     | 1%nat => 120 # 1
     | _ => 0
     end)
    (send_email_rec w n email_data retry_count) h.
Proof.
  revert email_data retry_count h.
  induction n as [|n IH]; intros email_data retry_count h;
    destruct retry_count as [|[|retry_count]];
    cbn [send_email_rec]; unfold send_email_body, TEST_MODE; sleeps_step;
    unfold sleeps_at_most at 1; cbv beta iota;
    lazymatch goal with
    | |- (slept (snd (?m ?h0)) <= _ + ?b)%Q =>
        change (sleeps_at_most b m h0)
    end;
    unfold Nat.ltb; cbn [Nat.leb Nat.add];
    (apply sleeps_at_most_rescue; [lra|sleeps_awake|intros e ? _]).
  - sleeps_step.
    apply (sleeps_at_most_bind (60 # 1) 0); try lra;
      [apply sleeps_at_most_sleep; apply Qle_bool_imp_le; reflexivity|].
    intros; sleeps_awake.
  - sleeps_step.
    apply (sleeps_at_most_bind (120 # 1) 0); try lra;
      [apply sleeps_at_most_sleep; apply Qle_bool_imp_le; reflexivity|].
    intros; sleeps_awake.
  - sleeps_awake.
  - sleeps_step.
    apply (sleeps_at_most_bind (60 # 1) (120 # 1)); try lra;
      [apply sleeps_at_most_sleep; apply Qle_bool_imp_le; reflexivity|].
    intros. apply (IH email_data 1%nat).
  - sleeps_step.
    apply (sleeps_at_most_bind (120 # 1) 0); try lra;
      [apply sleeps_at_most_sleep; apply Qle_bool_imp_le; reflexivity|].
    intros. apply (IH email_data 2%nat).
  - sleeps_awake.
Qed.
End SleepsAtMost.

Lemma send_email_sleeps w email_data h :
  sleeps_at_most (180 # 1) (send_email w email_data 0) h.
Proof. apply (send_email_rec_sleeps w 2 email_data 0). Qed.

Lemma process_webhook_payload_sleeps w payload h :
  sleeps_at_most (720 # 1) (process_webhook_payload w payload) h.
Proof.
  unfold process_webhook_payload.
  apply sleeps_at_most_guard; [|intros e ? _; sleeps_awake].
  sleeps_awake.
  apply (sleeps_at_most_bind (90 # 1) (630 # 1)); try lra;
    [|intros nfce_id h1 _].
  { apply sleeps_at_most_guard; [|intros e ? _; sleeps_awake].
    apply generate_nfce_sleeps. }
  sleeps_awake.
  apply (sleeps_at_most_bind (90 # 1) (540 # 1)); try lra;
    [apply get_client_email_sleeps|intros client_email h2 _].
  sleeps_awake.
  apply (sleeps_at_most_bind (90 # 1) (450 # 1)); try lra;
    [|intros nota_fiscal_url h3 _].
  { sleeps_step; [|sleeps_awake].
    apply sleeps_at_most_guard; [|intros e ? _; sleeps_awake].
    apply get_nota_fiscal_link_sleeps. }
  apply (sleeps_at_most_bind (270 # 1) (180 # 1)); try lra;
    [apply aggregate_email_data_sleeps|intros email_data h4 _].
  apply send_email_sleeps.
Qed.

(** X27.  One invocation sleeps at most 720 seconds in all, whatever the
    payload and whatever the collaborators answer: up to 90 in each of the
    three ERP calls (three waits of 30), up to 270 waiting for the purchase
    items (three waits of at most 90) and up to 180 between send attempts
    (60, then 120). *)
Theorem an_invocation_sleeps_at_most_720_seconds :
  forall w payload h,
    exists new,
      process_webhook_payload w payload h = (Ret tt, new ++ h)
      /\ (slept new <= 720 # 1)%Q.
Proof.
  intros w payload h.
  destruct (run_of_emits w payload h any_event) as (new & R & _).
  { apply process_webhook_payload_emits; try reflexivity.
    exact quiet_any_event. }
  exists new. split; [exact R|].
  pose proof (process_webhook_payload_sleeps w payload h) as B.
  unfold sleeps_at_most in B. rewrite R in B. cbn [snd] in B.
  rewrite slept_app in B. lra.
Qed.
